(** * The measurement orchestrator of the face-distance client

    A shallow embedding of the event handlers of [FaceDetectionApp]
    (src/App.jsx) together with the authentication context and the route
    guard it runs under (AuthContext, ProtectedRoute), and the properties
    of the measuring / countdown state machine they implement.

    Conventions of the embedding.
    - A handler is a computation in the monad [M]: it threads the world
      (the authentication context and the component's state, refs and
      browser resources) and may abort with a JavaScript exception.
    - React state that a handler merely reads is read from the closure
      the handler was created in, so those values are parameters of the
      handler (suffix [_c]); refs are read from the world.  The socket
      effect lists [isMeasuring] and [isDistanceReached] among its
      dependencies, hence the installed [onmessage] always carries the
      values of the last commit: this is what [deliver] passes.
    - [Date.now()] and the webcam's screenshot are inputs of a handler.
    - An inbound payload is given by the outcome of [JSON.parse] on it,
      a syntax error or a message at the types of the wire protocol.
    - The FPS ticker, the connection-status text and the markup are not
      part of the model. *)

From Stdlib Require Import String Ascii List Bool Arith ZArith PArith QArith Lia.
Import ListNotations.
Close Scope Q_scope.
Open Scope string_scope.
Open Scope list_scope.

(** ** Data *)

Inductive ReadyState : Type := CONNECTING | OPEN | CLOSING | CLOSED.

Inductive Command : Type := start_calibration | capture | start_distance | stop_all.

(** What [ws.current.send(JSON.stringify(...))] puts on the wire. *)
Inductive OutMsg : Type :=
| OutCommand (command : Command) (image : option string)
| OutFrame (image : string).

Record FaceInfo : Type := mkFaceInfo { distance : Q }.

Record Box : Type := mkBox { width : Z; height : Z }.

(** The parsed inbound message; [None] is an absent field. *)
Record Data : Type := mkData {
  error : option string;
  success : option bool;
  processed_image : option string;
  focal_length : option Q;
  reference_box : option Box;
  message : option string;
  face_detected : option bool;
  faces : option (list FaceInfo);
  at_target_distance : option bool
}.

(** [event.data] as [JSON.parse] sees it. *)
Inductive Payload : Type :=
| Malformed (raw : string)
| Json (data : Data).

(** The text shown as current distance: ['0m'], [`${distance}m`] or
    ['Calculating...']. *)
Inductive DistanceText : Type :=
| ZeroMetres
| Metres (d : Q)
| Calculating.

(** The function handed to [setInterval]; [sendFrame] is a [useCallback]
    closure over [isDistanceReached] and [lastFaceDetected]. *)
Inductive Callback : Type :=
| CbSendFrame (isDistanceReached_c : bool) (lastFaceDetected_c : Z)
| CbCountdown.

Inductive Exn : Type := SyntaxError | TypeError | InvalidStateError.

(** ** JavaScript truthiness and string helpers *)

Definition str_truthy (s : string) : bool :=
  match s with EmptyString => false | String _ _ => true end.

Definition truthy_string (o : option string) : option string :=
  match o with
  | Some s => if str_truthy s then Some s else None
  | None => None
  end.

Definition truthy_bool (o : option bool) : bool :=
  match o with Some b => b | None => false end.

Definition truthy_number (o : option Q) : option Q :=
  match o with
  | Some q => if Qeq_bool q 0 then None else Some q
  | None => None
  end.

(** [hay.includes(needle)] *)
Fixpoint includes (needle hay : string) : bool :=
  prefix needle hay ||
  match hay with
  | EmptyString => false
  | String _ rest => includes needle rest
  end.

Definition lower_ascii (c : ascii) : ascii :=
  let n := nat_of_ascii c in
  if (65 <=? n)%nat && (n <=? 90)%nat then ascii_of_nat (n + 32) else c.

(** [s.toLowerCase()], on the ASCII letters. *)
Fixpoint toLowerCase (s : string) : string :=
  match s with
  | EmptyString => EmptyString
  | String c rest => String (lower_ascii c) (toLowerCase rest)
  end.

(** ** Component state, refs and browser resources *)

(** The [useState] cells and the [useRef] cells of [FaceDetectionApp],
    followed by the browser's side of it: the live intervals with the
    function each one calls, the next interval id, the messages written
    to the socket and the lines written by [console.error]. *)
Record State : Type := mkState {
  showCamera : bool;
  currentDistance : DistanceText;
  focalLength : Q;
  processedImage : option string;
  isCalibrating : bool;
  isCalibrated : bool;
  statusMessage : string;
  isMeasuring : bool;
  referenceBox : option Box;
  atTargetDistance : bool;
  isDistanceReached : bool;
  lastFaceDetected : Z;
  showCountdown : bool;
  countdownValue : nat;
  showLandoltTest : bool;
  ws : option ReadyState;
  detectionInterval : option positive;
  frameCountRef : nat;
  consecutiveTargetFrames : nat;
  framesSinceLastFace : nat;
  countdownTimerRef : option positive;
  timers : list (positive * Callback);
  nextTimer : positive;
  sent : list OutMsg;
  console : list string
}.

Definition setShowCamera (v : bool) (s : State) : State :=
  {| showCamera := v; currentDistance := currentDistance s; focalLength := focalLength s;
  processedImage := processedImage s; isCalibrating := isCalibrating s; isCalibrated :=
  isCalibrated s; statusMessage := statusMessage s; isMeasuring := isMeasuring s; referenceBox
  := referenceBox s; atTargetDistance := atTargetDistance s; isDistanceReached :=
  isDistanceReached s; lastFaceDetected := lastFaceDetected s; showCountdown := showCountdown
  s; countdownValue := countdownValue s; showLandoltTest := showLandoltTest s; ws := ws s;
  detectionInterval := detectionInterval s; frameCountRef := frameCountRef s;
  consecutiveTargetFrames := consecutiveTargetFrames s; framesSinceLastFace :=
  framesSinceLastFace s; countdownTimerRef := countdownTimerRef s; timers := timers s;
  nextTimer := nextTimer s; sent := sent s; console := console s |}.

Definition setCurrentDistance (v : DistanceText) (s : State) : State :=
  {| showCamera := showCamera s; currentDistance := v; focalLength := focalLength s;
  processedImage := processedImage s; isCalibrating := isCalibrating s; isCalibrated :=
  isCalibrated s; statusMessage := statusMessage s; isMeasuring := isMeasuring s; referenceBox
  := referenceBox s; atTargetDistance := atTargetDistance s; isDistanceReached :=
  isDistanceReached s; lastFaceDetected := lastFaceDetected s; showCountdown := showCountdown
  s; countdownValue := countdownValue s; showLandoltTest := showLandoltTest s; ws := ws s;
  detectionInterval := detectionInterval s; frameCountRef := frameCountRef s;
  consecutiveTargetFrames := consecutiveTargetFrames s; framesSinceLastFace :=
  framesSinceLastFace s; countdownTimerRef := countdownTimerRef s; timers := timers s;
  nextTimer := nextTimer s; sent := sent s; console := console s |}.

Definition setFocalLength (v : Q) (s : State) : State :=
  {| showCamera := showCamera s; currentDistance := currentDistance s; focalLength := v;
  processedImage := processedImage s; isCalibrating := isCalibrating s; isCalibrated :=
  isCalibrated s; statusMessage := statusMessage s; isMeasuring := isMeasuring s; referenceBox
  := referenceBox s; atTargetDistance := atTargetDistance s; isDistanceReached :=
  isDistanceReached s; lastFaceDetected := lastFaceDetected s; showCountdown := showCountdown
  s; countdownValue := countdownValue s; showLandoltTest := showLandoltTest s; ws := ws s;
  detectionInterval := detectionInterval s; frameCountRef := frameCountRef s;
  consecutiveTargetFrames := consecutiveTargetFrames s; framesSinceLastFace :=
  framesSinceLastFace s; countdownTimerRef := countdownTimerRef s; timers := timers s;
  nextTimer := nextTimer s; sent := sent s; console := console s |}.

Definition setProcessedImage (v : option string) (s : State) : State :=
  {| showCamera := showCamera s; currentDistance := currentDistance s; focalLength :=
  focalLength s; processedImage := v; isCalibrating := isCalibrating s; isCalibrated :=
  isCalibrated s; statusMessage := statusMessage s; isMeasuring := isMeasuring s; referenceBox
  := referenceBox s; atTargetDistance := atTargetDistance s; isDistanceReached :=
  isDistanceReached s; lastFaceDetected := lastFaceDetected s; showCountdown := showCountdown
  s; countdownValue := countdownValue s; showLandoltTest := showLandoltTest s; ws := ws s;
  detectionInterval := detectionInterval s; frameCountRef := frameCountRef s;
  consecutiveTargetFrames := consecutiveTargetFrames s; framesSinceLastFace :=
  framesSinceLastFace s; countdownTimerRef := countdownTimerRef s; timers := timers s;
  nextTimer := nextTimer s; sent := sent s; console := console s |}.

Definition setIsCalibrating (v : bool) (s : State) : State :=
  {| showCamera := showCamera s; currentDistance := currentDistance s; focalLength :=
  focalLength s; processedImage := processedImage s; isCalibrating := v; isCalibrated :=
  isCalibrated s; statusMessage := statusMessage s; isMeasuring := isMeasuring s; referenceBox
  := referenceBox s; atTargetDistance := atTargetDistance s; isDistanceReached :=
  isDistanceReached s; lastFaceDetected := lastFaceDetected s; showCountdown := showCountdown
  s; countdownValue := countdownValue s; showLandoltTest := showLandoltTest s; ws := ws s;
  detectionInterval := detectionInterval s; frameCountRef := frameCountRef s;
  consecutiveTargetFrames := consecutiveTargetFrames s; framesSinceLastFace :=
  framesSinceLastFace s; countdownTimerRef := countdownTimerRef s; timers := timers s;
  nextTimer := nextTimer s; sent := sent s; console := console s |}.

Definition setIsCalibrated (v : bool) (s : State) : State :=
  {| showCamera := showCamera s; currentDistance := currentDistance s; focalLength :=
  focalLength s; processedImage := processedImage s; isCalibrating := isCalibrating s;
  isCalibrated := v; statusMessage := statusMessage s; isMeasuring := isMeasuring s;
  referenceBox := referenceBox s; atTargetDistance := atTargetDistance s; isDistanceReached :=
  isDistanceReached s; lastFaceDetected := lastFaceDetected s; showCountdown := showCountdown
  s; countdownValue := countdownValue s; showLandoltTest := showLandoltTest s; ws := ws s;
  detectionInterval := detectionInterval s; frameCountRef := frameCountRef s;
  consecutiveTargetFrames := consecutiveTargetFrames s; framesSinceLastFace :=
  framesSinceLastFace s; countdownTimerRef := countdownTimerRef s; timers := timers s;
  nextTimer := nextTimer s; sent := sent s; console := console s |}.

Definition setStatusMessage (v : string) (s : State) : State :=
  {| showCamera := showCamera s; currentDistance := currentDistance s; focalLength :=
  focalLength s; processedImage := processedImage s; isCalibrating := isCalibrating s;
  isCalibrated := isCalibrated s; statusMessage := v; isMeasuring := isMeasuring s;
  referenceBox := referenceBox s; atTargetDistance := atTargetDistance s; isDistanceReached :=
  isDistanceReached s; lastFaceDetected := lastFaceDetected s; showCountdown := showCountdown
  s; countdownValue := countdownValue s; showLandoltTest := showLandoltTest s; ws := ws s;
  detectionInterval := detectionInterval s; frameCountRef := frameCountRef s;
  consecutiveTargetFrames := consecutiveTargetFrames s; framesSinceLastFace :=
  framesSinceLastFace s; countdownTimerRef := countdownTimerRef s; timers := timers s;
  nextTimer := nextTimer s; sent := sent s; console := console s |}.

Definition setIsMeasuring (v : bool) (s : State) : State :=
  {| showCamera := showCamera s; currentDistance := currentDistance s; focalLength :=
  focalLength s; processedImage := processedImage s; isCalibrating := isCalibrating s;
  isCalibrated := isCalibrated s; statusMessage := statusMessage s; isMeasuring := v;
  referenceBox := referenceBox s; atTargetDistance := atTargetDistance s; isDistanceReached :=
  isDistanceReached s; lastFaceDetected := lastFaceDetected s; showCountdown := showCountdown
  s; countdownValue := countdownValue s; showLandoltTest := showLandoltTest s; ws := ws s;
  detectionInterval := detectionInterval s; frameCountRef := frameCountRef s;
  consecutiveTargetFrames := consecutiveTargetFrames s; framesSinceLastFace :=
  framesSinceLastFace s; countdownTimerRef := countdownTimerRef s; timers := timers s;
  nextTimer := nextTimer s; sent := sent s; console := console s |}.

Definition setReferenceBox (v : option Box) (s : State) : State :=
  {| showCamera := showCamera s; currentDistance := currentDistance s; focalLength :=
  focalLength s; processedImage := processedImage s; isCalibrating := isCalibrating s;
  isCalibrated := isCalibrated s; statusMessage := statusMessage s; isMeasuring := isMeasuring
  s; referenceBox := v; atTargetDistance := atTargetDistance s; isDistanceReached :=
  isDistanceReached s; lastFaceDetected := lastFaceDetected s; showCountdown := showCountdown
  s; countdownValue := countdownValue s; showLandoltTest := showLandoltTest s; ws := ws s;
  detectionInterval := detectionInterval s; frameCountRef := frameCountRef s;
  consecutiveTargetFrames := consecutiveTargetFrames s; framesSinceLastFace :=
  framesSinceLastFace s; countdownTimerRef := countdownTimerRef s; timers := timers s;
  nextTimer := nextTimer s; sent := sent s; console := console s |}.

Definition setAtTargetDistance (v : bool) (s : State) : State :=
  {| showCamera := showCamera s; currentDistance := currentDistance s; focalLength :=
  focalLength s; processedImage := processedImage s; isCalibrating := isCalibrating s;
  isCalibrated := isCalibrated s; statusMessage := statusMessage s; isMeasuring := isMeasuring
  s; referenceBox := referenceBox s; atTargetDistance := v; isDistanceReached :=
  isDistanceReached s; lastFaceDetected := lastFaceDetected s; showCountdown := showCountdown
  s; countdownValue := countdownValue s; showLandoltTest := showLandoltTest s; ws := ws s;
  detectionInterval := detectionInterval s; frameCountRef := frameCountRef s;
  consecutiveTargetFrames := consecutiveTargetFrames s; framesSinceLastFace :=
  framesSinceLastFace s; countdownTimerRef := countdownTimerRef s; timers := timers s;
  nextTimer := nextTimer s; sent := sent s; console := console s |}.

Definition setIsDistanceReached (v : bool) (s : State) : State :=
  {| showCamera := showCamera s; currentDistance := currentDistance s; focalLength :=
  focalLength s; processedImage := processedImage s; isCalibrating := isCalibrating s;
  isCalibrated := isCalibrated s; statusMessage := statusMessage s; isMeasuring := isMeasuring
  s; referenceBox := referenceBox s; atTargetDistance := atTargetDistance s; isDistanceReached
  := v; lastFaceDetected := lastFaceDetected s; showCountdown := showCountdown s;
  countdownValue := countdownValue s; showLandoltTest := showLandoltTest s; ws := ws s;
  detectionInterval := detectionInterval s; frameCountRef := frameCountRef s;
  consecutiveTargetFrames := consecutiveTargetFrames s; framesSinceLastFace :=
  framesSinceLastFace s; countdownTimerRef := countdownTimerRef s; timers := timers s;
  nextTimer := nextTimer s; sent := sent s; console := console s |}.

Definition setLastFaceDetected (v : Z) (s : State) : State :=
  {| showCamera := showCamera s; currentDistance := currentDistance s; focalLength :=
  focalLength s; processedImage := processedImage s; isCalibrating := isCalibrating s;
  isCalibrated := isCalibrated s; statusMessage := statusMessage s; isMeasuring := isMeasuring
  s; referenceBox := referenceBox s; atTargetDistance := atTargetDistance s; isDistanceReached
  := isDistanceReached s; lastFaceDetected := v; showCountdown := showCountdown s;
  countdownValue := countdownValue s; showLandoltTest := showLandoltTest s; ws := ws s;
  detectionInterval := detectionInterval s; frameCountRef := frameCountRef s;
  consecutiveTargetFrames := consecutiveTargetFrames s; framesSinceLastFace :=
  framesSinceLastFace s; countdownTimerRef := countdownTimerRef s; timers := timers s;
  nextTimer := nextTimer s; sent := sent s; console := console s |}.

Definition setShowCountdown (v : bool) (s : State) : State :=
  {| showCamera := showCamera s; currentDistance := currentDistance s; focalLength :=
  focalLength s; processedImage := processedImage s; isCalibrating := isCalibrating s;
  isCalibrated := isCalibrated s; statusMessage := statusMessage s; isMeasuring := isMeasuring
  s; referenceBox := referenceBox s; atTargetDistance := atTargetDistance s; isDistanceReached
  := isDistanceReached s; lastFaceDetected := lastFaceDetected s; showCountdown := v;
  countdownValue := countdownValue s; showLandoltTest := showLandoltTest s; ws := ws s;
  detectionInterval := detectionInterval s; frameCountRef := frameCountRef s;
  consecutiveTargetFrames := consecutiveTargetFrames s; framesSinceLastFace :=
  framesSinceLastFace s; countdownTimerRef := countdownTimerRef s; timers := timers s;
  nextTimer := nextTimer s; sent := sent s; console := console s |}.

Definition setCountdownValue (v : nat) (s : State) : State :=
  {| showCamera := showCamera s; currentDistance := currentDistance s; focalLength :=
  focalLength s; processedImage := processedImage s; isCalibrating := isCalibrating s;
  isCalibrated := isCalibrated s; statusMessage := statusMessage s; isMeasuring := isMeasuring
  s; referenceBox := referenceBox s; atTargetDistance := atTargetDistance s; isDistanceReached
  := isDistanceReached s; lastFaceDetected := lastFaceDetected s; showCountdown :=
  showCountdown s; countdownValue := v; showLandoltTest := showLandoltTest s; ws := ws s;
  detectionInterval := detectionInterval s; frameCountRef := frameCountRef s;
  consecutiveTargetFrames := consecutiveTargetFrames s; framesSinceLastFace :=
  framesSinceLastFace s; countdownTimerRef := countdownTimerRef s; timers := timers s;
  nextTimer := nextTimer s; sent := sent s; console := console s |}.

Definition setShowLandoltTest (v : bool) (s : State) : State :=
  {| showCamera := showCamera s; currentDistance := currentDistance s; focalLength :=
  focalLength s; processedImage := processedImage s; isCalibrating := isCalibrating s;
  isCalibrated := isCalibrated s; statusMessage := statusMessage s; isMeasuring := isMeasuring
  s; referenceBox := referenceBox s; atTargetDistance := atTargetDistance s; isDistanceReached
  := isDistanceReached s; lastFaceDetected := lastFaceDetected s; showCountdown :=
  showCountdown s; countdownValue := countdownValue s; showLandoltTest := v; ws := ws s;
  detectionInterval := detectionInterval s; frameCountRef := frameCountRef s;
  consecutiveTargetFrames := consecutiveTargetFrames s; framesSinceLastFace :=
  framesSinceLastFace s; countdownTimerRef := countdownTimerRef s; timers := timers s;
  nextTimer := nextTimer s; sent := sent s; console := console s |}.

Definition set_ws (v : option ReadyState) (s : State) : State :=
  {| showCamera := showCamera s; currentDistance := currentDistance s; focalLength :=
  focalLength s; processedImage := processedImage s; isCalibrating := isCalibrating s;
  isCalibrated := isCalibrated s; statusMessage := statusMessage s; isMeasuring := isMeasuring
  s; referenceBox := referenceBox s; atTargetDistance := atTargetDistance s; isDistanceReached
  := isDistanceReached s; lastFaceDetected := lastFaceDetected s; showCountdown :=
  showCountdown s; countdownValue := countdownValue s; showLandoltTest := showLandoltTest s;
  ws := v; detectionInterval := detectionInterval s; frameCountRef := frameCountRef s;
  consecutiveTargetFrames := consecutiveTargetFrames s; framesSinceLastFace :=
  framesSinceLastFace s; countdownTimerRef := countdownTimerRef s; timers := timers s;
  nextTimer := nextTimer s; sent := sent s; console := console s |}.

Definition set_detectionInterval (v : option positive) (s : State) : State :=
  {| showCamera := showCamera s; currentDistance := currentDistance s; focalLength :=
  focalLength s; processedImage := processedImage s; isCalibrating := isCalibrating s;
  isCalibrated := isCalibrated s; statusMessage := statusMessage s; isMeasuring := isMeasuring
  s; referenceBox := referenceBox s; atTargetDistance := atTargetDistance s; isDistanceReached
  := isDistanceReached s; lastFaceDetected := lastFaceDetected s; showCountdown :=
  showCountdown s; countdownValue := countdownValue s; showLandoltTest := showLandoltTest s;
  ws := ws s; detectionInterval := v; frameCountRef := frameCountRef s;
  consecutiveTargetFrames := consecutiveTargetFrames s; framesSinceLastFace :=
  framesSinceLastFace s; countdownTimerRef := countdownTimerRef s; timers := timers s;
  nextTimer := nextTimer s; sent := sent s; console := console s |}.

Definition set_frameCountRef (v : nat) (s : State) : State :=
  {| showCamera := showCamera s; currentDistance := currentDistance s; focalLength :=
  focalLength s; processedImage := processedImage s; isCalibrating := isCalibrating s;
  isCalibrated := isCalibrated s; statusMessage := statusMessage s; isMeasuring := isMeasuring
  s; referenceBox := referenceBox s; atTargetDistance := atTargetDistance s; isDistanceReached
  := isDistanceReached s; lastFaceDetected := lastFaceDetected s; showCountdown :=
  showCountdown s; countdownValue := countdownValue s; showLandoltTest := showLandoltTest s;
  ws := ws s; detectionInterval := detectionInterval s; frameCountRef := v;
  consecutiveTargetFrames := consecutiveTargetFrames s; framesSinceLastFace :=
  framesSinceLastFace s; countdownTimerRef := countdownTimerRef s; timers := timers s;
  nextTimer := nextTimer s; sent := sent s; console := console s |}.

Definition set_consecutiveTargetFrames (v : nat) (s : State) : State :=
  {| showCamera := showCamera s; currentDistance := currentDistance s; focalLength :=
  focalLength s; processedImage := processedImage s; isCalibrating := isCalibrating s;
  isCalibrated := isCalibrated s; statusMessage := statusMessage s; isMeasuring := isMeasuring
  s; referenceBox := referenceBox s; atTargetDistance := atTargetDistance s; isDistanceReached
  := isDistanceReached s; lastFaceDetected := lastFaceDetected s; showCountdown :=
  showCountdown s; countdownValue := countdownValue s; showLandoltTest := showLandoltTest s;
  ws := ws s; detectionInterval := detectionInterval s; frameCountRef := frameCountRef s;
  consecutiveTargetFrames := v; framesSinceLastFace := framesSinceLastFace s;
  countdownTimerRef := countdownTimerRef s; timers := timers s; nextTimer := nextTimer s; sent
  := sent s; console := console s |}.

Definition set_framesSinceLastFace (v : nat) (s : State) : State :=
  {| showCamera := showCamera s; currentDistance := currentDistance s; focalLength :=
  focalLength s; processedImage := processedImage s; isCalibrating := isCalibrating s;
  isCalibrated := isCalibrated s; statusMessage := statusMessage s; isMeasuring := isMeasuring
  s; referenceBox := referenceBox s; atTargetDistance := atTargetDistance s; isDistanceReached
  := isDistanceReached s; lastFaceDetected := lastFaceDetected s; showCountdown :=
  showCountdown s; countdownValue := countdownValue s; showLandoltTest := showLandoltTest s;
  ws := ws s; detectionInterval := detectionInterval s; frameCountRef := frameCountRef s;
  consecutiveTargetFrames := consecutiveTargetFrames s; framesSinceLastFace := v;
  countdownTimerRef := countdownTimerRef s; timers := timers s; nextTimer := nextTimer s; sent
  := sent s; console := console s |}.

Definition set_countdownTimerRef (v : option positive) (s : State) : State :=
  {| showCamera := showCamera s; currentDistance := currentDistance s; focalLength :=
  focalLength s; processedImage := processedImage s; isCalibrating := isCalibrating s;
  isCalibrated := isCalibrated s; statusMessage := statusMessage s; isMeasuring := isMeasuring
  s; referenceBox := referenceBox s; atTargetDistance := atTargetDistance s; isDistanceReached
  := isDistanceReached s; lastFaceDetected := lastFaceDetected s; showCountdown :=
  showCountdown s; countdownValue := countdownValue s; showLandoltTest := showLandoltTest s;
  ws := ws s; detectionInterval := detectionInterval s; frameCountRef := frameCountRef s;
  consecutiveTargetFrames := consecutiveTargetFrames s; framesSinceLastFace :=
  framesSinceLastFace s; countdownTimerRef := v; timers := timers s; nextTimer := nextTimer s;
  sent := sent s; console := console s |}.

Definition set_timers (v : list (positive * Callback)) (s : State) : State :=
  {| showCamera := showCamera s; currentDistance := currentDistance s; focalLength :=
  focalLength s; processedImage := processedImage s; isCalibrating := isCalibrating s;
  isCalibrated := isCalibrated s; statusMessage := statusMessage s; isMeasuring := isMeasuring
  s; referenceBox := referenceBox s; atTargetDistance := atTargetDistance s; isDistanceReached
  := isDistanceReached s; lastFaceDetected := lastFaceDetected s; showCountdown :=
  showCountdown s; countdownValue := countdownValue s; showLandoltTest := showLandoltTest s;
  ws := ws s; detectionInterval := detectionInterval s; frameCountRef := frameCountRef s;
  consecutiveTargetFrames := consecutiveTargetFrames s; framesSinceLastFace :=
  framesSinceLastFace s; countdownTimerRef := countdownTimerRef s; timers := v; nextTimer :=
  nextTimer s; sent := sent s; console := console s |}.

Definition set_nextTimer (v : positive) (s : State) : State :=
  {| showCamera := showCamera s; currentDistance := currentDistance s; focalLength :=
  focalLength s; processedImage := processedImage s; isCalibrating := isCalibrating s;
  isCalibrated := isCalibrated s; statusMessage := statusMessage s; isMeasuring := isMeasuring
  s; referenceBox := referenceBox s; atTargetDistance := atTargetDistance s; isDistanceReached
  := isDistanceReached s; lastFaceDetected := lastFaceDetected s; showCountdown :=
  showCountdown s; countdownValue := countdownValue s; showLandoltTest := showLandoltTest s;
  ws := ws s; detectionInterval := detectionInterval s; frameCountRef := frameCountRef s;
  consecutiveTargetFrames := consecutiveTargetFrames s; framesSinceLastFace :=
  framesSinceLastFace s; countdownTimerRef := countdownTimerRef s; timers := timers s;
  nextTimer := v; sent := sent s; console := console s |}.

Definition set_sent (v : list OutMsg) (s : State) : State :=
  {| showCamera := showCamera s; currentDistance := currentDistance s; focalLength :=
  focalLength s; processedImage := processedImage s; isCalibrating := isCalibrating s;
  isCalibrated := isCalibrated s; statusMessage := statusMessage s; isMeasuring := isMeasuring
  s; referenceBox := referenceBox s; atTargetDistance := atTargetDistance s; isDistanceReached
  := isDistanceReached s; lastFaceDetected := lastFaceDetected s; showCountdown :=
  showCountdown s; countdownValue := countdownValue s; showLandoltTest := showLandoltTest s;
  ws := ws s; detectionInterval := detectionInterval s; frameCountRef := frameCountRef s;
  consecutiveTargetFrames := consecutiveTargetFrames s; framesSinceLastFace :=
  framesSinceLastFace s; countdownTimerRef := countdownTimerRef s; timers := timers s;
  nextTimer := nextTimer s; sent := v; console := console s |}.

Definition set_console (v : list string) (s : State) : State :=
  {| showCamera := showCamera s; currentDistance := currentDistance s; focalLength :=
  focalLength s; processedImage := processedImage s; isCalibrating := isCalibrating s;
  isCalibrated := isCalibrated s; statusMessage := statusMessage s; isMeasuring := isMeasuring
  s; referenceBox := referenceBox s; atTargetDistance := atTargetDistance s; isDistanceReached
  := isDistanceReached s; lastFaceDetected := lastFaceDetected s; showCountdown :=
  showCountdown s; countdownValue := countdownValue s; showLandoltTest := showLandoltTest s;
  ws := ws s; detectionInterval := detectionInterval s; frameCountRef := frameCountRef s;
  consecutiveTargetFrames := consecutiveTargetFrames s; framesSinceLastFace :=
  framesSinceLastFace s; countdownTimerRef := countdownTimerRef s; timers := timers s;
  nextTimer := nextTimer s; sent := sent s; console := v |}.

(** ** Authentication context (AuthContext) and the world of a handler *)

Record Auth : Type := mkAuth {
  user : option string;
  token : option string;
  loading : bool;
  authToken : option string   (* localStorage's 'authToken' *)
}.

Definition isAuthenticated (a : Auth) : bool :=
  match user a with Some _ => true | None => false end.

Record World : Type := mkWorld { auth : Auth; comp : State }.

(** ** The handler monad: world passing with exceptions *)

Inductive Res (A : Type) : Type :=
| Ret (a : A) (w : World)
| Raise (e : Exn) (w : World).
Arguments Ret {A} a w.
Arguments Raise {A} e w.

Definition M (A : Type) : Type := World -> Res A.

Definition ret {A : Type} (a : A) : M A := fun w => Ret a w.

Definition bind {A B : Type} (m : M A) (k : A -> M B) : M B :=
  fun w => match m w with
           | Ret a w' => k a w'
           | Raise e w' => Raise e w'
           end.

Definition throw {A : Type} (e : Exn) : M A := fun w => Raise e w.

Declare Scope handler_scope.
Delimit Scope handler_scope with handler.
Notation "x <- m ;; k" := (bind m (fun x => k))
  (at level 61, m at next level, right associativity) : handler_scope.
Notation "m ;; k" := (bind m (fun _ => k))
  (at level 61, right associativity) : handler_scope.
Open Scope handler_scope.

(** Write to the component (a state setter or an assignment to a ref). *)
Definition modify (f : State -> State) : M unit :=
  fun w => Ret tt {| auth := auth w; comp := f (comp w) |}.

(** Read a ref or a browser resource. *)
Definition read {A : Type} (f : State -> A) : M A :=
  fun w => Ret (f (comp w)) w.

Definition when (b : bool) (m : M unit) : M unit :=
  if b then m else ret tt.

(** The world a handler leaves behind, whether it returned or threw. *)
Definition world_of {A : Type} (r : Res A) : World :=
  match r with Ret _ w => w | Raise _ w => w end.

(** ** Browser primitives *)

Definition cleared (id : positive) (ts : list (positive * Callback)) :
  list (positive * Callback) :=
  filter (fun t => negb (Pos.eqb (fst t) id)) ts.

Definition clearInterval (id : option positive) : M unit :=
  match id with
  | Some i => modify (fun s => set_timers (cleared i (timers s)) s)
  | None => ret tt
  end.

Definition setInterval (cb : Callback) : M positive :=
  fun w =>
    let id := nextTimer (comp w) in
    Ret id {| auth := auth w;
              comp := set_nextTimer (Pos.succ id)
                       (set_timers (timers (comp w) ++ [(id, cb)]) (comp w)) |}.

(** [ws.current.send(m)]: a null ref is a TypeError, a socket still
    connecting throws InvalidStateError, a closing or closed socket
    discards the data. *)
Definition ws_send (m : OutMsg) : M unit :=
  fun w =>
    match ws (comp w) with
    | None => Raise TypeError w
    | Some CONNECTING => Raise InvalidStateError w
    | Some OPEN => Ret tt {| auth := auth w; comp := set_sent (sent (comp w) ++ [m]) (comp w) |}
    | Some _ => Ret tt w
    end.

(** [ws.current && ws.current.readyState === WebSocket.OPEN] *)
Definition ws_is_open (s : State) : bool :=
  match ws s with Some OPEN => true | _ => false end.

Definition console_error (line : string) : M unit :=
  modify (fun s => set_console (console s ++ [line]) s).

(** AuthContext's [logout]. *)
Definition logout : M unit :=
  fun w => Ret tt {| auth := {| user := None; token := None;
                                 loading := loading (auth w); authToken := None |};
                     comp := comp w |}.

(** ** The handlers of [FaceDetectionApp] *)

Definition stopMeasuringDistance : M unit :=
  o <- read ws_is_open ;;
  when o (ws_send (OutCommand stop_all None)) ;;
  d <- read detectionInterval ;;
  (match d with
   | Some id => clearInterval (Some id) ;; modify (set_detectionInterval None)
   | None => ret tt
   end) ;;
  modify (setIsMeasuring false).

(** The function [startCountdown] hands to [setInterval]: the updater
    passed to [setCountdownValue], applied to the latest value. *)
Definition countdownTick : M unit :=
  prev <- read countdownValue ;;
  if (prev <=? 1)%nat then
    t <- read countdownTimerRef ;;
    clearInterval t ;;
    modify (setShowCountdown false) ;;
    modify (setShowLandoltTest true) ;;
    modify (setCountdownValue 0%nat)
  else
    modify (setCountdownValue (prev - 1)%nat).

Definition startCountdown : M unit :=
  stopMeasuringDistance ;;
  modify (setShowCountdown true) ;;
  modify (setCountdownValue 5%nat) ;;
  t <- read countdownTimerRef ;;
  clearInterval t ;;
  id <- setInterval CbCountdown ;;
  modify (set_countdownTimerRef (Some id)).

Definition startCalibration : M unit :=
  o <- read ws_is_open ;;
  when o
    (ws_send (OutCommand start_calibration None) ;;
     modify (setIsCalibrating true) ;;
     modify (setIsCalibrated false) ;;
     modify (setShowCamera true) ;;
     modify (setStatusMessage "🧍 Stand at one-arm distance and click 'Capture'")).

(** [webcam] is [webcamRef.current]: [None] when no webcam is mounted,
    otherwise what [getScreenshot()] returns. *)
Definition captureCalibration (webcam : option (option string)) : M unit :=
  let imageSrc := match webcam with Some shot => truthy_string shot | None => None end in
  o <- read ws_is_open ;;
  match imageSrc with
  | Some img => when o (ws_send (OutCommand capture (Some img)))
  | None => ret tt
  end.

Definition sendFrame (isDistanceReached_c : bool) (lastFaceDetected_c : Z)
    (now : Z) (webcam : option (option string)) : M unit :=
  o <- read ws_is_open ;;
  match webcam with
  | None => ret tt
  | Some shot =>
    if negb o then ret tt else
    match truthy_string shot with
    | None => ret tt
    | Some imageSrc =>
      ws_send (OutFrame imageSrc) ;;
      modify (fun s => set_frameCountRef (S (frameCountRef s)) s) ;;
      when (isDistanceReached_c && (5000 <? now - lastFaceDetected_c)%Z)
        (modify (fun s => set_framesSinceLastFace (S (framesSinceLastFace s)) s) ;;
         n <- read framesSinceLastFace ;;
         when (10 <? n)%nat
           (modify (setStatusMessage
              "✅ Distance measurement complete! 4m distance reached and verified.") ;;
            stopMeasuringDistance))
    end
  end.

(** The closure values are those of the [sendFrame] that the render
    which created this handler also created. *)
Definition startMeasuringDistance (isDistanceReached_c : bool) (lastFaceDetected_c : Z) :
  M unit :=
  modify (setIsDistanceReached false) ;;
  modify (setAtTargetDistance false) ;;
  modify (setShowCountdown false) ;;
  modify (set_consecutiveTargetFrames 0%nat) ;;
  modify (set_framesSinceLastFace 0%nat) ;;
  o <- read ws_is_open ;;
  when o
    (ws_send (OutCommand start_distance None) ;;
     modify (setIsMeasuring true) ;;
     id <- setInterval (CbSendFrame isDistanceReached_c lastFaceDetected_c) ;;
     modify (set_detectionInterval (Some id)) ;;
     modify (setStatusMessage
       "📏 Measuring distance... Try to fit your face in the red reference box at 4m")).

Definition closeLandoltTest : M unit :=
  modify (setShowLandoltTest false).

(** [data.message?.toLowerCase().includes("calibration complete")] *)
Definition calibration_complete (msg : option string) : bool :=
  match msg with
  | Some m => includes "calibration complete" (toLowerCase m)
  | None => false
  end.

Definition onmessage (isMeasuring_c isDistanceReached_c : bool) (now : Z)
    (event_data : Payload) : M unit :=
  match event_data with
  | Malformed _ => throw SyntaxError
  | Json data =>
    match truthy_string (error data) with
    | Some e =>
      console_error ("WebSocket Error: " ++ e) ;;
      modify (setStatusMessage ("Error: " ++ e)) ;;
      when (includes "Authentication" e) logout
    | None =>
      when (truthy_bool (success data))
        ((match truthy_string (processed_image data) with
          | Some img => modify (setProcessedImage (Some img))
          | None => ret tt
          end) ;;
         (match truthy_number (focal_length data) with
          | Some f => modify (setFocalLength f)
          | None => ret tt
          end) ;;
         (match reference_box data with
          | Some b => modify (setReferenceBox (Some b))
          | None => ret tt
          end) ;;
         when (calibration_complete (message data))
           (modify (setIsCalibrating false) ;;
            modify (setIsCalibrated true) ;;
            modify (setStatusMessage
              "✅ Calibration complete! You can now measure distance.")) ;;
         when (truthy_bool (face_detected data))
           (modify (setLastFaceDetected now) ;;
            modify (set_framesSinceLastFace 0%nat)) ;;
         match faces data with
         | Some (face0 :: _) =>
           when isMeasuring_c
             (modify (setCurrentDistance
                (if Qle_bool (distance face0) 0 then Calculating
                 else Metres (distance face0))) ;;
              if truthy_bool (at_target_distance data) then
                modify (setAtTargetDistance true) ;;
                modify (fun s =>
                  set_consecutiveTargetFrames (S (consecutiveTargetFrames s)) s) ;;
                n <- read consecutiveTargetFrames ;;
                when ((15 <=? n)%nat && negb isDistanceReached_c)
                  (modify (setIsDistanceReached true) ;;
                   modify (setStatusMessage
                     "🎯 Perfect! You've reached the 4m distance! Starting countdown for vision test...") ;;
                   startCountdown)
              else
                modify (setAtTargetDistance false) ;;
                modify (set_consecutiveTargetFrames 0%nat))
         | _ => ret tt
         end) ;;
      match truthy_string (message data) with
      | Some m => when (negb (includes "Authenticated successfully" m))
                    (modify (setStatusMessage m))
      | None => ret tt
      end
    end
  end.

(** ** The browser driving the component *)

(** A message event: the handler installed after the last commit runs. *)
Definition deliver (now : Z) (event_data : Payload) : M unit :=
  fun w => onmessage (isMeasuring (comp w)) (isDistanceReached (comp w)) now event_data w.

Definition lookup_timer (id : positive) (ts : list (positive * Callback)) :
  option (positive * Callback) :=
  find (fun t => Pos.eqb (fst t) id) ts.

(** Interval [id] comes due: a cleared interval calls nothing. *)
Definition fire (now : Z) (webcam : option (option string)) (id : positive) : M unit :=
  ts <- read timers ;;
  match lookup_timer id ts with
  | Some (_, CbSendFrame idr lfd) => sendFrame idr lfd now webcam
  | Some (_, CbCountdown) => countdownTick
  | None => ret tt
  end.

(** The component as first rendered: the initial values of its state and
    ref cells, and the socket the connection effect opens when there is
    a token. *)
Definition mount (now : Z) (tok : option string) : State :=
  {| showCamera := false; currentDistance := ZeroMetres; focalLength := 0;
     processedImage := None; isCalibrating := false; isCalibrated := false;
     statusMessage := ""; isMeasuring := false; referenceBox := None;
     atTargetDistance := false; isDistanceReached := false; lastFaceDetected := now;
     showCountdown := false; countdownValue := 5; showLandoltTest := false;
     ws := match truthy_string tok with Some _ => Some CONNECTING | None => None end;
     detectionInterval := None; frameCountRef := 0; consecutiveTargetFrames := 0;
     framesSinceLastFace := 0; countdownTimerRef := None; timers := []; nextTimer := 1;
     sent := []; console := [] |}.

(** What [ProtectedRoute] renders. *)
Inductive Screen : Type := Spinner | LoginScreen | Children.

Definition ProtectedRoute (a : Auth) : Screen :=
  if loading a then Spinner
  else if negb (isAuthenticated a) then LoginScreen
  else Children.

(** The provider's state and, while [ProtectedRoute] renders its
    children, the state of the mounted [FaceDetectionApp]. *)
Record Page : Type := mkPage { provider : Auth; face : option State }.

(** The render after an update: the component keeps its state while it
    stays mounted, is mounted afresh when the guard starts showing it,
    and is unmounted, its state discarded, when the guard stops. *)
Definition commit (now : Z) (a : Auth) (f : option State) : Page :=
  match ProtectedRoute a with
  | Children =>
    {| provider := a;
       face := Some (match f with Some s => s | None => mount now (token a) end) |}
  | _ => {| provider := a; face := None |}
  end.

(** A message event on the page, followed by the render it causes. *)
Definition receive (now : Z) (event_data : Payload) (pg : Page) : Page :=
  match face pg with
  | Some s =>
    let w := world_of (deliver now event_data {| auth := provider pg; comp := s |}) in
    commit now (auth w) (Some (comp w))
  | None => pg
  end.

(** A run of message events with a commit after each: every message is
    handled by the handler the commit before it installed, so with the
    flags the message before it left ([handle_all] has the run a single
    handler sees). An event whose handler throws leaves what the
    handler had done and the run goes on. *)
Fixpoint deliver_all (events : list (Z * Payload)) (w : World) : World :=
  match events with
  | [] => w
  | (now, p) :: rest => deliver_all rest (world_of (deliver now p w))
  end.

(** ** Vocabulary of the properties *)

(** [clearInterval(ref.current)] under the guard [if (ref.current)]. *)
Definition clear_ref (r : option positive) (ts : list (positive * Callback)) :
  list (positive * Callback) :=
  match r with Some id => cleared id ts | None => ts end.

(** A message that reaches the distance block of [onmessage]: no error
    text, [success] set and a first face to read the distance from. *)
Definition carries_face (d : Data) : bool :=
  match truthy_string (error d) with
  | Some _ => false
  | None =>
    truthy_bool (success d) &&
    match faces d with Some (_ :: _) => true | _ => false end
  end.

(** A face-carrying frame whose at-target flag is [target]. *)
Definition face_frame (target : bool) (e : Z * Payload) : Prop :=
  match snd e with
  | Json d => carries_face d = true /\ truthy_bool (at_target_distance d) = target
  | Malformed _ => False
  end.

(** In [s], measuring and short of distance-reached, message [d] is the
    face frame that takes the streak to the threshold of 15. *)
Definition completes_streak (s : State) (d : Data) : bool :=
  isMeasuring s && negb (isDistanceReached s) && carries_face d
  && truthy_bool (at_target_distance d)
  && (15 <=? S (consecutiveTargetFrames s))%nat.

(** The step from [s] to [s'] left the measuring cycle alone: flags,
    scheduler, countdown and outbound traffic are as before. *)
Definition no_transition (s s' : State) : Prop :=
  isMeasuring s' = isMeasuring s /\
  isDistanceReached s' = isDistanceReached s /\
  showCountdown s' = showCountdown s /\
  countdownValue s' = countdownValue s /\
  showLandoltTest s' = showLandoltTest s /\
  detectionInterval s' = detectionInterval s /\
  countdownTimerRef s' = countdownTimerRef s /\
  timers s' = timers s /\
  nextTimer s' = nextTimer s /\
  sent s' = sent s.

(** The step from [s] to [s'] took the transition to the countdown:
    distance reached, measuring stopped with its scheduler cleared and
    [stop_all] written to an open socket, and one fresh countdown
    interval registered with the display at 5. *)
Definition countdown_started (s s' : State) : Prop :=
  isDistanceReached s' = true /\
  isMeasuring s' = false /\
  showCountdown s' = true /\
  countdownValue s' = 5%nat /\
  detectionInterval s' = None /\
  countdownTimerRef s' = Some (nextTimer s) /\
  nextTimer s' = Pos.succ (nextTimer s) /\
  timers s' =
    (clear_ref (countdownTimerRef s) (clear_ref (detectionInterval s) (timers s))
       ++ [(nextTimer s, CbCountdown)])%list /\
  sent s' = (if ws_is_open s then sent s ++ [OutCommand stop_all None] else sent s)%list.

(** Interval ids are handed out in increasing order: every live
    interval was created before the next id. *)
Definition timers_fresh (s : State) : Prop :=
  Forall (fun t => (fst t < nextTimer s)%positive) (timers s).

(** A run of due intervals, each with the clock and the webcam of its
    moment. *)
Fixpoint fire_all (due : list (Z * option (option string) * positive)) (w : World) :
  World :=
  match due with
  | [] => w
  | (now, webcam, id) :: rest => fire_all rest (world_of (fire now webcam id w))
  end.

(** The number of times interval [id] comes due in a run. *)
Definition ticks_of (id : positive) (due : list (Z * option (option string) * positive)) :
  nat :=
  length (filter (fun e => Pos.eqb (snd e) id) due).

(** Firing [id] in [w] runs the completing branch of the countdown
    updater, the one that shows the vision test. *)
Definition hands_off (w : World) (id : positive) : bool :=
  match lookup_timer id (timers (comp w)) with
  | Some (_, CbCountdown) => (countdownValue (comp w) <=? 1)%nat
  | _ => false
  end.

(** How often a run of due intervals shows the vision test. *)
Fixpoint handoffs (due : list (Z * option (option string) * positive)) (w : World) :
  nat :=
  match due with
  | [] => 0
  | (now, webcam, id) :: rest =>
    (if hands_off w id then 1 else 0) + handoffs rest (world_of (fire now webcam id w))
  end.

(** ** Sample worlds and messages *)

Module Examples.

Definition signed_in : Auth :=
  {| user := Some "ada"; token := Some "t0k3n"; loading := false;
     authToken := Some "t0k3n" |}.

(** Just mounted: nothing calibrated, nothing measuring; socket open. *)
Definition idle : World :=
  {| auth := signed_in; comp := set_ws (Some OPEN) (mount 1000 (Some "t0k3n")) |}.

(** After a calibration. *)
Definition calibrated : World :=
  {| auth := signed_in;
     comp := setIsCalibrated true (setShowCamera true (setFocalLength 650 (comp idle))) |}.

(** After the user pressed "Measure Distance". *)
Definition measuring : World :=
  world_of (startMeasuringDistance false 1000 calibrated).

(** The page as the browser holds it during that measurement. *)
Definition page : Page :=
  {| provider := signed_in; face := Some (comp measuring) |}.

(** The same page with the socket gone. *)
Definition offline : World :=
  {| auth := signed_in; comp := set_ws (Some CLOSED) (comp measuring) |}.

Definition blank : Data :=
  {| error := None; success := None; processed_image := None; focal_length := None;
     reference_box := None; message := None; face_detected := None; faces := None;
     at_target_distance := None |}.

(** [{success, processed_image, face_detected, faces: [{distance: 4}],
    at_target_distance}] *)
Definition frame (at_target : bool) : Data :=
  {| error := None; success := Some true; processed_image := Some "data:image/jpeg;base64,AA";
     focal_length := None; reference_box := None; message := None;
     face_detected := Some true; faces := Some [ {| distance := 4 |} ];
     at_target_distance := Some at_target |}.

(** [{success: true, at_target_distance: true}] *)
Definition flag_only : Data :=
  {| error := None; success := Some true; processed_image := None; focal_length := None;
     reference_box := None; message := None; face_detected := None; faces := None;
     at_target_distance := Some true |}.

(** [{success: true, face_detected: false, faces: []}] *)
Definition no_face : Data :=
  {| error := None; success := Some true; processed_image := None; focal_length := None;
     reference_box := None; message := None; face_detected := Some false;
     faces := Some []; at_target_distance := None |}.

(** [{error, message}] *)
Definition failure (e m : string) : Data :=
  {| error := Some e; success := None; processed_image := None; focal_length := None;
     reference_box := None; message := Some m; face_detected := None; faces := None;
     at_target_distance := None |}.

(** [{success: true, message}] *)
Definition note (m : string) : Data :=
  {| error := None; success := Some true; processed_image := None; focal_length := None;
     reference_box := None; message := Some m; face_detected := None; faces := None;
     at_target_distance := None |}.

Definition at_times (d : Data) (n : nat) : list (Z * Payload) :=
  repeat (2000%Z, Json d) n.

End Examples.

(** * The page as the user drives it *)

(** ** Controls *)

(** The buttons the markup renders under the camera, and the close
    control of the vision test. *)
Inductive Button : Type :=
| Calibrate | Capture | MeasureDistance | StopMeasuring | MeasureAgain | CloseTest.

(** The condition under which the markup renders each control. *)
Definition shows (s : State) (b : Button) : bool :=
  match b with
  | Calibrate => negb (isCalibrated s) && negb (isCalibrating s)
  | Capture => isCalibrating s
  | MeasureDistance =>
    isCalibrated s && negb (isMeasuring s) && negb (showCountdown s)
    && negb (showLandoltTest s)
  | StopMeasuring => isMeasuring s
  | MeasureAgain =>
    isDistanceReached s && negb (isMeasuring s) && negb (showCountdown s)
    && negb (showLandoltTest s)
  | CloseTest => showLandoltTest s
  end.

(** [webcamRef.current]: the webcam is rendered, and its ref set, only
    while the camera is shown; [shot] is what [getScreenshot()] would
    return. *)
Definition webcamRef (s : State) (shot : option string) : option (option string) :=
  if showCamera s then Some shot else None.

(** A click: a control that is not rendered cannot be clicked; one that
    is runs the handler of the render that shows it, so the frame sender
    handed to the scheduler holds that render's values. *)
Definition press (b : Button) (shot : option string) : M unit :=
  fun w =>
    if shows (comp w) b then
      match b with
      | Calibrate => startCalibration w
      | Capture => captureCalibration (webcamRef (comp w) shot) w
      | MeasureDistance | MeasureAgain =>
        startMeasuringDistance (isDistanceReached (comp w)) (lastFaceDetected (comp w)) w
      | StopMeasuring => stopMeasuringDistance w
      | CloseTest => closeLandoltTest w
      end
    else Ret tt w.

(** ** Events *)

(** What can happen to the component while it stays mounted: a socket
    message handled by the handler of the last commit, an interval
    coming due, a click on a control under the camera, and the socket
    ref changing state (opened or closed by the browser, replaced by
    the connection effect). The component's state after a [logout()]
    is what an unmount then discards; messages handled ahead of the
    commit, the socket's error event, the header's Logout button and
    the unmount itself are events of the page ([Occurrence],
    [happen]). *)
Inductive Event : Type :=
| Message (now : Z) (event_data : Payload)
| Due (now : Z) (shot : option string) (id : positive)
| Press (b : Button) (shot : option string)
| Socket (r : option ReadyState).

(** The handlers an event runs. *)
Definition step (e : Event) (w : World) : World :=
  match e with
  | Message now p => world_of (deliver now p w)
  | Due now shot id => world_of (fire now (webcamRef (comp w) shot) id w)
  | Press b shot => world_of (press b shot w)
  | Socket r => {| auth := auth w; comp := set_ws r (comp w) |}
  end.

Fixpoint run (events : list Event) (w : World) : World :=
  match events with
  | [] => w
  | e :: rest => run rest (step e w)
  end.

(** The worlds a mounted component can be in. *)
Definition reachable (w : World) : Prop :=
  exists (a : Auth) (now : Z) (events : list Event),
    w = run events {| auth := a; comp := mount now (token a) |}.

(** [ws.close()] *)
Definition close_socket (r : option ReadyState) : option ReadyState :=
  match r with
  | Some CONNECTING | Some OPEN => Some CLOSING
  | other => other
  end.

(** The clean-ups React runs when the component is unmounted: the
    connection effect closes the socket, the last effect clears the
    scheduler and the countdown. *)
Definition unmount : M unit :=
  c <- read ws ;;
  modify (set_ws (close_socket c)) ;;
  d <- read detectionInterval ;;
  clearInterval d ;;
  t <- read countdownTimerRef ;;
  clearInterval t.

(** ** What every reachable page satisfies *)

Record page_ok (s : State) : Prop := mkPageOk {
  ok_fresh : timers_fresh s;
  ok_nodup : NoDup (map fst (timers s));
  ok_refs : forall id cb,
    In (id, cb) (timers s) ->
    (detectionInterval s = Some id /\ exists idr lfd, cb = CbSendFrame idr lfd) \/
    (countdownTimerRef s = Some id /\ cb = CbCountdown);
  ok_scheduler :
    isMeasuring s = true ->
    exists id idr lfd,
      detectionInterval s = Some id /\ In (id, CbSendFrame idr lfd) (timers s);
  ok_idle : isMeasuring s = false -> detectionInterval s = None;
  ok_measuring :
    isMeasuring s = true ->
    isDistanceReached s = false /\ showCountdown s = false /\
    showLandoltTest s = false /\ consecutiveTargetFrames s < 15;
  ok_countdown : forall id,
    In (id, CbCountdown) (timers s) ->
    showCountdown s = true /\ 1 <= countdownValue s <= 5;
  ok_counting :
    showCountdown s = true ->
    exists id, countdownTimerRef s = Some id /\ In (id, CbCountdown) (timers s);
  ok_overlay : showCountdown s = true -> showLandoltTest s = false;
  ok_calibration : isCalibrating s = true -> isCalibrated s = false;
  ok_calibrated :
    isMeasuring s = true \/ isDistanceReached s = true -> isCalibrated s = true
}.

(** ** The steps of [onmessage] *)

(** The steps [onmessage] takes on a message without error text, each
    under its own name; [onmessage_steps] shows that in sequence they
    are the handler. *)

(** What the message carries is recorded, in any phase. *)
Definition record_results (now : Z) (data : Data) : M unit :=
  (match truthy_string (processed_image data) with
   | Some img => modify (setProcessedImage (Some img))
   | None => ret tt
   end) ;;
  (match truthy_number (focal_length data) with
   | Some f => modify (setFocalLength f)
   | None => ret tt
   end) ;;
  (match reference_box data with
   | Some b => modify (setReferenceBox (Some b))
   | None => ret tt
   end) ;;
  when (calibration_complete (message data))
    (modify (setIsCalibrating false) ;;
     modify (setIsCalibrated true) ;;
     modify (setStatusMessage
       "✅ Calibration complete! You can now measure distance.")) ;;
  when (truthy_bool (face_detected data))
    (modify (setLastFaceDetected now) ;;
     modify (set_framesSinceLastFace 0%nat)).

(** The distance block. *)
Definition track_distance (isMeasuring_c isDistanceReached_c : bool) (data : Data) :
  M unit :=
  match faces data with
  | Some (face0 :: _) =>
    when isMeasuring_c
      (modify (setCurrentDistance
         (if Qle_bool (distance face0) 0 then Calculating
          else Metres (distance face0))) ;;
       if truthy_bool (at_target_distance data) then
         modify (setAtTargetDistance true) ;;
         modify (fun s =>
           set_consecutiveTargetFrames (S (consecutiveTargetFrames s)) s) ;;
         n <- read consecutiveTargetFrames ;;
         when ((15 <=? n)%nat && negb isDistanceReached_c)
           (modify (setIsDistanceReached true) ;;
            modify (setStatusMessage
              "🎯 Perfect! You've reached the 4m distance! Starting countdown for vision test...") ;;
            startCountdown)
       else
         modify (setAtTargetDistance false) ;;
         modify (set_consecutiveTargetFrames 0%nat))
  | _ => ret tt
  end.

(** The informational text. *)
Definition show_message (data : Data) : M unit :=
  match truthy_string (message data) with
  | Some m => when (negb (includes "Authenticated successfully" m))
                (modify (setStatusMessage m))
  | None => ret tt
  end.

(** The state [record_results] leaves. *)
Definition recorded (now : Z) (data : Data) (s : State) : State :=
  let s1 := match truthy_string (processed_image data) with
            | Some img => setProcessedImage (Some img) s
            | None => s
            end in
  let s2 := match truthy_number (focal_length data) with
            | Some f => setFocalLength f s1
            | None => s1
            end in
  let s3 := match reference_box data with
            | Some b => setReferenceBox (Some b) s2
            | None => s2
            end in
  let s4 := if calibration_complete (message data)
            then setStatusMessage
                   "✅ Calibration complete! You can now measure distance."
                   (setIsCalibrated true (setIsCalibrating false s3))
            else s3 in
  if truthy_bool (face_detected data)
  then set_framesSinceLastFace 0%nat (setLastFaceDetected now s4)
  else s4.

(** The message announces the end of the calibration: no error text,
    [success] set, and 'calibration complete' in the message text. *)
Definition announces_calibration (d : Data) : bool :=
  match truthy_string (error d) with
  | Some _ => false
  | None => truthy_bool (success d) && calibration_complete (message d)
  end.

(** ** The states the commands leave *)

(** Each command handler returns, and leaves the authentication context
    alone; the state it leaves is written out here once, and the
    [_leaves] lemmas relate it to the handler. *)

(** After [stopMeasuringDistance]. *)
Definition stopped (s : State) : State :=
  setIsMeasuring false
    (set_detectionInterval None
       (set_timers (clear_ref (detectionInterval s) (timers s))
          (set_sent (if ws_is_open s
                     then sent s ++ [OutCommand stop_all None] else sent s) s))).

(** After [startCountdown]. *)
Definition counting_down (s : State) : State :=
  let s1 := setCountdownValue 5%nat (setShowCountdown true (stopped s)) in
  set_countdownTimerRef (Some (nextTimer s))
    (set_nextTimer (Pos.succ (nextTimer s))
       (set_timers
          (clear_ref (countdownTimerRef s) (timers s1) ++ [(nextTimer s, CbCountdown)])
          s1)).

(** After [startMeasuringDistance]. *)
Definition started (isDistanceReached_c : bool) (lastFaceDetected_c : Z) (s : State) :
  State :=
  let s1 :=
    set_framesSinceLastFace 0%nat
      (set_consecutiveTargetFrames 0%nat
         (setShowCountdown false
            (setAtTargetDistance false (setIsDistanceReached false s)))) in
  if ws_is_open s then
    setStatusMessage
      "📏 Measuring distance... Try to fit your face in the red reference box at 4m"
      (set_detectionInterval (Some (nextTimer s))
         (set_nextTimer (Pos.succ (nextTimer s))
            (set_timers
               (timers s ++ [(nextTimer s, CbSendFrame isDistanceReached_c lastFaceDetected_c)])
               (setIsMeasuring true
                  (set_sent (sent s ++ [OutCommand start_distance None]) s1)))))
  else s1.

(** After [startCalibration]. *)
Definition calibrating (s : State) : State :=
  if ws_is_open s then
    setStatusMessage "🧍 Stand at one-arm distance and click 'Capture'"
      (setShowCamera true
         (setIsCalibrated false
            (setIsCalibrating true
               (set_sent (sent s ++ [OutCommand start_calibration None]) s))))
  else s.

(** After [captureCalibration]. *)
Definition captured (webcam : option (option string)) (s : State) : State :=
  match webcam with
  | Some shot =>
    match truthy_string shot with
    | Some img =>
      if ws_is_open s
      then set_sent (sent s ++ [OutCommand capture (Some img)]) s else s
    | None => s
    end
  | None => s
  end.

(** After [sendFrame]. *)
Definition framed (isDistanceReached_c : bool) (lastFaceDetected_c now : Z)
    (webcam : option (option string)) (s : State) : State :=
  match webcam with
  | Some shot =>
    if ws_is_open s then
      match truthy_string shot with
      | Some img =>
        let s1 :=
          set_frameCountRef (S (frameCountRef s))
            (set_sent (sent s ++ [OutFrame img]) s) in
        if isDistanceReached_c && (5000 <? now - lastFaceDetected_c)%Z then
          let s2 := set_framesSinceLastFace (S (framesSinceLastFace s)) s1 in
          if (10 <? S (framesSinceLastFace s))%nat then
            stopped
              (setStatusMessage
                 "✅ Distance measurement complete! 4m distance reached and verified." s2)
          else s2
        else s1
      | None => s
      end
    else s
  | None => s
  end.

(** After the countdown's interval function. *)
Definition ticked (s : State) : State :=
  if (countdownValue s <=? 1)%nat then
    setCountdownValue 0%nat
      (setShowLandoltTest true
         (setShowCountdown false
            (set_timers (clear_ref (countdownTimerRef s) (timers s)) s)))
  else setCountdownValue (countdownValue s - 1)%nat s.

(** After an interval comes due. *)
Definition fired (now : Z) (webcam : option (option string)) (id : positive) (s : State) :
  State :=
  match lookup_timer id (timers s) with
  | Some (_, CbSendFrame idr lfd) => framed idr lfd now webcam s
  | Some (_, CbCountdown) => ticked s
  | None => s
  end.

(** After a click. *)
Definition pressed (b : Button) (shot : option string) (s : State) : State :=
  if shows s b then
    match b with
    | Calibrate => calibrating s
    | Capture => captured (webcamRef s shot) s
    | MeasureDistance | MeasureAgain => started (isDistanceReached s) (lastFaceDetected s) s
    | StopMeasuring => stopped s
    | CloseTest => setShowLandoltTest false s
    end
  else s.

(** The step from [s] to [s'] left intervals, refs and overlays as they
    were. *)
Definition same_cycle (s s' : State) : Prop :=
  timers s' = timers s /\
  nextTimer s' = nextTimer s /\
  detectionInterval s' = detectionInterval s /\
  countdownTimerRef s' = countdownTimerRef s /\
  isMeasuring s' = isMeasuring s /\
  isDistanceReached s' = isDistanceReached s /\
  showCountdown s' = showCountdown s /\
  showLandoltTest s' = showLandoltTest s /\
  countdownValue s' = countdownValue s.

(** The step left the calibration flags and the streak as they were. *)
Definition same_calibration (s s' : State) : Prop :=
  isCalibrating s' = isCalibrating s /\
  isCalibrated s' = isCalibrated s /\
  consecutiveTargetFrames s' = consecutiveTargetFrames s.

(** ** Outbound traffic *)

Definition is_frame (m : OutMsg) : bool :=
  match m with OutFrame _ => true | OutCommand _ _ => false end.

(** The number of camera frames among the messages written. *)
Definition frames_in (out : list OutMsg) : nat := length (filter is_frame out).

(** How often interval [id] comes due in a run of events. *)
Fixpoint due_count (id : positive) (events : list Event) : nat :=
  match events with
  | [] => 0
  | Due _ _ i :: rest => (if Pos.eqb i id then 1 else 0) + due_count id rest
  | _ :: rest => due_count id rest
  end.

(** Events that are not clicks and not messages: intervals coming due
    and the socket changing state. *)
Definition background (e : Event) : bool :=
  match e with
  | Due _ _ _ | Socket _ => true
  | Message _ _ | Press _ _ => false
  end.

Definition is_due (e : Event) : bool :=
  match e with Due _ _ _ => true | _ => false end.

(** ** The connection effect *)

(** The body of the effect that owns the socket: without a token it
    only logs, with one it replaces [ws.current] by a new socket. *)
Definition connect (tok : option string) (s : State) : State :=
  match truthy_string tok with
  | Some _ => set_ws (Some CONNECTING) s
  | None => s
  end.

(** The effect re-run: its clean-up closes the socket in the ref, then
    the body runs. *)
Definition reconnect (tok : option string) (s : State) : State :=
  connect tok (set_ws (close_socket (ws s)) s).

(** The commit after an event, while the provider is not re-rendered
    (so [token] and [logout] are the values of the last render): the
    effect is re-run when [isMeasuring] or [isDistanceReached]
    changed. *)
Definition settle (before : State) (tok : option string) (s : State) : State :=
  if Bool.eqb (isMeasuring before) (isMeasuring s)
     && Bool.eqb (isDistanceReached before) (isDistanceReached s)
  then s else reconnect tok s.

(** An event together with the commit that follows it while the
    component stays mounted; [happen] has the commit that unmounts. *)
Definition act (e : Event) (w : World) : World :=
  let w' := step e w in
  {| auth := auth w'; comp := settle (comp w) (token (auth w')) (comp w') |}.

(** The events of a run other than changes of the socket. *)
Definition page_events (events : list Event) : list Event :=
  filter (fun e => match e with Socket _ => false | _ => true end) events.

Fixpoint act_all (events : list Event) (w : World) : World :=
  match events with
  | [] => w
  | e :: rest => act_all rest (act e w)
  end.

(** ** Sessions *)

(** The world after a run of events on a freshly mounted component. *)
Definition session (a : Auth) (now : Z) (events : list Event) : World :=
  run events {| auth := a; comp := mount now (token a) |}.

(** The live intervals by the function they call. *)
Definition is_sender (t : positive * Callback) : bool :=
  match snd t with CbSendFrame _ _ => true | CbCountdown => false end.

Definition senders (s : State) : nat := length (filter is_sender (timers s)).

Definition countdowns (s : State) : nat :=
  length (filter (fun t => negb (is_sender t)) (timers s)).

(** ** Frames of the scheduler *)

(** Interval [id] coming due once per entry, each with its clock
    reading and the screenshot the webcam returns. *)
Definition frames_due (id : positive) (frames : list (Z * string)) : list Event :=
  map (fun f => Due (fst f) (Some (snd f)) id) frames.

(** A frame with a non-empty screenshot, taken more than 5000 ms after
    [lastFaceDetected_c]. *)
Definition overdue (lastFaceDetected_c : Z) (f : Z * string) : bool :=
  (5000 <? fst f - lastFaceDetected_c)%Z && str_truthy (snd f).

(** ** Phases of the measuring cycle *)

(** What the page is busy with, read off the three flags the markup
    tests. *)
Inductive Phase : Type := Resting | Measuring | CountingDown | Testing.

Definition phase (s : State) : Phase :=
  if isMeasuring s then Measuring
  else if showCountdown s then CountingDown
  else if showLandoltTest s then Testing
  else Resting.

(** The moves between phases and the kind of event that makes each. *)
Definition moves (from : Phase) (e : Event) (to : Phase) : bool :=
  match from, e, to with
  | Resting, Press MeasureDistance _, Measuring
  | Resting, Press MeasureAgain _, Measuring => true
  | Measuring, Press StopMeasuring _, Resting => true
  | Measuring, Due _ _ _, Resting => true
  | Measuring, Message _ _, CountingDown => true
  | CountingDown, Due _ _ _, Testing => true
  | Testing, Press CloseTest _, Resting => true
  | _, _, _ => false
  end.

(** ** Sample sessions *)

Module Scenes.

Import Examples.

Definition shot : option string := Some "data:image/jpeg;base64,AA".

(** The socket opens and the user calibrates. *)
Definition calibrate : list Event :=
  [Socket (Some OPEN); Press Calibrate None; Press Capture shot;
   Message 1500 (Json (note "Calibration complete"))].

(** Then the user measures and holds the target for fifteen frames. *)
Definition reach : list Event :=
  calibrate ++ Press MeasureDistance None :: repeat (Message 2000 (Json (frame true))) 15.

(** Then the countdown runs out and the vision test is closed. *)
Definition tested : list Event :=
  reach ++ repeat (Due 3000 None 2) 5 ++ [Press CloseTest None].

(** The server reports a calibration nobody asked for. *)
Definition unasked : list Event :=
  [Socket (Some OPEN); Message 1500 (Json (note "Calibration complete"))].

End Scenes.

(** * The authentication provider (AuthContext) *)

(** ** Requests, replies and suspended calls *)

(** What the provider asks of the backend. *)
Inductive Request : Type :=
| GetProfile (authorization : string)
| PostLogin (email password : string)
| PostRegister (email password full_name : string).

(** What comes back for a [fetch]: the promise rejects, or a response
    arrives with its [ok] flag and a body; [None] is a body on which
    [response.json()] throws. *)
Inductive Response (A : Type) : Type :=
| Rejected
| Answered (ok : bool) (body : option A).

Arguments Rejected {A}.
Arguments Answered {A} ok body.

(** The body of a reply to a login or a registration: [access_token] is
    read when the response is ok, [detail] when it is not. *)
Record Grant : Type := mkGrant { access_token : string; detail : option string }.

Inductive Form : Type := LoginForm | RegisterForm.

(** [{ success: true }] and [{ success: false, error }]. *)
Inductive Outcome : Type := Succeeded | Failed (error_text : string).

(** An async function suspended at its [await fetch(...)]: [login] or
    [register] with the [token] its closure holds, and
    [fetchUserProfile], awaited by a [login] or [register] or not. *)
Inductive Call : Type :=
| AwaitGrant (form : Form) (token_c : option string)
| AwaitProfile (awaited : bool).

(** The provider's state, the calls in flight, the requests made and
    the results handed back to the callers of [login] and [register]. *)
Record Provider : Type := mkProvider {
  ctx : Auth;
  pending : list Call;
  fetched : list Request;
  returned : list Outcome
}.

Definition set_ctx (a : Auth) (p : Provider) : Provider :=
  {| ctx := a; pending := pending p; fetched := fetched p; returned := returned p |}.

Definition set_pending (l : list Call) (p : Provider) : Provider :=
  {| ctx := ctx p; pending := l; fetched := fetched p; returned := returned p |}.

Definition returns (o : Outcome) (p : Provider) : Provider :=
  {| ctx := ctx p; pending := pending p; fetched := fetched p;
     returned := returned p ++ [o] |}.

Definition setUser (v : option string) (a : Auth) : Auth :=
  {| user := v; token := token a; loading := loading a; authToken := authToken a |}.

Definition setToken (v : option string) (a : Auth) : Auth :=
  {| user := user a; token := v; loading := loading a; authToken := authToken a |}.

Definition setLoading (v : bool) (a : Auth) : Auth :=
  {| user := user a; token := token a; loading := v; authToken := authToken a |}.

(** [localStorage.setItem('authToken', v)] and
    [localStorage.removeItem('authToken')] *)
Definition setItem (v : string) (a : Auth) : Auth :=
  {| user := user a; token := token a; loading := loading a; authToken := Some v |}.

Definition removeItem (a : Auth) : Auth :=
  {| user := user a; token := token a; loading := loading a; authToken := None |}.

(** ** The provider's functions *)

(** What [logout] writes. *)
Definition logged_out (a : Auth) : Auth :=
  removeItem (setToken None (setUser None a)).

(** [`Bearer ${storedToken || token}`] *)
Definition authorization (storedToken token_c : option string) : string :=
  ("Bearer " ++
   match truthy_string storedToken with
   | Some s => s
   | None => match token_c with Some s => s | None => "null" end
   end)%string.

(** [fetchUserProfile] up to its [await fetch]: the stored token is
    read and the request leaves. *)
Definition fetchUserProfile (token_c : option string) (awaited : bool) (p : Provider) :
  Provider :=
  {| ctx := ctx p;
     pending := pending p ++ [AwaitProfile awaited];
     fetched := fetched p ++ [GetProfile (authorization (authToken (ctx p)) token_c)];
     returned := returned p |}.

(** [fetchUserProfile] from the reply on: the user data of an ok
    response is stored, anything else (a response that is not ok, a
    body that does not parse, a rejected fetch) logs out; [finally]
    ends the loading state. *)
Definition profile_reply (r : Response (option string)) (a : Auth) : Auth :=
  setLoading false
    match r with
    | Answered true (Some userData) => setUser userData a
    | _ => logged_out a
    end.

(** [login] and [register] up to their [await fetch]. *)
Definition login (email password : string) (p : Provider) : Provider :=
  {| ctx := ctx p;
     pending := pending p ++ [AwaitGrant LoginForm (token (ctx p))];
     fetched := fetched p ++ [PostLogin email password];
     returned := returned p |}.

Definition register (email password fullName : string) (p : Provider) : Provider :=
  {| ctx := ctx p;
     pending := pending p ++ [AwaitGrant RegisterForm (token (ctx p))];
     fetched := fetched p ++ [PostRegister email password fullName];
     returned := returned p |}.

Definition default_error (form : Form) : string :=
  match form with
  | LoginForm => "Login failed"
  | RegisterForm => "Registration failed"
  end.

(** [login] and [register] from the reply on, up to the
    [await fetchUserProfile()] of the ok branch. *)
Definition grant_reply (form : Form) (token_c : option string) (r : Response Grant)
    (p : Provider) : Provider :=
  match r with
  | Answered true (Some data) =>
    fetchUserProfile token_c true
      (set_ctx (setToken (Some (access_token data)) (setItem (access_token data) (ctx p))) p)
  | Answered false (Some errorData) =>
    returns (Failed match truthy_string (detail errorData) with
                    | Some d => d
                    | None => default_error form
                    end) p
  | _ => returns (Failed "Network error. Please try again.") p
  end.

(** The effect on [token]. *)
Definition token_effect (p : Provider) : Provider :=
  match truthy_string (token (ctx p)) with
  | Some _ => fetchUserProfile (token (ctx p)) false p
  | None => set_ctx (setLoading false (ctx p)) p
  end.

Definition same_token (a b : option string) : bool :=
  match a, b with
  | Some x, Some y => String.eqb x y
  | None, None => true
  | _, _ => false
  end.

(** The commit after an update: the effect runs when [token] changed. *)
Definition provider_commit (before : option string) (p : Provider) : Provider :=
  if same_token before (token (ctx p)) then p else token_effect p.

(** The provider as first rendered, after its effect has run
    once. *)
Definition AuthProvider (savedToken : option string) : Provider :=
  token_effect
    {| ctx := {| user := None; token := savedToken; loading := true;
                 authToken := savedToken |};
       pending := []; fetched := []; returned := [] |}.

(** ** Events of the provider *)

(** The forms call [login] and [register], the header calls [logout],
    and the backend answers the [k]-th call in flight. *)
Inductive AuthEvent : Type :=
| Login (email password : string)
| Register (email password fullName : string)
| Logout
| GrantAnswer (k : nat) (r : Response Grant)
| ProfileAnswer (k : nat) (r : Response (option string)).

Definition without (k : nat) (l : list Call) : list Call :=
  firstn k l ++ skipn (S k) l.

Definition provider_step (e : AuthEvent) (p : Provider) : Provider :=
  provider_commit (token (ctx p))
    match e with
    | Login email password => login email password p
    | Register email password fullName => register email password fullName p
    | Logout => set_ctx (logged_out (ctx p)) p
    | GrantAnswer k r =>
      match nth_error (pending p) k with
      | Some (AwaitGrant form token_c) =>
        grant_reply form token_c r (set_pending (without k (pending p)) p)
      | _ => p
      end
    | ProfileAnswer k r =>
      match nth_error (pending p) k with
      | Some (AwaitProfile awaited) =>
        let p' := set_ctx (profile_reply r (ctx p))
                    (set_pending (without k (pending p)) p) in
        if awaited then returns Succeeded p' else p'
      | _ => p
      end
    end.

Fixpoint provider_run (events : list AuthEvent) (p : Provider) : Provider :=
  match events with
  | [] => p
  | e :: rest => provider_run rest (provider_step e p)
  end.

(** The provider after a run of events from its first render. *)
Definition provider_session (savedToken : option string) (events : list AuthEvent) :
  Provider :=
  provider_run events (AuthProvider savedToken).

(** The call made through a form. *)
Definition submit (form : Form) (email password fullName : string) : AuthEvent :=
  match form with
  | LoginForm => Login email password
  | RegisterForm => Register email password fullName
  end.

Definition request_of (form : Form) (email password fullName : string) : Request :=
  match form with
  | LoginForm => PostLogin email password
  | RegisterForm => PostRegister email password fullName
  end.

(** A profile reply that stores a user: an ok response whose body
    parses. *)
Definition stores_user (r : Response (option string)) : bool :=
  match r with Answered true (Some _) => true | _ => false end.

(** A reply that grants a token: an ok response whose body parses. *)
Definition grants (r : Response Grant) : bool :=
  match r with Answered true (Some _) => true | _ => false end.

(** ** Sample replies *)

Module Accounts.

(** The provider of a browser with nothing stored. *)
Definition signed_out : Provider := AuthProvider None.

(** [{ access_token: 't0k3n', token_type: 'bearer' }] *)
Definition grant : Grant := {| access_token := "t0k3n"; detail := None |}.

(** [{ detail: 'Incorrect email or password' }] *)
Definition refusal : Grant :=
  {| access_token := ""; detail := Some "Incorrect email or password" |}.

(** A 401 on the profile request. *)
Definition unauthorized : Response (option string) := Answered false None.

End Accounts.

(** * The page between commits *)

(** ** Messages ahead of the commit *)

(** The condition under which [onmessage] calls [startCountdown]: the
    flags are those its closure holds, the counter is the ref. *)
Definition fires (isMeasuring_c isDistanceReached_c : bool) (s : State) (d : Data) : bool :=
  isMeasuring_c && negb isDistanceReached_c && carries_face d
  && truthy_bool (at_target_distance d)
  && (15 <=? S (consecutiveTargetFrames s))%nat.

(** Messages handled one after the other by one installed handler.
    [ws.current.onmessage] is assigned by the connection effect and
    keeps the [isMeasuring] and [isDistanceReached] of the render the
    effect ran in; messages dispatched before React commits the
    updates of the one before are all handled with those values. A
    handler that throws leaves what it had done and the next message is
    handled. *)
Fixpoint handle_all (isMeasuring_c isDistanceReached_c : bool)
    (events : list (Z * Payload)) (w : World) : World :=
  match events with
  | [] => w
  | (now, p) :: rest =>
    handle_all isMeasuring_c isDistanceReached_c rest
      (world_of (onmessage isMeasuring_c isDistanceReached_c now p w))
  end.

(** [ws.current.onerror]; [error] is the event as the console prints
    it. The connection banner's own state is not part of [State]. *)
Definition onerror (error : string) : M unit :=
  console_error ("WebSocket Error: " ++ error) ;;
  modify (setStatusMessage
    "⚠️ Error connecting to server. Check if backend is running on port 8000.").

(** ** What happens to the page *)

(** One of the events of [Event] (a single message, an interval, a
    click on a control under the camera, a change of the socket's
    state), several messages handled before the commit, the socket's
    error event, or a click on the header's Logout button. *)
Inductive Occurrence : Type :=
| Plain (e : Event)
| Burst (messages : list (Z * Payload))
| Fault (error : string)
| SignOut.

(** The handlers an occurrence runs, before React commits. The Logout
    button is rendered under [user &&]. *)
Definition handle (o : Occurrence) (w : World) : World :=
  match o with
  | Plain e => step e w
  | Burst messages =>
    handle_all (isMeasuring (comp w)) (isDistanceReached (comp w)) messages w
  | Fault error => world_of (onerror error w)
  | SignOut => if isAuthenticated (auth w) then world_of (logout w) else w
  end.

(** The commit that follows: where [ProtectedRoute] still renders its
    children the component stays, and its connection effect is re-run
    if [isMeasuring] or [isDistanceReached] changed; where it does not,
    the component is unmounted and its state is gone. *)
Definition rendered (before : State) (w : World) : Page :=
  match ProtectedRoute (auth w) with
  | Children =>
    {| provider := auth w;
       face := Some (settle before (token (auth w)) (comp w)) |}
  | _ => {| provider := auth w; face := None |}
  end.

(** An occurrence on the page and the commit after it; nothing of
    [FaceDetectionApp] happens while it is not mounted. *)
Definition happen (o : Occurrence) (pg : Page) : Page :=
  match face pg with
  | Some s => rendered s (handle o {| auth := provider pg; comp := s |})
  | None => pg
  end.

Fixpoint browse (occurrences : list Occurrence) (pg : Page) : Page :=
  match occurrences with
  | [] => pg
  | o :: rest => browse rest (happen o pg)
  end.

(** The page after a run of occurrences from the first commit under
    authentication context [a]. *)
Definition visit (a : Auth) (now : Z) (occurrences : list Occurrence) : Page :=
  browse occurrences (commit now a None).

(** How often interval [id] comes due in a run of occurrences. *)
Fixpoint ticks_in (id : positive) (occurrences : list Occurrence) : nat :=
  match occurrences with
  | [] => 0
  | Plain (Due _ _ i) :: rest => (if Pos.eqb i id then 1 else 0) + ticks_in id rest
  | _ :: rest => ticks_in id rest
  end.

(** The phase of the page: that of the component while it is mounted. *)
Definition page_phase (pg : Page) : option Phase :=
  match face pg with Some s => Some (phase s) | None => None end.

(** The moves between the page's phases and the kind of occurrence that
    makes each: those of the mounted component, and the unmount. *)
Definition page_moves (from : option Phase) (o : Occurrence) (to : option Phase) : bool :=
  match from, o, to with
  | Some ph, Plain e, Some ph' => moves ph e ph'
  | Some Measuring, Burst _, Some CountingDown => true
  | Some _, Plain (Message _ _), None => true
  | Some _, Burst _, None => true
  | Some _, SignOut, None => true
  | _, _, _ => false
  end.

(** ** Sample visits *)

Module Visits.

Import Examples.

Definition shot : option string := Some "data:image/jpeg;base64,AA".

(** The socket opens and the user calibrates. *)
Definition calibrate : list Occurrence :=
  [Plain (Socket (Some OPEN)); Plain (Press Calibrate None); Plain (Press Capture shot);
   Plain (Message 1500 (Json (note "Calibration complete")))].

(** Measure Distance is clicked; the commit replaces the socket and
    the new one opens. *)
Definition measure : list Occurrence :=
  calibrate ++ [Plain (Press MeasureDistance None); Plain (Socket (Some OPEN))].


(** Fifteen of them: the distance is reached and the countdown runs. *)
Definition reached : list Occurrence :=
  measure ++ repeat (Plain (Message 2000 (Json (frame true)))) 15.


(** The countdown runs out, the test is closed, the socket that the
    transition's commit replaced has opened. *)
Definition tested : list Occurrence :=
  reached ++ Plain (Socket (Some OPEN)) :: repeat (Plain (Due 3000 None 2)) 5
    ++ [Plain (Press CloseTest None)].

(** The state of the component when the countdown starts. *)
Definition counting : State :=
  Eval vm_compute in
    match face (visit signed_in 0 reached) with
    | Some s => s
    | None => mount 0 None
    end.

(** What may come between the countdown's ticks: a late frame, a burst
    of late frames, a click, a socket error, the cleared scheduler's
    interval, and two ticks of the countdown's own. *)
Definition interruptions : list Occurrence :=
  [Plain (Message 2500 (Json (frame true)));
   Burst [(2600%Z, Json (frame true)); (2700%Z, Json (frame true))];
   Plain (Due 3000 None 2); Plain (Press MeasureDistance None);
   Fault "error"; Plain (Due 3000 None 1); Plain (Due 4000 None 2)].

End Visits.

(** * Proofs *)

#[local] Arguments Nat.leb : simpl never.
#[local] Arguments Nat.ltb : simpl never.
#[local] Arguments Z.ltb : simpl never.
#[local] Arguments includes : simpl never.
#[local] Arguments toLowerCase : simpl never.
#[local] Arguments Qle_bool : simpl never.
#[local] Arguments Qeq_bool : simpl never.
#[local] Arguments calibration_complete : simpl never.

Ltac unfold_monad :=
  unfold clearInterval, setInterval, ws_send, console_error, logout,
    when, modify, read, throw, bind, ret.

Ltac destruct_state s :=
  destruct s as [s_cam s_dist s_focal s_img s_calibrating s_calibrated s_status s_meas
                 s_box s_att s_reached s_lfd s_scd s_cdv s_slt s_ws s_dint s_fcr s_ctf
                 s_fslf s_ctr s_tms s_nt s_sent s_cons].

(** ** The stop and countdown handlers *)

Lemma stopMeasuringDistance_returns (w : World) :
  exists s',
    stopMeasuringDistance w = Ret tt (mkWorld (auth w) s') /\
    isMeasuring s' = false /\
    detectionInterval s' = None /\
    timers s' = clear_ref (detectionInterval (comp w)) (timers (comp w)) /\
    sent s' = (if ws_is_open (comp w)
               then sent (comp w) ++ [OutCommand stop_all None]
               else sent (comp w))%list /\
    s' = setIsMeasuring false (set_detectionInterval None
           (set_timers (timers s') (set_sent (sent s') (comp w)))).
Proof.
  destruct w as [a s]; destruct_state s.
  unfold stopMeasuringDistance, ws_is_open; unfold_monad; cbn.
  destruct s_ws as [[]|]; destruct s_dint; cbn;
    (eexists; split; [reflexivity|]; cbn; repeat split).
Qed.

Lemma startCountdown_returns (w : World) :
  exists s',
    startCountdown w = Ret tt (mkWorld (auth w) s') /\
    isMeasuring s' = false /\
    showCountdown s' = true /\
    countdownValue s' = 5%nat /\
    detectionInterval s' = None /\
    countdownTimerRef s' = Some (nextTimer (comp w)) /\
    nextTimer s' = Pos.succ (nextTimer (comp w)) /\
    timers s' =
      (clear_ref (countdownTimerRef (comp w))
         (clear_ref (detectionInterval (comp w)) (timers (comp w)))
         ++ [(nextTimer (comp w), CbCountdown)])%list /\
    sent s' = (if ws_is_open (comp w)
               then sent (comp w) ++ [OutCommand stop_all None]
               else sent (comp w))%list /\
    s' = setIsMeasuring false (setShowCountdown true (setCountdownValue 5%nat
           (set_detectionInterval None (set_countdownTimerRef (countdownTimerRef s')
             (set_nextTimer (nextTimer s') (set_timers (timers s')
               (set_sent (sent s') (comp w)))))))).
Proof.
  destruct w as [a s]; destruct_state s.
  unfold startCountdown, stopMeasuringDistance, ws_is_open; unfold_monad; cbn.
  destruct s_ws as [[]|]; destruct s_dint; destruct s_ctr; cbn;
    (eexists; split; [reflexivity|]; cbn; repeat split).
Qed.

#[local] Arguments startCountdown : simpl never.

(** ** One message event *)

Lemma deliver_face_frame (w : World) (now : Z) (d : Data) :
  isMeasuring (comp w) = true ->
  carries_face d = true ->
  exists s',
    deliver now (Json d) w = Ret tt (mkWorld (auth w) s') /\
    consecutiveTargetFrames s' =
      (if truthy_bool (at_target_distance d)
       then S (consecutiveTargetFrames (comp w)) else 0%nat) /\
    atTargetDistance s' = truthy_bool (at_target_distance d) /\
    (if truthy_bool (at_target_distance d)
        && (15 <=? S (consecutiveTargetFrames (comp w)))%nat
        && negb (isDistanceReached (comp w))
     then countdown_started (comp w) s'
     else no_transition (comp w) s').
Proof.
  destruct w as [a s]; destruct_state s; destruct d as [e su pi fo rb ms fd fs atd].
  unfold carries_face, deliver, onmessage; cbn. intros -> Hc.
  destruct (truthy_string e); [discriminate|].
  destruct (truthy_bool su); [|discriminate]. cbn in Hc.
  destruct fs as [[|f0 fs]|]; try discriminate. clear Hc.
  unfold_monad; cbn.
  destruct (truthy_string pi), (truthy_number fo), rb,
    (calibration_complete ms), (truthy_bool fd); cbn.
  all: destruct (truthy_bool atd); cbn;
    [destruct (15 <=? S s_ctf)%nat; cbn; [destruct s_reached; cbn|]|].
  all: try match goal with
       | |- context [startCountdown ?W] =>
         destruct (startCountdown_returns W)
           as (s1 & -> & Hm & Hsc & Hcv & Hdi & Hcr & Hnt & Htm & Hsn & Hfr);
         cbn in Hm, Hsc, Hcv, Hdi, Hcr, Hnt, Htm, Hsn; cbn
       end.
  all: destruct (truthy_string ms) as [m|]; cbn; [destruct (includes _ m); cbn|].
  all: eexists; split; [reflexivity|]; cbn.
  all: unfold no_transition, countdown_started; cbn; repeat split; auto.
  all: rewrite Hfr; reflexivity.
Qed.

Lemma deliver_not_measuring (w : World) (now : Z) (d : Data) :
  isMeasuring (comp w) = false ->
  exists a' s',
    deliver now (Json d) w = Ret tt (mkWorld a' s') /\
    no_transition (comp w) s' /\
    currentDistance s' = currentDistance (comp w) /\
    atTargetDistance s' = atTargetDistance (comp w) /\
    consecutiveTargetFrames s' = consecutiveTargetFrames (comp w) /\
    frameCountRef s' = frameCountRef (comp w) /\
    showCamera s' = showCamera (comp w) /\
    ws s' = ws (comp w) /\
    (truthy_string (error d) = None -> a' = auth w) /\
    (truthy_string (error d) = None -> truthy_bool (success d) = true ->
       processedImage s' =
         match truthy_string (processed_image d) with
         | Some img => Some img
         | None => processedImage (comp w)
         end /\
       focalLength s' =
         match truthy_number (focal_length d) with
         | Some f => f
         | None => focalLength (comp w)
         end /\
       referenceBox s' =
         match reference_box d with
         | Some b => Some b
         | None => referenceBox (comp w)
         end /\
       lastFaceDetected s' =
         (if truthy_bool (face_detected d) then now else lastFaceDetected (comp w)) /\
       framesSinceLastFace s' =
         (if truthy_bool (face_detected d) then 0%nat
          else framesSinceLastFace (comp w))).
Proof.
  destruct w as [a s]; destruct_state s; destruct d as [e su pi fo rb ms fd fs atd].
  unfold deliver, onmessage; cbn. intros ->.
  unfold_monad; cbn.
  destruct (truthy_string e) as [err|]; cbn.
  - destruct (includes "Authentication" err); cbn;
      (do 2 eexists; split; [reflexivity|]; cbn;
       unfold no_transition; cbn; repeat split; auto; discriminate).
  - destruct (truthy_bool su); cbn.
    + destruct (truthy_string pi), (truthy_number fo), rb,
        (calibration_complete ms), (truthy_bool fd); cbn.
      all: destruct fs as [[|f0 fs]|]; cbn.
      all: destruct (truthy_string ms) as [m|]; cbn; [destruct (includes _ m); cbn|].
      all: do 2 eexists; split; [reflexivity|]; cbn.
      all: unfold no_transition; cbn; repeat split; auto.
    + destruct (truthy_string ms) as [m|]; cbn; [destruct (includes _ m); cbn|].
      all: do 2 eexists; split; [reflexivity|]; cbn.
      all: unfold no_transition; cbn; repeat split; auto; discriminate.
Qed.

(** A message without a face leaves the streak alone. *)
Lemma deliver_without_face (w : World) (now : Z) (d : Data) :
  carries_face d = false ->
  consecutiveTargetFrames (comp (world_of (deliver now (Json d) w)))
    = consecutiveTargetFrames (comp w).
Proof.
  destruct w as [a s]; destruct_state s; destruct d as [e su pi fo rb ms fd fs atd].
  unfold carries_face, deliver, onmessage; cbn. intros Hc.
  unfold_monad; cbn.
  destruct (truthy_string e) as [err|]; cbn.
  - destruct (includes "Authentication" err); reflexivity.
  - destruct (truthy_bool su); cbn in Hc |- *.
    + destruct fs as [[|f0 fs]|]; try discriminate Hc.
      all: destruct (truthy_string pi), (truthy_number fo), rb,
             (calibration_complete ms), (truthy_bool fd); cbn.
      all: destruct (truthy_string ms) as [m|]; cbn;
             [destruct (includes _ m)|]; reflexivity.
    + destruct (truthy_string ms) as [m|]; cbn; [destruct (includes _ m)|]; reflexivity.
Qed.

(** ** Decode failures *)

(** C2 as stated fails: on a payload that does not parse, the handler
    does not return, it throws. *)
Lemma malformed_payload_not_tolerated :
  ~ exists w', deliver 2000 (Malformed "{oops") Examples.measuring = Ret tt w'.
Proof.
  intros [w' H]. discriminate H.
Qed.

(** C2 (amended): on every payload that is not well-formed the message
    handler aborts with the SyntaxError of [JSON.parse] before it touches
    anything: it logs nothing itself, and the world it leaves, with the
    phase flags, every other cell of the component, the socket and the
    credential, is the world it found. *)
Theorem malformed_payload_aborts_handler :
  forall (isMeasuring_c isDistanceReached_c : bool) (now : Z) (raw : string) (w : World),
    onmessage isMeasuring_c isDistanceReached_c now (Malformed raw) w
      = Raise SyntaxError w /\
    deliver now (Malformed raw) w = Raise SyntaxError w /\
    world_of (deliver now (Malformed raw) w) = w.
Proof.
  intros. repeat split.
Qed.

(** ** Leaving and entering the measuring cycle *)

(** C3 as stated fails: seven at-target frames into a measurement the
    user stops measuring, and the streak counter still reads 7. *)
Lemma stop_measuring_keeps_streak :
  let held := deliver_all (Examples.at_times (Examples.frame true) 7) Examples.measuring in
  let w' := world_of (stopMeasuringDistance held) in
  isMeasuring (comp held) = true /\
  atTargetDistance (comp held) = true /\
  isMeasuring (comp w') = false /\
  consecutiveTargetFrames (comp w') = 7%nat /\
  ~ (consecutiveTargetFrames (comp w') = 0%nat /\ framesSinceLastFace (comp w') = 0%nat).
Proof.
  vm_compute. repeat split; intros [H _]; discriminate H.
Qed.

(** C3 (amended): no way out of the measuring cycle resets the debounce
    counters.  The user's stop command leaves both as they were, turns
    measuring off and keeps the calibration flags, so the page is back at
    Calibrated; the transition to the countdown leaves both as well.
    Both counters are reset to 0 on the way in, by the start command,
    whether or not the socket is open. *)
Theorem counters_reset_on_start_not_on_stop (w : World) :
  (exists s',
     stopMeasuringDistance w = Ret tt (mkWorld (auth w) s') /\
     consecutiveTargetFrames s' = consecutiveTargetFrames (comp w) /\
     framesSinceLastFace s' = framesSinceLastFace (comp w) /\
     isMeasuring s' = false /\
     isCalibrated s' = isCalibrated (comp w) /\
     isCalibrating s' = isCalibrating (comp w) /\
     showCountdown s' = showCountdown (comp w) /\
     showLandoltTest s' = showLandoltTest (comp w)) /\
  (exists s',
     startCountdown w = Ret tt (mkWorld (auth w) s') /\
     consecutiveTargetFrames s' = consecutiveTargetFrames (comp w) /\
     framesSinceLastFace s' = framesSinceLastFace (comp w)) /\
  (forall (isDistanceReached_c : bool) (lastFaceDetected_c : Z),
     exists s',
       startMeasuringDistance isDistanceReached_c lastFaceDetected_c w
         = Ret tt (mkWorld (auth w) s') /\
       consecutiveTargetFrames s' = 0%nat /\
       framesSinceLastFace s' = 0%nat).
Proof.
  split; [|split].
  - destruct (stopMeasuringDistance_returns w) as (s' & E & _ & _ & _ & _ & Hfr).
    exists s'. split; [exact E|]. rewrite Hfr. cbn. repeat split.
  - destruct (startCountdown_returns w)
      as (s' & E & _ & _ & _ & _ & _ & _ & _ & _ & Hfr).
    exists s'. split; [exact E|]. rewrite Hfr. cbn. repeat split.
  - intros idr lfd. destruct w as [a s]; destruct_state s.
    unfold startMeasuringDistance, ws_is_open; unfold_monad; cbn.
    destruct s_ws as [[]|]; cbn; (eexists; split; [reflexivity|]; cbn; split; reflexivity).
Qed.

(** ** Sending while disconnected *)

(** C5: while the socket is absent or not OPEN, every send the
    component attempts is dropped without an error.  The scheduler's
    frame, the calibration command and the capture command return with
    the world untouched; the start and stop commands return and leave
    the outbound traffic as it was, and the start command registers no
    scheduler.  Nothing is kept for a later send: the world has no queue. *)
Theorem send_while_disconnected_is_dropped (w : World) :
  ws_is_open (comp w) = false ->
  (forall (idr : bool) (lfd now : Z) (webcam : option (option string)),
     sendFrame idr lfd now webcam w = Ret tt w) /\
  startCalibration w = Ret tt w /\
  (forall webcam : option (option string), captureCalibration webcam w = Ret tt w) /\
  (forall (idr : bool) (lfd : Z),
     exists s',
       startMeasuringDistance idr lfd w = Ret tt (mkWorld (auth w) s') /\
       sent s' = sent (comp w) /\
       timers s' = timers (comp w) /\
       isMeasuring s' = isMeasuring (comp w)) /\
  (exists s',
     stopMeasuringDistance w = Ret tt (mkWorld (auth w) s') /\
     sent s' = sent (comp w)).
Proof.
  intros Hclosed. repeat split.
  - intros idr lfd now webcam. unfold sendFrame; unfold_monad.
    rewrite Hclosed. destruct webcam; reflexivity.
  - unfold startCalibration; unfold_monad. rewrite Hclosed. reflexivity.
  - intros webcam. unfold captureCalibration; unfold_monad. rewrite Hclosed.
    destruct webcam as [shot|]; cbn; [destruct (truthy_string shot)|]; reflexivity.
  - intros idr lfd. destruct w as [a s]; destruct_state s.
    unfold ws_is_open in Hclosed; cbn in Hclosed.
    unfold startMeasuringDistance, ws_is_open; unfold_monad; cbn.
    destruct s_ws as [[]|]; try discriminate; cbn;
      (eexists; split; [reflexivity|]; cbn; repeat split).
  - destruct (stopMeasuringDistance_returns w) as (s' & E & _ & _ & _ & Hs & _).
    exists s'. split; [exact E|]. rewrite Hs, Hclosed. reflexivity.
Qed.

(** The page with its socket closed drops all five sends. *)
Lemma send_while_disconnected_witness :
  ws_is_open (comp Examples.offline) = false /\
  startCalibration Examples.offline = Ret tt Examples.offline.
Proof.
  split; [reflexivity|].
  exact (proj1 (proj2 (send_while_disconnected_is_dropped Examples.offline eq_refl))).
Defined.

(** ** Runs of message events *)

Lemma no_transition_refl (s : State) : no_transition s s.
Proof. unfold no_transition. repeat split. Qed.

Lemma no_transition_trans (s1 s2 s3 : State) :
  no_transition s1 s2 -> no_transition s2 s3 -> no_transition s1 s3.
Proof.
  unfold no_transition.
  intros (A1 & A2 & A3 & A4 & A5 & A6 & A7 & A8 & A9 & A10)
         (B1 & B2 & B3 & B4 & B5 & B6 & B7 & B8 & B9 & B10).
  repeat split; congruence.
Qed.

Lemma deliver_all_app (xs ys : list (Z * Payload)) (w : World) :
  deliver_all (xs ++ ys) w = deliver_all ys (deliver_all xs w).
Proof.
  revert w. induction xs as [|[now p] xs IH]; intros w; cbn; [reflexivity|apply IH].
Qed.

Lemma face_frame_inv (target : bool) (e : Z * Payload) :
  face_frame target e ->
  exists now d, e = (now, Json d) /\ carries_face d = true /\
                truthy_bool (at_target_distance d) = target.
Proof.
  destruct e as [now [raw|d]]; unfold face_frame; cbn; [intros []|].
  intros [H1 H2]. exists now, d. auto.
Qed.

(** Below the threshold a streak of at-target face frames only counts. *)
Lemma streak_below_threshold (events : list (Z * Payload)) :
  forall w : World,
    Forall (face_frame true) events ->
    isMeasuring (comp w) = true ->
    consecutiveTargetFrames (comp w) + length events < 15 ->
    auth (deliver_all events w) = auth w /\
    no_transition (comp w) (comp (deliver_all events w)) /\
    consecutiveTargetFrames (comp (deliver_all events w))
      = consecutiveTargetFrames (comp w) + length events.
Proof.
  induction events as [|e events IH]; intros w Hall Hm Hlt; cbn [deliver_all length].
  - rewrite Nat.add_0_r. auto using no_transition_refl.
  - inversion Hall as [|? ? He Hrest]; subst.
    destruct (face_frame_inv _ _ He) as (now & d & -> & Hc & Ht).
    destruct (deliver_face_frame w now d Hm Hc) as (s' & E & Hn & _ & Hstep).
    rewrite Ht in Hn, Hstep. cbn [length] in Hlt.
    replace (15 <=? S (consecutiveTargetFrames (comp w)))%nat with false in Hstep
      by (symmetry; apply Nat.leb_gt; lia).
    cbn in Hstep. rewrite E; cbn [world_of].
    destruct (IH (mkWorld (auth w) s')) as (Ha & Hq & Hk); cbn [comp auth].
    + exact Hrest.
    + destruct Hstep as (Hm' & _). congruence.
    + lia.
    + cbn [comp auth] in *. split; [|split].
      * exact Ha.
      * eapply no_transition_trans; eassumption.
      * rewrite Hk, Hn. lia.
Qed.

(** The frame that takes the streak to the threshold starts the countdown. *)
Lemma threshold_frame (w : World) (e : Z * Payload) :
  face_frame true e ->
  isMeasuring (comp w) = true ->
  isDistanceReached (comp w) = false ->
  consecutiveTargetFrames (comp w) = 14 ->
  auth (deliver_all [e] w) = auth w /\
  countdown_started (comp w) (comp (deliver_all [e] w)) /\
  consecutiveTargetFrames (comp (deliver_all [e] w)) = 15.
Proof.
  intros He Hm Hr Hc.
  destruct (face_frame_inv _ _ He) as (now & d & -> & Hf & Ht).
  destruct (deliver_face_frame w now d Hm Hf) as (s' & E & Hn & _ & Hstep).
  rewrite Ht, Hr, Hc in Hstep. rewrite Ht, Hc in Hn. cbn in Hstep.
  cbn [deliver_all]. rewrite E. cbn [world_of comp auth]. auto.
Qed.

(** Once measuring is off, no message event touches the cycle. *)
Lemma events_when_not_measuring (events : list (Z * Payload)) :
  forall w : World,
    isMeasuring (comp w) = false ->
    no_transition (comp w) (comp (deliver_all events w)) /\
    consecutiveTargetFrames (comp (deliver_all events w))
      = consecutiveTargetFrames (comp w).
Proof.
  induction events as [|[now [raw|d]] events IH]; intros w Hm; cbn [deliver_all].
  - auto using no_transition_refl.
  - cbn. apply IH, Hm.
  - destruct (deliver_not_measuring w now d Hm)
      as (a' & s' & E & Hq & _ & _ & Hc & _).
    rewrite E; cbn [world_of].
    destruct (IH (mkWorld a' s')) as (Hq' & Hc'); cbn [comp].
    + destruct Hq as (Hm' & _). congruence.
    + cbn [comp] in *. split; [eapply no_transition_trans; eassumption|congruence].
Qed.

Lemma Forall_firstn {A : Type} (P : A -> Prop) (n : nat) (l : list A) :
  Forall P l -> Forall P (firstn n l).
Proof.
  intros H. revert n. induction H as [|x l Hx Hl IH]; intros [|n]; cbn; auto.
Qed.

(** ** The transition to the countdown *)

(** C1 as stated fails: fifteen events that carry the at-target flag but
    no face leave the measurement where it was. *)
Lemma flagged_events_without_face_do_not_fire :
  let w' := deliver_all (Examples.at_times Examples.flag_only 15) Examples.measuring in
  isMeasuring (comp Examples.measuring) = true /\
  at_target_distance Examples.flag_only = Some true /\
  isMeasuring (comp w') = true /\
  isDistanceReached (comp w') = false /\
  showCountdown (comp w') = false /\
  timers (comp w') = timers (comp Examples.measuring).
Proof.
  vm_compute. repeat split.
Qed.

(** While the flags stay what the handler holds, the run a single
    handler sees is the run with a commit after each message. *)
Lemma handle_all_steady (im idr : bool) (events : list (Z * Payload)) :
  forall w : World,
    (forall k, k < length events ->
       isMeasuring (comp (deliver_all (firstn k events) w)) = im /\
       isDistanceReached (comp (deliver_all (firstn k events) w)) = idr) ->
    handle_all im idr events w = deliver_all events w.
Proof.
  induction events as [|[now p] rest IH]; intros w H; [reflexivity|].
  cbn [handle_all deliver_all].
  destruct (H 0) as [Hm Hr]; [cbn; lia|]. cbn in Hm, Hr.
  assert (E : onmessage im idr now p w = deliver now p w)
    by (unfold deliver; rewrite Hm, Hr; reflexivity).
  rewrite E. apply IH. intros k Hk.
  apply (H (S k)). cbn. lia.
Qed.

Lemma handle_all_firstn_steady (im idr : bool) (events : list (Z * Payload)) (n : nat)
    (w : World) :
  (forall k, k < n ->
     isMeasuring (comp (deliver_all (firstn k events) w)) = im /\
     isDistanceReached (comp (deliver_all (firstn k events) w)) = idr) ->
  handle_all im idr (firstn n events) w = deliver_all (firstn n events) w.
Proof.
  intros H. apply handle_all_steady. intros k Hk.
  rewrite length_firstn in Hk.
  rewrite firstn_firstn. replace (Nat.min k n) with k by lia.
  apply H. lia.
Qed.

(** C1 (amended): from a measurement just started, fifteen consecutive
    at-target events that each carry [success] and at least one face,
    handled by the message handler installed for that measurement (its
    closure holds measuring on and distance-reached off, with or
    without commits in between), take the transition to the countdown
    on the fifteenth and on none before it: the first fourteen only
    count, the fifteenth sets distance-reached, stops the scheduler and
    registers the one countdown interval with the display at 5. A
    handler installed by a commit after the transition (its closure
    holds measuring off and distance-reached on) does not touch the
    cycle again, whatever it receives, and distance-reached stays
    set. *)
Theorem target_streak_starts_countdown_once
    (w : World) (streak later : list (Z * Payload)) :
  isMeasuring (comp w) = true ->
  isDistanceReached (comp w) = false ->
  consecutiveTargetFrames (comp w) = 0 ->
  length streak = 15 ->
  Forall (face_frame true) streak ->
  (forall k : nat, k <= 14 ->
     no_transition (comp w) (comp (handle_all true false (firstn k streak) w)) /\
     consecutiveTargetFrames (comp (handle_all true false (firstn k streak) w)) = k) /\
  consecutiveTargetFrames (comp (handle_all true false streak w)) = 15 /\
  countdown_started (comp (handle_all true false (firstn 14 streak) w))
                    (comp (handle_all true false streak w)) /\
  no_transition (comp (handle_all true false streak w))
                (comp (handle_all false true later (handle_all true false streak w))) /\
  isDistanceReached (comp (handle_all false true later (handle_all true false streak w)))
    = true.
Proof.
  intros Hm Hr Hc Hlen Hall.
  assert (Hpre : forall k, k <= 14 ->
            auth (deliver_all (firstn k streak) w) = auth w /\
            no_transition (comp w) (comp (deliver_all (firstn k streak) w)) /\
            consecutiveTargetFrames (comp (deliver_all (firstn k streak) w)) = k).
  { intros k Hk.
    destruct (streak_below_threshold (firstn k streak) w) as (Ha & Hq & Hn).
    - apply Forall_firstn, Hall.
    - exact Hm.
    - rewrite length_firstn, Hc. lia.
    - rewrite length_firstn, Hc in Hn. split; [|split]; auto. lia. }
  assert (Hflags : forall k, k < 15 ->
            isMeasuring (comp (deliver_all (firstn k streak) w)) = true /\
            isDistanceReached (comp (deliver_all (firstn k streak) w)) = false).
  { intros k Hk. destruct (Hpre k) as (_ & (A1 & A2 & _) & _); [lia|].
    split; congruence. }
  assert (Hsame : forall n, n <= 15 ->
            handle_all true false (firstn n streak) w = deliver_all (firstn n streak) w).
  { intros n Hn. apply handle_all_firstn_steady. intros k Hk. apply Hflags. lia. }
  assert (Hwhole : handle_all true false streak w = deliver_all streak w).
  { rewrite <- (firstn_all streak), Hlen. apply Hsame. lia. }
  destruct (Hpre 14 (le_n 14)) as (_ & Hq14 & Hn14).
  assert (Hsplit : streak = firstn 14 streak ++ skipn 14 streak)
    by (symmetry; apply firstn_skipn).
  destruct (skipn 14 streak) as [|e rest] eqn:Hskip.
  { apply (f_equal (@length _)) in Hskip. rewrite length_skipn, Hlen in Hskip.
    discriminate. }
  assert (rest = []) as ->.
  { apply (f_equal (@length _)) in Hskip. rewrite length_skipn, Hlen in Hskip.
    cbn in Hskip. destruct rest; [reflexivity|discriminate]. }
  assert (He : face_frame true e).
  { rewrite Hsplit in Hall. apply Forall_app in Hall. destruct Hall as [_ Hall].
    inversion Hall; assumption. }
  assert (Hrun : deliver_all streak w = deliver_all [e] (deliver_all (firstn 14 streak) w)).
  { rewrite Hsplit at 1. apply deliver_all_app. }
  destruct (threshold_frame (deliver_all (firstn 14 streak) w) e He) as (_ & Hfire & Hn15).
  - destruct Hq14 as (Hm14 & _). congruence.
  - destruct Hq14 as (_ & Hr14 & _). congruence.
  - exact Hn14.
  - assert (Hquiet : forall k,
              no_transition (comp (deliver_all streak w))
                (comp (deliver_all (firstn k later) (deliver_all streak w)))).
    { intros k. rewrite Hrun. apply events_when_not_measuring. apply Hfire. }
    assert (Hlater : handle_all false true later (deliver_all streak w)
                     = deliver_all later (deliver_all streak w)).
    { apply handle_all_steady. intros k _.
      destruct (Hquiet k) as (A1 & A2 & _). rewrite A1, A2, Hrun.
      split; apply Hfire. }
    rewrite Hwhole, Hlater, (Hsame 14) by lia.
    split; [|split; [|split; [|split]]].
    + intros k Hk. rewrite (Hsame k) by lia. apply Hpre; assumption.
    + rewrite Hrun. exact Hn15.
    + rewrite Hrun. exact Hfire.
    + rewrite <- (firstn_all later). apply Hquiet.
    + pose proof (Hquiet (length later)) as (_ & A2 & _).
      rewrite firstn_all in A2. rewrite A2, Hrun. apply Hfire.
Qed.

(** Fifteen frames at four metres on the sample measurement. *)
Lemma target_streak_witness :
  isMeasuring (comp Examples.measuring) = true /\
  isDistanceReached (comp Examples.measuring) = false /\
  consecutiveTargetFrames (comp Examples.measuring) = 0 /\
  length (Examples.at_times (Examples.frame true) 15) = 15 /\
  Forall (face_frame true) (Examples.at_times (Examples.frame true) 15) /\
  consecutiveTargetFrames
    (comp (handle_all true false (Examples.at_times (Examples.frame true) 15)
             Examples.measuring))
    = 15.
Proof.
  assert (H : Forall (face_frame true) (Examples.at_times (Examples.frame true) 15))
    by (repeat constructor).
  refine (conj eq_refl (conj eq_refl (conj eq_refl (conj eq_refl (conj H _))))).
  exact (proj1 (proj2 (target_streak_starts_countdown_once Examples.measuring
           (Examples.at_times (Examples.frame true) 15) []
           eq_refl eq_refl eq_refl eq_refl H))).
Defined.

(** ** The streak counter *)

(** C4 as stated fails: after fourteen at-target frames an event without
    the flag, and without a face, leaves the streak at 14, and a single
    further at-target frame then starts the countdown. *)
Lemma faceless_event_keeps_streak :
  let w14 := deliver_all (Examples.at_times (Examples.frame true) 14) Examples.measuring in
  let w14' := deliver_all [(2000%Z, Json Examples.no_face)] w14 in
  let w15 := deliver_all [(2000%Z, Json (Examples.frame true))] w14' in
  at_target_distance Examples.no_face = None /\
  isMeasuring (comp w14) = true /\
  consecutiveTargetFrames (comp w14) = 14 /\
  consecutiveTargetFrames (comp w14') = 14 /\
  isDistanceReached (comp w15) = true /\
  showCountdown (comp w15) = true.
Proof.
  vm_compute. repeat split.
Qed.

(** C4 (amended): while measuring, every inbound message that carries
    [success] and at least one face, and no error text, adds exactly one
    to consecutive-target-frames when its at-target flag is set and
    resets it to 0 when the flag is missing or false; a message without
    a face leaves the counter alone.  In particular one such face frame without
    the flag after fourteen with it resets the counter to 0, fourteen
    more with the flag reach 14 without any transition, and only the
    fifteenth fresh one starts the countdown. *)
Theorem target_streak_counts_face_frames (w : World) :
  isMeasuring (comp w) = true ->
  (forall (now : Z) (d : Data),
     carries_face d = true ->
     consecutiveTargetFrames (comp (world_of (deliver now (Json d) w))) =
       if truthy_bool (at_target_distance d)
       then S (consecutiveTargetFrames (comp w)) else 0) /\
  (forall (now : Z) (d : Data),
     carries_face d = false ->
     consecutiveTargetFrames (comp (world_of (deliver now (Json d) w))) =
       consecutiveTargetFrames (comp w)) /\
  (forall (first second : list (Z * Payload)) (miss : Z * Payload),
     isDistanceReached (comp w) = false ->
     consecutiveTargetFrames (comp w) = 0 ->
     length first = 14 -> Forall (face_frame true) first ->
     face_frame false miss ->
     length second = 14 -> Forall (face_frame true) second ->
     consecutiveTargetFrames (comp (deliver_all (first ++ [miss]) w)) = 0 /\
     consecutiveTargetFrames (comp (deliver_all (first ++ miss :: second) w)) = 14 /\
     no_transition (comp w) (comp (deliver_all (first ++ miss :: second) w)) /\
     forall e : Z * Payload,
       face_frame true e ->
       countdown_started
         (comp (deliver_all (first ++ miss :: second) w))
         (comp (deliver_all [e] (deliver_all (first ++ miss :: second) w)))).
Proof.
  intros Hm. split; [|split].
  - intros now d Hc.
    destruct (deliver_face_frame w now d Hm Hc) as (s' & E & Hn & _).
    rewrite E. exact Hn.
  - intros now d Hc. apply deliver_without_face, Hc.
  - intros first second miss Hr Hc H1 Hall1 Hmiss H2 Hall2.
    destruct (streak_below_threshold first w Hall1 Hm) as (_ & Hq1 & _);
      [rewrite Hc, H1; lia|].
    set (w1 := deliver_all first w) in *.
    assert (Hm1 : isMeasuring (comp w1) = true)
      by (destruct Hq1 as (E & _); congruence).
    destruct (face_frame_inv _ _ Hmiss) as (now & d & -> & Hf & Ht).
    destruct (deliver_face_frame w1 now d Hm1 Hf) as (s2 & E2 & Hn2 & _ & Hstep).
    rewrite Ht in Hn2, Hstep. cbn in Hstep.
    assert (Erun1 : deliver_all (first ++ [(now, Json d)]) w = mkWorld (auth w1) s2).
    { rewrite deliver_all_app. fold w1. cbn [deliver_all]. rewrite E2. reflexivity. }
    assert (Erun2 : deliver_all (first ++ (now, Json d) :: second) w
                    = deliver_all second (mkWorld (auth w1) s2)).
    { rewrite deliver_all_app. fold w1. cbn [deliver_all]. rewrite E2. reflexivity. }
    rewrite Erun1, Erun2. cbn [comp].
    destruct (streak_below_threshold second (mkWorld (auth w1) s2) Hall2)
      as (_ & Hq3 & Hn3); cbn [comp].
    + destruct Hstep as (E & _). congruence.
    + rewrite Hn2, H2. lia.
    + cbn [comp] in Hq3, Hn3. rewrite Hn2, H2 in Hn3.
      assert (Hq : no_transition (comp w)
                     (comp (deliver_all second (mkWorld (auth w1) s2))))
        by (eapply no_transition_trans; [exact Hq1|];
            eapply no_transition_trans; [exact Hstep|exact Hq3]).
      split; [exact Hn2|]. split; [exact Hn3|]. split; [exact Hq|].
      intros e He. apply threshold_frame; try assumption.
      * destruct Hq as (E & _). congruence.
      * destruct Hq as (_ & E & _). congruence.
Qed.

(** A frame at four metres, on target or not, on the sample measurement. *)
Lemma target_streak_counter_witness :
  isMeasuring (comp Examples.measuring) = true /\
  consecutiveTargetFrames
    (comp (world_of (deliver 2000 (Json (Examples.frame true)) Examples.measuring))) = 1 /\
  consecutiveTargetFrames
    (comp (world_of (deliver 2000 (Json (Examples.frame false)) Examples.measuring))) = 0.
Proof.
  split; [reflexivity|]. split.
  - exact (proj1 (target_streak_counts_face_frames Examples.measuring eq_refl)
             2000%Z (Examples.frame true) eq_refl).
  - exact (proj1 (target_streak_counts_face_frames Examples.measuring eq_refl)
             2000%Z (Examples.frame false) eq_refl).
Defined.

(** ** Events outside a measurement *)

(** C8 as stated fails: on the idle page, neither calibrating nor
    measuring, a detection event replaces the preview image and the
    last-face timestamp. *)
Lemma stray_event_updates_idle_page :
  let w' := world_of (deliver 2000 (Json (Examples.frame true)) Examples.idle) in
  isCalibrating (comp Examples.idle) = false /\
  isMeasuring (comp Examples.idle) = false /\
  processedImage (comp Examples.idle) = None /\
  processedImage (comp w') = Some "data:image/jpeg;base64,AA" /\
  lastFaceDetected (comp Examples.idle) = 1000%Z /\
  lastFaceDetected (comp w') = 2000%Z.
Proof.
  vm_compute. repeat split.
Qed.

(** C8 (amended): a detection event received while the page is not
    measuring is ignored by the measuring cycle only: the distance text,
    the at-target flag, consecutive-target-frames, distance-reached, the
    countdown and the scheduler are as before.  The preview image, the
    focal length, the reference box, the last-face timestamp and
    frames-since-last-face are updated from the fields the message
    carries, in any phase. *)
Theorem stray_event_leaves_measurement_alone (w : World) (now : Z) (d : Data) :
  isMeasuring (comp w) = false ->
  exists a' s',
    deliver now (Json d) w = Ret tt (mkWorld a' s') /\
    currentDistance s' = currentDistance (comp w) /\
    atTargetDistance s' = atTargetDistance (comp w) /\
    consecutiveTargetFrames s' = consecutiveTargetFrames (comp w) /\
    no_transition (comp w) s' /\
    (truthy_string (error d) = None -> truthy_bool (success d) = true ->
       processedImage s' =
         match truthy_string (processed_image d) with
         | Some img => Some img
         | None => processedImage (comp w)
         end /\
       focalLength s' =
         match truthy_number (focal_length d) with
         | Some f => f
         | None => focalLength (comp w)
         end /\
       referenceBox s' =
         match reference_box d with
         | Some b => Some b
         | None => referenceBox (comp w)
         end /\
       lastFaceDetected s' =
         (if truthy_bool (face_detected d) then now else lastFaceDetected (comp w)) /\
       framesSinceLastFace s' =
         (if truthy_bool (face_detected d) then 0
          else framesSinceLastFace (comp w))).
Proof.
  intros Hm.
  destruct (deliver_not_measuring w now d Hm)
    as (a' & s' & E & Hq & H1 & H2 & H3 & _ & _ & _ & _ & Hupd).
  exists a', s'. repeat (split; [assumption|]). exact Hupd.
Qed.

(** The idle page and a frame at four metres. *)
Lemma stray_event_witness :
  isMeasuring (comp Examples.idle) = false /\
  exists a' s',
    deliver 2000 (Json (Examples.frame true)) Examples.idle = Ret tt (mkWorld a' s') /\
    currentDistance s' = ZeroMetres.
Proof.
  split; [reflexivity|].
  destruct (stray_event_leaves_measurement_alone Examples.idle 2000
              (Examples.frame true) eq_refl) as (a' & s' & E & Hd & _).
  exists a', s'. split; [exact E|exact Hd].
Defined.

(** ** Informational text *)

Ltac finish_status :=
  rewrite ?andb_false_r; cbn;
  try match goal with
      | |- context [startCountdown ?W] =>
        let Hfr := fresh "Hfr" in
        destruct (startCountdown_returns W)
          as (s1 & -> & _ & _ & _ & _ & _ & _ & _ & _ & Hfr);
        cbn; try rewrite Hfr
      end;
  eexists; split; [reflexivity|]; cbn; reflexivity.


(** C10 as stated fails: a message that carries an error text next to
    its message text shows the error, not the message. *)
Lemma error_text_wins_over_message :
  let d := Examples.failure "Camera busy" "Hold still" in
  message d = Some "Hold still" /\
  statusMessage (comp (world_of (deliver 2000 (Json d) Examples.measuring)))
    = "Error: Camera busy".
Proof.
  vm_compute. repeat split.
Qed.

(** C10 (amended): for every parsed inbound message without an error
    text whose message text is not empty, the status text ends as that
    text verbatim unless the text contains 'Authenticated successfully';
    then the text is not written, and the status text is what the rest of
    the handler left: the target-reached text if the message completes
    the streak, else the calibration text if it announces that the
    calibration is complete, else what it was before. *)
Theorem message_text_becomes_status (w : World) (now : Z) (d : Data) (m : string) :
  truthy_string (error d) = None ->
  message d = Some m ->
  str_truthy m = true ->
  exists s',
    deliver now (Json d) w = Ret tt (mkWorld (auth w) s') /\
    statusMessage s' =
      if negb (includes "Authenticated successfully" m) then m
      else if completes_streak (comp w) d then
        "🎯 Perfect! You've reached the 4m distance! Starting countdown for vision test..."
      else if truthy_bool (success d) && calibration_complete (message d) then
        "✅ Calibration complete! You can now measure distance."
      else statusMessage (comp w).
Proof.
  destruct w as [a s]; destruct_state s; destruct d as [e su pi fo rb ms fd fs atd].
  unfold completes_streak, carries_face, deliver, onmessage; cbn.
  intros -> -> Hm. destruct m as [|c m']; [discriminate Hm|clear Hm].
  unfold_monad; cbn.
  destruct (includes "Authenticated successfully" (String c m')); cbn.
  all: destruct (truthy_bool su); cbn; [|finish_status].
  all: destruct (truthy_string pi), (truthy_number fo), rb,
         (calibration_complete (Some (String c m'))), (truthy_bool fd); cbn.
  all: destruct fs as [[|f0 fs]|]; cbn; [finish_status| |finish_status].
  all: destruct s_meas; cbn; [|finish_status].
  all: destruct (truthy_bool atd); cbn; [|finish_status].
  all: destruct (15 <=? S s_ctf)%nat; cbn; [|finish_status].
  all: destruct s_reached; cbn; finish_status.
Qed.

(** A greeting on the sample measurement. *)
Lemma message_text_witness :
  truthy_string (error (Examples.note "Face found")) = None /\
  message (Examples.note "Face found") = Some "Face found" /\
  str_truthy "Face found" = true /\
  exists s',
    deliver 2000 (Json (Examples.note "Face found")) Examples.measuring
      = Ret tt (mkWorld (auth Examples.measuring) s') /\
    statusMessage s' = "Face found".
Proof.
  refine (conj eq_refl (conj eq_refl (conj eq_refl _))).
  exact (message_text_becomes_status Examples.measuring 2000
           (Examples.note "Face found") "Face found" eq_refl eq_refl eq_refl).
Defined.

(** ** Intervals *)

Lemma lookup_timer_none (id : positive) (ts : list (positive * Callback)) :
  lookup_timer id ts = None <-> (forall t, In t ts -> fst t <> id).
Proof.
  unfold lookup_timer. split.
  - intros H t Hin E. apply (find_none _ _ H) in Hin. cbn in Hin.
    rewrite E, Pos.eqb_refl in Hin. discriminate.
  - intros H. induction ts as [|t ts IH]; cbn; [reflexivity|].
    destruct (Pos.eqb (fst t) id) eqn:E.
    + apply Pos.eqb_eq in E. exfalso. apply (H t); [left; reflexivity|exact E].
    + apply IH. intros t' Hin. apply H. right. exact Hin.
Qed.

Lemma lookup_cleared_same (id : positive) (ts : list (positive * Callback)) :
  lookup_timer id (cleared id ts) = None.
Proof.
  apply lookup_timer_none. intros t Hin E. unfold cleared in Hin.
  apply filter_In in Hin. destruct Hin as [_ Hin].
  rewrite E, Pos.eqb_refl in Hin. discriminate.
Qed.

Lemma lookup_cleared_none (id id' : positive) (ts : list (positive * Callback)) :
  lookup_timer id ts = None -> lookup_timer id (cleared id' ts) = None.
Proof.
  rewrite !lookup_timer_none. intros H t Hin. apply H.
  unfold cleared in Hin. apply filter_In in Hin. apply Hin.
Qed.

Lemma lookup_clear_ref_same (id : positive) (ts : list (positive * Callback)) :
  lookup_timer id (clear_ref (Some id) ts) = None.
Proof. apply lookup_cleared_same. Qed.

#[local] Arguments stopMeasuringDistance : simpl never.

(** ** The scheduler's frame *)


(** ** The countdown *)

Lemma fire_cleared (now : Z) (webcam : option (option string)) (id : positive) (w : World) :
  lookup_timer id (timers (comp w)) = None ->
  fire now webcam id w = Ret tt w.
Proof.
  intros H. unfold fire; unfold_monad. rewrite H. reflexivity.
Qed.

Lemma fire_countdown_tick (now : Z) (webcam : option (option string)) (id : positive)
    (w : World) :
  lookup_timer id (timers (comp w)) = Some (id, CbCountdown) ->
  1 < countdownValue (comp w) ->
  fire now webcam id w
    = Ret tt (mkWorld (auth w) (setCountdownValue (countdownValue (comp w) - 1) (comp w))).
Proof.
  intros H Hv. unfold fire, countdownTick; unfold_monad. rewrite H.
  replace (countdownValue (comp w) <=? 1)%nat with false
    by (symmetry; apply Nat.leb_gt; exact Hv).
  reflexivity.
Qed.

Lemma fire_countdown_last (now : Z) (webcam : option (option string)) (id : positive)
    (w : World) :
  lookup_timer id (timers (comp w)) = Some (id, CbCountdown) ->
  countdownValue (comp w) <= 1 ->
  fire now webcam id w
    = Ret tt (mkWorld (auth w)
        (setCountdownValue 0 (setShowLandoltTest true (setShowCountdown false
           (set_timers (clear_ref (countdownTimerRef (comp w)) (timers (comp w)))
              (comp w)))))).
Proof.
  intros H Hv. unfold fire, countdownTick; unfold_monad. rewrite H.
  replace (countdownValue (comp w) <=? 1)%nat with true
    by (symmetry; apply Nat.leb_le; exact Hv).
  destruct w as [a s]; destruct_state s. cbn. destruct s_ctr; reflexivity.
Qed.

Lemma setCountdownValue_same (s : State) (v : nat) :
  countdownValue s = v -> setCountdownValue v s = s.
Proof. intros <-. destruct s; reflexivity. Qed.

Lemma setCountdownValue_twice (s : State) (v v' : nat) :
  setCountdownValue v (setCountdownValue v' s) = setCountdownValue v s.
Proof. reflexivity. Qed.

(** With neither interval live, a run of the two does nothing. *)
Lemma disarmed_run (id other : positive)
    (due : list (Z * option (option string) * positive)) (w : World) :
  lookup_timer id (timers (comp w)) = None ->
  lookup_timer other (timers (comp w)) = None ->
  Forall (fun e => snd e = other \/ snd e = id) due ->
  fire_all due w = w /\ handoffs due w = 0.
Proof.
  intros Hid Hother Hdue.
  induction Hdue as [|[[now webcam] x] due Hx Hdue IH]; cbn [fire_all handoffs];
    [split; reflexivity|].
  assert (Hnone : lookup_timer x (timers (comp w)) = None)
    by (cbn in Hx; destruct Hx as [-> | ->]; assumption).
  rewrite (fire_cleared _ _ _ _ Hnone). cbn [world_of].
  unfold hands_off. rewrite Hnone. exact IH.
Qed.

(** A live countdown that has ticked [k] times, beside a cleared
    interval [other]: the run shows the vision test once its fifth tick
    comes, and never again. *)
Lemma armed_run (id other : positive)
    (due : list (Z * option (option string) * positive)) :
  forall (w : World) (k : nat),
    id <> other ->
    lookup_timer other (timers (comp w)) = None ->
    lookup_timer id (timers (comp w)) = Some (id, CbCountdown) ->
    countdownTimerRef (comp w) = Some id ->
    countdownValue (comp w) = 5 - k ->
    k <= 4 ->
    Forall (fun e => snd e = other \/ snd e = id) due ->
    auth (fire_all due w) = auth w /\
    handoffs due w = (if (5 - k <=? ticks_of id due)%nat then 1 else 0) /\
    comp (fire_all due w) =
      (if (5 - k <=? ticks_of id due)%nat
       then setCountdownValue 0 (setShowLandoltTest true (setShowCountdown false
              (set_timers (cleared id (timers (comp w))) (comp w))))
       else setCountdownValue (5 - k - ticks_of id due) (comp w)).
Proof.
  induction due as [|[[now webcam] x] due IH]; intros w k Hne Hother Hid Href Hv Hk Hdue.
  - cbn [fire_all handoffs]. unfold ticks_of; cbn [filter length].
    replace (5 - k <=? 0)%nat with false by (symmetry; apply Nat.leb_gt; lia).
    rewrite Nat.sub_0_r. rewrite setCountdownValue_same by exact Hv. auto.
  - inversion Hdue as [|? ? Hx Hrest]; subst. cbn in Hx.
    cbn [fire_all handoffs]. unfold ticks_of; cbn [filter snd].
    destruct Hx as [-> | ->].
    + (* the cleared interval *)
      rewrite (fire_cleared _ _ _ _ Hother). cbn [world_of].
      unfold hands_off. rewrite Hother.
      replace (Pos.eqb other id) with false
        by (symmetry; apply Pos.eqb_neq; congruence).
      apply IH; assumption.
    + rewrite Pos.eqb_refl. cbn [length]. fold (ticks_of id due).
      unfold hands_off. rewrite Hid, Hv.
      destruct (Nat.eq_dec k 4) as [-> | Hk4].
      * (* the fifth tick *)
        rewrite (fire_countdown_last _ _ _ _ Hid) by (rewrite Hv; cbn; lia).
        cbn [world_of]. rewrite Href. cbn [clear_ref].
        set (w' := mkWorld _ _).
        destruct (disarmed_run id other due w') as (Hrun & Hcount).
        { subst w'. cbn. apply lookup_cleared_same. }
        { subst w'. cbn. apply lookup_cleared_none, Hother. }
        { exact Hrest. }
        rewrite Hrun, Hcount. subst w'. cbn. auto.
      * (* an earlier tick *)
        rewrite (fire_countdown_tick _ _ _ _ Hid) by (rewrite Hv; lia).
        cbn [world_of]. rewrite Hv.
        replace (5 - k <=? 1)%nat with false by (symmetry; apply Nat.leb_gt; lia).
        set (w' := mkWorld _ _).
        destruct (IH w' (S k)) as (Ha & Hcount & Hstate); try assumption.
        { subst w'. cbn -[Nat.sub]. lia. }
        { lia. }
        subst w'. cbn [comp auth] in *.
        rewrite Ha, Hcount, Hstate. 
        replace (5 - k <=? S (ticks_of id due))%nat with (5 - S k <=? ticks_of id due)%nat
          by (apply eq_true_iff_eq; rewrite !Nat.leb_le; lia).
        split; [reflexivity|]. split; [reflexivity|].
        destruct (5 - S k <=? ticks_of id due)%nat; [reflexivity|].
        rewrite setCountdownValue_twice. f_equal. lia.
Qed.

Lemma lookup_timer_app (id : positive) (xs ys : list (positive * Callback)) :
  lookup_timer id (xs ++ ys) =
    match lookup_timer id xs with
    | Some t => Some t
    | None => lookup_timer id ys
    end.
Proof.
  unfold lookup_timer. induction xs as [|x xs IH]; cbn; [reflexivity|].
  destruct (Pos.eqb (fst x) id); [reflexivity|exact IH].
Qed.

Lemma lookup_clear_ref_none (id : positive) (r : option positive)
    (ts : list (positive * Callback)) :
  lookup_timer id ts = None -> lookup_timer id (clear_ref r ts) = None.
Proof.
  destruct r; cbn; [apply lookup_cleared_none|trivial].
Qed.

Lemma lookup_fresh (s : State) (id : positive) :
  timers_fresh s -> (nextTimer s <= id)%positive ->
  lookup_timer id (timers s) = None.
Proof.
  unfold timers_fresh. intros Hf Hle. apply lookup_timer_none.
  intros t Hin E. rewrite Forall_forall in Hf. specialize (Hf t Hin). lia.
Qed.

(** What [startCountdown] leaves live: its own interval, and nothing
    under the id the ref held before. *)
Lemma startCountdown_arms (w : World) :
  timers_fresh (comp w) ->
  exists s',
    startCountdown w = Ret tt (mkWorld (auth w) s') /\
    lookup_timer (nextTimer (comp w)) (timers s')
      = Some (nextTimer (comp w), CbCountdown) /\
    (forall id, (nextTimer (comp w) < id)%positive -> lookup_timer id (timers s') = None) /\
    (forall id, countdownTimerRef (comp w) = Some id -> id <> nextTimer (comp w) ->
                lookup_timer id (timers s') = None) /\
    countdownTimerRef s' = Some (nextTimer (comp w)) /\
    nextTimer s' = Pos.succ (nextTimer (comp w)) /\
    countdownValue s' = 5 /\
    showCountdown s' = true /\
    showLandoltTest s' = showLandoltTest (comp w) /\
    timers_fresh s'.
Proof.
  intros Hfresh.
  destruct (startCountdown_returns w)
    as (s' & E & _ & Hsc & Hcv & _ & Hcr & Hnt & Htm & _ & Hfr).
  exists s'. split; [exact E|].
  assert (Hnone : forall id, (nextTimer (comp w) <= id)%positive ->
            lookup_timer id (clear_ref (countdownTimerRef (comp w))
              (clear_ref (detectionInterval (comp w)) (timers (comp w)))) = None).
  { intros id Hle. do 2 apply lookup_clear_ref_none. apply lookup_fresh; assumption. }
  repeat split; try assumption.
  - rewrite Htm, lookup_timer_app, Hnone by lia. cbn. rewrite Pos.eqb_refl. reflexivity.
  - intros id Hlt. rewrite Htm, lookup_timer_app, Hnone by lia. cbn.
    replace (Pos.eqb (nextTimer (comp w)) id) with false
      by (symmetry; apply Pos.eqb_neq; lia).
    reflexivity.
  - intros id Href Hne. rewrite Htm, lookup_timer_app, Href.
    rewrite lookup_clear_ref_same. cbn.
    replace (Pos.eqb (nextTimer (comp w)) id) with false
      by (symmetry; apply Pos.eqb_neq; congruence).
    reflexivity.
  - rewrite Hfr. reflexivity.
  - unfold timers_fresh in *. rewrite Htm, Hnt. apply Forall_app. split.
    + rewrite Forall_forall in *. intros t Hin.
      assert (In t (timers (comp w))).
      { destruct (countdownTimerRef (comp w)), (detectionInterval (comp w));
          cbn in Hin; unfold cleared in Hin;
          repeat (apply filter_In in Hin; destruct Hin as [Hin _]); exact Hin. }
      specialize (Hfresh t H). lia.
    + constructor; [cbn; lia|constructor].
Qed.

(** C6: when the countdown is started again while an earlier one is
    still running, whether at once or after up to four of its ticks,
    the earlier interval is cleared and exactly one countdown interval
    is live, with the display back at 5.  Whatever run of the two
    intervals comes due afterwards, the vision test is shown exactly
    once, on the fifth tick of the new interval, and never by the old
    one; with that tick the interval clears itself, so that nothing
    further is shown or counted. *)
Theorem restarted_countdown_hands_off_once
    (w : World) (between due : list (Z * option (option string) * positive)) :
  let first := nextTimer (comp w) in
  let second := Pos.succ first in
  let restarted :=
    world_of (startCountdown (fire_all between (world_of (startCountdown w)))) in
  timers_fresh (comp w) ->
  Forall (fun e => snd e = first) between ->
  length between < 5 ->
  Forall (fun e => snd e = first \/ snd e = second) due ->
  lookup_timer first (timers (comp restarted)) = None /\
  lookup_timer second (timers (comp restarted)) = Some (second, CbCountdown) /\
  showCountdown (comp restarted) = true /\
  countdownValue (comp restarted) = 5 /\
  handoffs between (world_of (startCountdown w)) = 0 /\
  handoffs due restarted = (if (5 <=? ticks_of second due)%nat then 1 else 0) /\
  (ticks_of second due < 5 ->
     showLandoltTest (comp (fire_all due restarted)) = showLandoltTest (comp w) /\
     countdownValue (comp (fire_all due restarted)) = 5 - ticks_of second due /\
     lookup_timer second (timers (comp (fire_all due restarted)))
       = Some (second, CbCountdown)) /\
  (5 <= ticks_of second due ->
     showLandoltTest (comp (fire_all due restarted)) = true /\
     showCountdown (comp (fire_all due restarted)) = false /\
     countdownValue (comp (fire_all due restarted)) = 0 /\
     lookup_timer second (timers (comp (fire_all due restarted))) = None /\
     lookup_timer first (timers (comp (fire_all due restarted))) = None).
Proof.
  intros first second restarted Hfresh Hbetween Hlen Hdue.
  assert (Hne : first <> second) by (subst second; lia).
  (* the first start *)
  destruct (startCountdown_arms w Hfresh)
    as (s1 & E1 & Hlive1 & Hlater1 & _ & Href1 & Hnt1 & Hcv1 & _ & Hslt1 & Hfresh1).
  fold first in Hlive1, Hlater1, Href1, Hnt1.
  (* its ticks before the restart *)
  assert (Hticks : ticks_of first between < 5).
  { unfold ticks_of. eapply Nat.le_lt_trans; [apply filter_length_le|exact Hlen]. }
  destruct (armed_run first second between (mkWorld (auth w) s1) 0)
    as (_ & Hcount1 & Hstate1); cbn [comp]; try assumption; try lia.
  { apply Hlater1. subst second. lia. }
  { eapply Forall_impl; [|exact Hbetween]. cbn. auto. }
  replace (5 - 0 <=? ticks_of first between)%nat with false in Hcount1, Hstate1
    by (symmetry; apply Nat.leb_gt; lia).
  (* the restart *)
  subst restarted. rewrite E1 in *. cbn [world_of] in *.
  set (w1 := fire_all between (mkWorld (auth w) s1)) in *.
  assert (Hfresh1' : timers_fresh (comp w1)) by (rewrite Hstate1; exact Hfresh1).
  assert (Hnt1' : nextTimer (comp w1) = second) by (rewrite Hstate1; exact Hnt1).
  assert (Href1' : countdownTimerRef (comp w1) = Some first)
    by (rewrite Hstate1; exact Href1).
  destruct (startCountdown_arms w1 Hfresh1')
    as (s2 & E2 & Hlive2 & _ & Hgone2 & Href2 & _ & Hcv2 & Hsc2 & Hslt2 & _).
  rewrite Hnt1' in *. rewrite E2. cbn [world_of comp].
  specialize (Hgone2 first Href1' Hne).
  (* the run after it *)
  destruct (armed_run second first due (mkWorld (auth w1) s2) 0)
    as (_ & Hcount2 & Hstate2); cbn [comp]; try assumption; try lia; try congruence.
  split; [exact Hgone2|]. split; [exact Hlive2|]. split; [exact Hsc2|].
  split; [exact Hcv2|]. split; [exact Hcount1|]. split; [exact Hcount2|].
  cbn [comp] in Hstate2. rewrite Hstate2. split.
  - intros Hlt.
    replace (5 - 0 <=? ticks_of second due)%nat with false
      by (symmetry; apply Nat.leb_gt; lia).
    cbn [showLandoltTest countdownValue timers setCountdownValue].
    split; [|split; [lia|exact Hlive2]].
    rewrite Hslt2, Hstate1. exact Hslt1.
  - intros Hge.
    replace (5 - 0 <=? ticks_of second due)%nat with true
      by (symmetry; apply Nat.leb_le; lia).
    cbn. repeat split.
    + apply lookup_cleared_same.
    + apply lookup_cleared_none, Hgone2.
Qed.

(** Two starts in a row on the sample measurement, then seven ticks of
    the second interval and seven of the first: one hand-off. *)
Lemma restarted_countdown_witness :
  timers_fresh (comp Examples.measuring) /\
  handoffs (repeat (0%Z, None, 3%positive) 7 ++ repeat (0%Z, None, 2%positive) 7)
    (world_of (startCountdown (fire_all [] (world_of (startCountdown Examples.measuring)))))
  = (if (5 <=? ticks_of (Pos.succ (nextTimer (comp Examples.measuring)))
                 (repeat (0%Z, None, 3%positive) 7 ++ repeat (0%Z, None, 2%positive) 7))%nat
     then 1 else 0).
Proof.
  assert (Hfresh : timers_fresh (comp Examples.measuring))
    by (vm_compute; repeat constructor).
  assert (Hdue :
    Forall (fun e : Z * option (option string) * positive =>
              snd e = nextTimer (comp Examples.measuring) \/
              snd e = Pos.succ (nextTimer (comp Examples.measuring)))
      (repeat (0%Z, None, 3%positive) 7 ++ repeat (0%Z, None, 2%positive) 7)).
  { apply Forall_app; split; apply Forall_forall; intros e He;
      apply repeat_spec in He; subst e; [right|left]; reflexivity. }
  split; [exact Hfresh|].
  exact (proj1 (proj2 (proj2 (proj2 (proj2 (proj2
           (restarted_countdown_hands_off_once Examples.measuring [] _
              Hfresh (Forall_nil _) (Nat.lt_0_succ 4) Hdue))))))).
Defined.

(** ** Errors reported by the server *)

Lemma includes_nonempty (needle hay : string) :
  str_truthy needle = true -> includes needle hay = true -> str_truthy hay = true.
Proof.
  destruct hay; [|reflexivity]. destruct needle; [discriminate|].
  unfold includes; cbn. discriminate.
Qed.

Lemma prefix_includes (needle hay : string) :
  prefix needle hay = true -> includes needle hay = true.
Proof.
  intros H. destruct hay; unfold includes; fold includes; rewrite H; reflexivity.
Qed.

(** C7 as stated fails: an error text that merely mentions
    'Authentication', without starting with it, ends the session as
    well instead of only updating the status text. *)
Lemma authentication_word_anywhere_ends_session :
  let e := "Token rejected: Authentication required" in
  let pg' := receive 2000 (Json (Examples.failure e "")) Examples.page in
  prefix "Authentication" e = false /\
  face Examples.page = Some (comp Examples.measuring) /\
  face pg' = None /\
  token (provider pg') = None.
Proof.
  vm_compute. repeat split.
Qed.

(** C7 (amended): for every inbound message whose error text contains
    'Authentication' anywhere, in particular as a prefix, whatever the
    phase, the session is terminated: user, token and the stored token
    are cleared, the route guard unmounts the component and with it the
    phase and the calibration data, and a later mount starts idle and
    uncalibrated.  Every other non-empty error text only logs the error
    and sets the status text to 'Error: ' followed by it; the rest of
    the component and the credential are untouched. *)
Theorem authentication_error_ends_session
    (pg : Page) (s : State) (now : Z) (d : Data) (e : string) :
  face pg = Some s ->
  error d = Some e ->
  (prefix "Authentication" e = true -> includes "Authentication" e = true) /\
  (includes "Authentication" e = true ->
     user (provider (receive now (Json d) pg)) = None /\
     token (provider (receive now (Json d) pg)) = None /\
     authToken (provider (receive now (Json d) pg)) = None /\
     face (receive now (Json d) pg) = None /\
     forall (now' : Z) (a' : Auth),
       ProtectedRoute a' = Children ->
       face (commit now' a' (face (receive now (Json d) pg)))
         = Some (mount now' (token a')) /\
       isCalibrating (mount now' (token a')) = false /\
       isCalibrated (mount now' (token a')) = false /\
       isMeasuring (mount now' (token a')) = false /\
       isDistanceReached (mount now' (token a')) = false /\
       showCountdown (mount now' (token a')) = false /\
       showLandoltTest (mount now' (token a')) = false /\
       focalLength (mount now' (token a')) = 0%Q /\
       referenceBox (mount now' (token a')) = None) /\
  (str_truthy e = true ->
   includes "Authentication" e = false ->
   ProtectedRoute (provider pg) = Children ->
   receive now (Json d) pg =
     {| provider := provider pg;
        face := Some (setStatusMessage ("Error: " ++ e)
                        (set_console (console s ++ [("WebSocket Error: " ++ e)%string]) s)) |}).
Proof.
  intros Hface Herr. split; [apply prefix_includes|]. split.
  - intros Hauth.
    assert (Ht : str_truthy e = true) by (eapply includes_nonempty; [|exact Hauth]; reflexivity).
    assert (Hrun : receive now (Json d) pg =
              commit now {| user := None; token := None;
                            loading := loading (provider pg); authToken := None |}
                (Some (setStatusMessage ("Error: " ++ e)
                         (set_console (console s ++ [("WebSocket Error: " ++ e)%string]) s)))).
    { unfold receive. rewrite Hface. unfold deliver, onmessage.
      rewrite Herr. unfold truthy_string. rewrite Ht. unfold_monad. cbn.
      rewrite Hauth. reflexivity. }
    rewrite Hrun. unfold commit, ProtectedRoute, isAuthenticated. cbn.
    destruct (loading (provider pg)); cbn.
    all: repeat (split; [reflexivity|]).
    all: intros now' a' ->; repeat split.
  - intros Ht Hplain Hroute.
    unfold receive. rewrite Hface. unfold deliver, onmessage.
    rewrite Herr. unfold truthy_string. rewrite Ht. unfold_monad. cbn.
    rewrite Hplain. cbn. unfold commit. rewrite Hroute. reflexivity.
Qed.

(** A rejected token on the sample page. *)
Lemma authentication_error_witness :
  face Examples.page = Some (comp Examples.measuring) /\
  error (Examples.failure "Authentication failed" "") = Some "Authentication failed" /\
  face (receive 2000 (Json (Examples.failure "Authentication failed" "")) Examples.page)
    = None.
Proof.
  refine (conj eq_refl (conj eq_refl _)).
  pose proof (authentication_error_ends_session Examples.page (comp Examples.measuring)
                2000 (Examples.failure "Authentication failed" "")
                "Authentication failed" eq_refl eq_refl) as H.
  destruct H as (_ & H & _). destruct (H eq_refl) as (_ & _ & _ & Hface & _).
  exact Hface.
Defined.

(** ** A whole session *)

(** From the calibrated page: start measuring, fifteen frames at four
    metres, then the five ticks of the countdown.  The countdown shows
    5 after the fifteenth frame and the vision test opens on the fifth
    tick, with no interval left running. *)
Lemma sample_session :
  let reached :=
    deliver_all (Examples.at_times (Examples.frame true) 15) Examples.measuring in
  let tested := fire_all (repeat (9000%Z, None, 2%positive) 5) reached in
  sent (comp Examples.measuring) = [OutCommand start_distance None] /\
  timers (comp Examples.measuring) = [(1%positive, CbSendFrame false 1000)] /\
  showCountdown (comp reached) = true /\
  countdownValue (comp reached) = 5 /\
  timers (comp reached) = [(2%positive, CbCountdown)] /\
  sent (comp reached) = [OutCommand start_distance None; OutCommand stop_all None] /\
  currentDistance (comp reached) = Metres 4 /\
  showLandoltTest (comp tested) = true /\
  showCountdown (comp tested) = false /\
  countdownValue (comp tested) = 0 /\
  timers (comp tested) = [].
Proof.
  vm_compute. repeat split.
Qed.

(** * Further properties *)

(** ** The steps of the message handler *)

Lemma record_results_returns (now : Z) (d : Data) (w : World) :
  record_results now d w = Ret tt (mkWorld (auth w) (recorded now d (comp w))).
Proof.
  unfold record_results, recorded; unfold_monad.
  destruct (truthy_string (processed_image d)), (truthy_number (focal_length d)),
    (reference_box d), (calibration_complete (message d)),
    (truthy_bool (face_detected d)); cbn; try reflexivity.
  all: destruct w; reflexivity.
Qed.

Lemma onmessage_steps (isMeasuring_c isDistanceReached_c : bool) (now : Z) (d : Data)
    (w : World) :
  truthy_string (error d) = None ->
  onmessage isMeasuring_c isDistanceReached_c now (Json d) w =
    (when (truthy_bool (success d))
       (record_results now d ;; track_distance isMeasuring_c isDistanceReached_c d) ;;
     show_message d) w.
Proof.
  intros He. unfold onmessage, record_results, track_distance, show_message.
  rewrite He. unfold when, modify, ret, bind.
  destruct (truthy_bool (success d)); [|reflexivity].
  destruct (truthy_string (processed_image d)), (truthy_number (focal_length d)),
    (reference_box d), (calibration_complete (message d)),
    (truthy_bool (face_detected d)); reflexivity.
Qed.

Lemma recorded_cycle (now : Z) (d : Data) (s : State) :
  no_transition s (recorded now d s) /\
  consecutiveTargetFrames (recorded now d s) = consecutiveTargetFrames s /\
  frameCountRef (recorded now d s) = frameCountRef s /\
  showCamera (recorded now d s) = showCamera s /\
  ws (recorded now d s) = ws s /\
  isCalibrating (recorded now d s)
    = (if calibration_complete (message d) then false else isCalibrating s) /\
  isCalibrated (recorded now d s)
    = (if calibration_complete (message d) then true else isCalibrated s).
Proof.
  unfold recorded, no_transition.
  destruct (truthy_string (processed_image d)), (truthy_number (focal_length d)),
    (reference_box d), (calibration_complete (message d)),
    (truthy_bool (face_detected d)); cbn; repeat split.
Qed.

Lemma show_message_returns (d : Data) (w : World) :
  exists s',
    show_message d w = Ret tt (mkWorld (auth w) s') /\
    no_transition (comp w) s' /\
    consecutiveTargetFrames s' = consecutiveTargetFrames (comp w) /\
    frameCountRef s' = frameCountRef (comp w) /\
    showCamera s' = showCamera (comp w) /\
    ws s' = ws (comp w) /\
    isCalibrating s' = isCalibrating (comp w) /\
    isCalibrated s' = isCalibrated (comp w).
Proof.
  destruct w as [a s]. unfold show_message, no_transition; unfold_monad.
  destruct (truthy_string (message d)) as [m|]; cbn;
    [destruct (includes "Authenticated successfully" m); cbn|].
  all: eexists; split; [reflexivity|]; cbn; repeat split.
Qed.

Ltac quiet_case :=
  rewrite ?andb_false_r; cbn;
  eexists; split; [reflexivity|]; unfold no_transition; cbn; repeat split.

(** The distance block, run with the flags its closure holds, whatever
    the state's flags are by then. *)
Lemma track_distance_returns (im idr : bool) (d : Data) (w : World) :
  exists s',
    track_distance im idr d w = Ret tt (mkWorld (auth w) s') /\
    consecutiveTargetFrames s' =
      (if match faces d with Some (_ :: _) => true | _ => false end && im
       then if truthy_bool (at_target_distance d)
            then S (consecutiveTargetFrames (comp w)) else 0
       else consecutiveTargetFrames (comp w)) /\
    frameCountRef s' = frameCountRef (comp w) /\
    showCamera s' = showCamera (comp w) /\
    ws s' = ws (comp w) /\
    isCalibrating s' = isCalibrating (comp w) /\
    isCalibrated s' = isCalibrated (comp w) /\
    (if im && negb idr && match faces d with Some (_ :: _) => true | _ => false end
        && truthy_bool (at_target_distance d)
        && (15 <=? S (consecutiveTargetFrames (comp w)))%nat
     then countdown_started (comp w) s' /\ showLandoltTest s' = showLandoltTest (comp w)
     else no_transition (comp w) s').
Proof.
  destruct w as [a s]; destruct_state s. cbn.
  unfold track_distance; unfold_monad; cbn.
  destruct (faces d) as [[|f0 fs]|]; cbn; [quiet_case| |quiet_case].
  destruct im; cbn; [|quiet_case].
  destruct (truthy_bool (at_target_distance d)); cbn; [|destruct idr; quiet_case].
  destruct (15 <=? S s_ctf)%nat; cbn; [|destruct idr; quiet_case].
  destruct idr; cbn; [quiet_case|].
  match goal with
  | |- context [startCountdown ?W] =>
    destruct (startCountdown_returns W)
      as (s1 & -> & Hm & Hsc & Hcv & Hdi & Hcr & Hnt & Htm & Hsn & Hfr)
  end.
  cbn in Hm, Hsc, Hcv, Hdi, Hcr, Hnt, Htm, Hsn.
  eexists; split; [reflexivity|]. unfold countdown_started. cbn.
  repeat split; auto; rewrite Hfr; reflexivity.
Qed.

Lemma countdown_started_after (s0 s1 s2 : State) :
  no_transition s0 s1 -> ws s1 = ws s0 ->
  countdown_started s1 s2 -> countdown_started s0 s2.
Proof.
  unfold no_transition, countdown_started, ws_is_open.
  intros (A1 & A2 & A3 & A4 & A5 & A6 & A7 & A8 & A9 & A10) Hws
         (B1 & B2 & B3 & B4 & B5 & B6 & B7 & B8 & B9).
  rewrite A6, A7, A8, A9, A10, Hws in *. repeat split; assumption.
Qed.

Lemma countdown_started_before (s0 s1 s2 : State) :
  countdown_started s0 s1 -> no_transition s1 s2 -> countdown_started s0 s2.
Proof.
  unfold no_transition, countdown_started.
  intros (B1 & B2 & B3 & B4 & B5 & B6 & B7 & B8 & B9)
         (A1 & A2 & A3 & A4 & A5 & A6 & A7 & A8 & A9 & A10).
  repeat split; congruence.
Qed.

(** What one parsed message does to the fields the measuring cycle,
    the calibration and the frame counter live in. *)
Lemma onmessage_summary (im idr : bool) (w : World) (now : Z) (d : Data) :
  exists a' s',
    onmessage im idr now (Json d) w = Ret tt (mkWorld a' s') /\
    (a' = auth w \/ a' = logged_out (auth w)) /\
    isCalibrating s' = (if announces_calibration d then false else isCalibrating (comp w)) /\
    isCalibrated s' = (if announces_calibration d then true else isCalibrated (comp w)) /\
    consecutiveTargetFrames s' =
      (if carries_face d && im
       then if truthy_bool (at_target_distance d)
            then S (consecutiveTargetFrames (comp w)) else 0
       else consecutiveTargetFrames (comp w)) /\
    frameCountRef s' = frameCountRef (comp w) /\
    showCamera s' = showCamera (comp w) /\
    ws s' = ws (comp w) /\
    showLandoltTest s' = showLandoltTest (comp w) /\
    (if fires im idr (comp w) d
     then countdown_started (comp w) s' else no_transition (comp w) s').
Proof.
  unfold announces_calibration, fires, carries_face.
  destruct (truthy_string (error d)) as [err|] eqn:He.
  - (* an error text *)
    unfold onmessage. rewrite He. unfold_monad. cbn.
    rewrite ?andb_false_r. cbn.
    destruct (includes "Authentication" err); cbn;
      (do 2 eexists; split; [reflexivity|]; unfold no_transition; cbn; repeat split;
       auto).
  - rewrite (onmessage_steps _ _ _ _ _ He).
    destruct (truthy_bool (success d)) eqn:Hs; unfold when at 1; unfold bind at 1.
    + (* a successful message *)
      unfold bind at 1. rewrite record_results_returns.
      destruct (recorded_cycle now d (comp w)) as (Hq & Hc & Hf & Hcam & Hws & Hi & Hj).
      destruct (track_distance_returns im idr d (mkWorld (auth w) (recorded now d (comp w))))
        as (s2 & -> & Tc & Tf & Tcam & Tws & Ti & Tj & Tq).
      cbn [comp auth] in *.
      destruct (show_message_returns d (mkWorld (auth w) s2))
        as (s3 & -> & Mq & Mc & Mf & Mcam & Mws & Mi & Mj).
      cbn [comp auth] in *.
      exists (auth w), s3. split; [reflexivity|]. split; [left; reflexivity|].
      rewrite Mi, Mj, Mc, Mf, Mcam, Mws, Ti, Tj, Tc, Tf, Tcam, Tws, Hi, Hj, Hc, Hf, Hcam, Hws.
      cbn [andb].
      replace (match faces d with Some (_ :: _) => true | _ => false end
               && im)
        with (im && match faces d with Some (_ :: _) => true | _ => false end)
        in * by apply andb_comm.
      repeat (split; [reflexivity|]).
      replace (im && negb idr
               && match faces d with Some (_ :: _) => true | _ => false end
               && truthy_bool (at_target_distance d)
               && (15 <=? S (consecutiveTargetFrames (comp w)))%nat)
        with (im && negb idr
              && match faces d with Some (_ :: _) => true | _ => false end
              && truthy_bool (at_target_distance d)
              && (15 <=? S (consecutiveTargetFrames (recorded now d (comp w))))%nat)
        by (rewrite Hc; reflexivity).
      destruct (im && negb idr
                && match faces d with Some (_ :: _) => true | _ => false end
                && truthy_bool (at_target_distance d)
                && (15 <=? S (consecutiveTargetFrames (recorded now d (comp w))))%nat).
      * destruct Tq as (Tq & Tl). split.
        -- destruct Mq as (_ & _ & _ & _ & -> & _). rewrite Tl. apply Hq.
        -- eapply countdown_started_after; [exact Hq|exact Hws|].
           eapply countdown_started_before; eassumption.
      * split.
        -- destruct Mq as (_ & _ & _ & _ & -> & _).
           destruct Tq as (_ & _ & _ & _ & -> & _). apply Hq.
        -- eapply no_transition_trans; [exact Hq|].
           eapply no_transition_trans; eassumption.
    + (* no success flag *)
      cbn [ret].
      destruct (show_message_returns d w)
        as (s3 & -> & Mq & Mc & Mf & Mcam & Mws & Mi & Mj).
      exists (auth w), s3. split; [reflexivity|]. split; [left; reflexivity|].
      rewrite ?andb_false_r. cbn.
      repeat (split; [assumption|]). split; [apply Mq|exact Mq].
Qed.

Lemma deliver_summary (w : World) (now : Z) (d : Data) :
  exists a' s',
    deliver now (Json d) w = Ret tt (mkWorld a' s') /\
    isCalibrating s' = (if announces_calibration d then false else isCalibrating (comp w)) /\
    isCalibrated s' = (if announces_calibration d then true else isCalibrated (comp w)) /\
    consecutiveTargetFrames s' =
      (if carries_face d && isMeasuring (comp w)
       then if truthy_bool (at_target_distance d)
            then S (consecutiveTargetFrames (comp w)) else 0
       else consecutiveTargetFrames (comp w)) /\
    frameCountRef s' = frameCountRef (comp w) /\
    showCamera s' = showCamera (comp w) /\
    ws s' = ws (comp w) /\
    showLandoltTest s' = showLandoltTest (comp w) /\
    (if completes_streak (comp w) d
     then countdown_started (comp w) s' else no_transition (comp w) s').
Proof.
  destruct (onmessage_summary (isMeasuring (comp w)) (isDistanceReached (comp w)) w now d)
    as (a' & s' & E & _ & H).
  exists a', s'. split; [exact E|exact H].
Qed.

(** ** The commands return and leave the states written out above *)

Lemma stopMeasuringDistance_leaves (w : World) :
  stopMeasuringDistance w = Ret tt (mkWorld (auth w) (stopped (comp w))).
Proof.
  destruct (stopMeasuringDistance_returns w) as (s' & -> & _ & _ & Ht & Hs & Hfr).
  rewrite Hfr, Ht, Hs. reflexivity.
Qed.

Lemma startCountdown_leaves (w : World) :
  startCountdown w = Ret tt (mkWorld (auth w) (counting_down (comp w))).
Proof.
  destruct (startCountdown_returns w)
    as (s' & -> & _ & _ & _ & _ & Hcr & Hnt & Htm & Hs & Hfr).
  rewrite Hfr, Hcr, Hnt, Htm, Hs.
  destruct w as [a s]; destruct_state s. unfold counting_down, stopped. cbn.
  reflexivity.
Qed.

Lemma startMeasuringDistance_leaves (idr : bool) (lfd : Z) (w : World) :
  startMeasuringDistance idr lfd w = Ret tt (mkWorld (auth w) (started idr lfd (comp w))).
Proof.
  destruct w as [a s]; destruct_state s.
  destruct s_ws as [[]|]; lazy; reflexivity.
Qed.

Lemma startCalibration_leaves (w : World) :
  startCalibration w = Ret tt (mkWorld (auth w) (calibrating (comp w))).
Proof.
  destruct w as [a s]; destruct_state s.
  unfold startCalibration, calibrating, ws_is_open; unfold_monad; cbn.
  destruct s_ws as [[]|]; reflexivity.
Qed.

Lemma captureCalibration_leaves (webcam : option (option string)) (w : World) :
  captureCalibration webcam w = Ret tt (mkWorld (auth w) (captured webcam (comp w))).
Proof.
  destruct w as [a s]; destruct_state s.
  unfold captureCalibration, captured, ws_is_open; unfold_monad; cbn.
  destruct webcam as [shot|]; [destruct (truthy_string shot)|];
    destruct s_ws as [[]|]; reflexivity.
Qed.

Lemma sendFrame_leaves (idr : bool) (lfd now : Z) (webcam : option (option string))
    (w : World) :
  sendFrame idr lfd now webcam w
    = Ret tt (mkWorld (auth w) (framed idr lfd now webcam (comp w))).
Proof.
  destruct w as [a s]; destruct_state s.
  unfold sendFrame, framed, ws_is_open; unfold_monad; cbn.
  destruct webcam as [shot|]; [|reflexivity].
  destruct s_ws as [[]|]; try reflexivity.
  destruct (truthy_string shot) as [img|]; cbn; [|reflexivity].
  destruct (idr && (5000 <? now - lfd)%Z); cbn; [|reflexivity].
  destruct (10 <? S s_fslf)%nat; cbn; [|reflexivity].
  rewrite stopMeasuringDistance_leaves. reflexivity.
Qed.

Lemma countdownTick_leaves (w : World) :
  countdownTick w = Ret tt (mkWorld (auth w) (ticked (comp w))).
Proof.
  destruct w as [a s]; destruct_state s.
  unfold countdownTick, ticked; unfold_monad; cbn.
  destruct (s_cdv <=? 1)%nat; cbn; [destruct s_ctr|]; reflexivity.
Qed.

Lemma fire_leaves (now : Z) (webcam : option (option string)) (id : positive) (w : World) :
  fire now webcam id w = Ret tt (mkWorld (auth w) (fired now webcam id (comp w))).
Proof.
  unfold fire, fired; unfold_monad.
  destruct (lookup_timer id (timers (comp w))) as [[i [idr lfd|]]|].
  - apply sendFrame_leaves.
  - apply countdownTick_leaves.
  - destruct w; reflexivity.
Qed.

Lemma press_leaves (b : Button) (shot : option string) (w : World) :
  press b shot w = Ret tt (mkWorld (auth w) (pressed b shot (comp w))).
Proof.
  unfold press, pressed. destruct (shows (comp w) b); [|destruct w; reflexivity].
  destruct b.
  - apply startCalibration_leaves.
  - apply captureCalibration_leaves.
  - apply startMeasuringDistance_leaves.
  - apply stopMeasuringDistance_leaves.
  - apply startMeasuringDistance_leaves.
  - reflexivity.
Qed.

(** ** The invariant of the page *)

Lemma in_cleared (id : positive) (t : positive * Callback)
    (ts : list (positive * Callback)) :
  In t (cleared id ts) <-> In t ts /\ fst t <> id.
Proof.
  unfold cleared. rewrite filter_In. split; intros [H1 H2]; split; auto.
  - intros E. rewrite E, Pos.eqb_refl in H2. discriminate.
  - apply negb_true_iff, Pos.eqb_neq. exact H2.
Qed.

Lemma in_clear_ref (r : option positive) (t : positive * Callback)
    (ts : list (positive * Callback)) :
  In t (clear_ref r ts) <-> In t ts /\ r <> Some (fst t).
Proof.
  destruct r as [id|]; cbn.
  - rewrite in_cleared. split; intros [H1 H2]; split; auto; congruence.
  - split; [intros H; split; [exact H|discriminate]|intros [H _]; exact H].
Qed.

Lemma nodup_clear_ref (r : option positive) (ts : list (positive * Callback)) :
  NoDup (map fst ts) -> NoDup (map fst (clear_ref r ts)).
Proof.
  destruct r as [id|]; cbn; [|trivial]. unfold cleared.
  induction ts as [|t ts IH]; cbn; [trivial|]. intros H.
  inversion H as [|? ? Hnot Hrest]; subst.
  destruct (negb (Pos.eqb (fst t) id)); cbn; [|apply IH, Hrest].
  constructor; [|apply IH, Hrest].
  intros Hin. apply Hnot. apply in_map_iff in Hin. destruct Hin as (x & Hx & Hin).
  apply filter_In in Hin. apply in_map_iff. exists x. split; [exact Hx|apply Hin].
Qed.

Lemma fresh_clear_ref (r : option positive) (n : positive)
    (ts : list (positive * Callback)) :
  Forall (fun t => (fst t < n)%positive) ts ->
  Forall (fun t => (fst t < n)%positive) (clear_ref r ts).
Proof.
  rewrite !Forall_forall. intros H t Hin. apply H. apply in_clear_ref in Hin. apply Hin.
Qed.

Lemma lookup_timer_in (id : positive) (ts : list (positive * Callback))
    (t : positive * Callback) :
  lookup_timer id ts = Some t -> In t ts /\ fst t = id.
Proof.
  unfold lookup_timer. intros H. apply find_some in H. destruct H as [Hin E].
  split; [exact Hin|]. apply Pos.eqb_eq. exact E.
Qed.

Lemma page_ok_mount (now : Z) (tok : option string) : page_ok (mount now tok).
Proof.
  constructor; cbn; try discriminate; try (intros; contradiction).
  - constructor.
  - constructor.
  - trivial.
  - intros [H|H]; discriminate.
Qed.

Lemma not_measuring_while_counting (s : State) :
  page_ok s -> showCountdown s = true -> isMeasuring s = false.
Proof.
  intros H Hc. destruct (isMeasuring s) eqn:E; [|reflexivity].
  destruct (ok_measuring s H E) as (_ & Hx & _). congruence.
Qed.

Lemma page_ok_same_cycle (s s' : State) :
  page_ok s -> same_cycle s s' ->
  (isMeasuring s' = true -> consecutiveTargetFrames s' < 15) ->
  (isCalibrating s' = true -> isCalibrated s' = false) ->
  (isMeasuring s' = true \/ isDistanceReached s' = true -> isCalibrated s' = true) ->
  page_ok s'.
Proof.
  intros [F N R Sch I M C Cg O K Kd] (E1 & E2 & E3 & E4 & E5 & E6 & E7 & E8 & E9) Hc Hk Hf.
  constructor; unfold timers_fresh in *;
    rewrite ?E1, ?E2, ?E3, ?E4, ?E5, ?E6, ?E7, ?E8, ?E9; auto.
  - intros Hm. destruct (M Hm) as (A & B & D & _).
    repeat split; auto. apply Hc. rewrite E5. exact Hm.
  - rewrite <- E5, <- E6. exact Hf.
Qed.

Lemma page_ok_quiet (s s' : State) :
  page_ok s -> same_cycle s s' -> same_calibration s s' -> page_ok s'.
Proof.
  intros H Hs (E1 & E2 & E3). pose proof Hs as (_ & _ & _ & _ & E5 & E6 & _).
  apply (page_ok_same_cycle s s' H Hs); rewrite ?E1, ?E2, ?E3, ?E5, ?E6.
  - intros Hm. apply (ok_measuring s H Hm).
  - apply (ok_calibration s H).
  - apply (ok_calibrated s H).
Qed.

Lemma page_ok_stopped (s s' : State) :
  page_ok s ->
  timers s' = clear_ref (detectionInterval s) (timers s) ->
  nextTimer s' = nextTimer s ->
  detectionInterval s' = None ->
  countdownTimerRef s' = countdownTimerRef s ->
  isMeasuring s' = false ->
  isDistanceReached s' = isDistanceReached s ->
  showCountdown s' = showCountdown s ->
  showLandoltTest s' = showLandoltTest s ->
  countdownValue s' = countdownValue s ->
  isCalibrating s' = isCalibrating s ->
  isCalibrated s' = isCalibrated s ->
  page_ok s'.
Proof.
  intros H E1 E2 E3 E4 E5 E6 E7 E8 E9 E10 E11.
  pose proof (not_measuring_while_counting s H) as Hnm.
  destruct H as [F N R Sch I M C Cg O K Kd].
  constructor; unfold timers_fresh in *;
    rewrite ?E1, ?E2, ?E3, ?E4, ?E5, ?E6, ?E7, ?E8, ?E9, ?E10, ?E11; auto;
    try discriminate.
  - apply fresh_clear_ref, F.
  - apply nodup_clear_ref, N.
  - intros id cb Hin. apply in_clear_ref in Hin. destruct Hin as [Hin Hne]. cbn in Hne.
    destruct (R id cb Hin) as [[Hd _]|Hc]; [congruence|right; exact Hc].
  - intros id Hin. apply in_clear_ref in Hin. apply (C id), Hin.
  - intros Hc. rewrite (I (Hnm Hc)). cbn. apply (Cg Hc).
  - intros [Hx|Hx]; [discriminate|]. apply Kd. right. exact Hx.
Qed.

Lemma page_ok_countdown_started (s s' : State) :
  page_ok s -> showLandoltTest s = false -> countdown_started s s' ->
  showLandoltTest s' = showLandoltTest s ->
  (isCalibrating s' = true -> isCalibrated s' = false) ->
  isCalibrated s' = true ->
  page_ok s'.
Proof.
  intros [F N R Sch I M C Cg O K Kd] Hl
         (E1 & E2 & E3 & E4 & E5 & E6 & E7 & E8 & E9) E10 Hk Hf.
  assert (Hold : forall t,
             ~ In t (clear_ref (countdownTimerRef s)
                       (clear_ref (detectionInterval s) (timers s)))).
  { intros [id cb] Hin. apply in_clear_ref in Hin. destruct Hin as [Hin Hc].
    apply in_clear_ref in Hin. destruct Hin as [Hin Hd]. cbn in Hc, Hd.
    destruct (R id cb Hin) as [[Hx _]|[Hx _]]; congruence. }
  assert (Hnil : clear_ref (countdownTimerRef s)
                   (clear_ref (detectionInterval s) (timers s)) = []).
  { destruct (clear_ref _ _) as [|t l]; [reflexivity|].
    exfalso. apply (Hold t). left. reflexivity. }
  rewrite Hnil in E8. cbn in E8.
  constructor; unfold timers_fresh; rewrite ?E8, ?E7, ?E6, ?E5, ?E4, ?E3, ?E2, ?E1, ?E10;
    auto; try discriminate.
  - constructor; [cbn; lia|constructor].
  - cbn. constructor; [intros []|constructor].
  - intros id cb [Hin|[]]. inversion Hin; subst. right. split; reflexivity.
  - intros id _. split; [reflexivity|lia].
  - intros _. exists (nextTimer s). split; [reflexivity|left; reflexivity].
Qed.

Lemma page_ok_started (idr : bool) (lfd : Z) (s : State) :
  page_ok s -> isCalibrated s = true -> isMeasuring s = false ->
  showCountdown s = false -> showLandoltTest s = false ->
  page_ok (started idr lfd s).
Proof.
  intros [F N R Sch I M C Cg O K Kd] Hcal Hm Hc Hl. unfold started.
  assert (Hcd : forall id, ~ In (id, CbCountdown) (timers s)).
  { intros id Hin. destruct (C id Hin) as [Hx _]. congruence. }
  destruct (ws_is_open s); destruct_state s; cbn in *.
  - constructor; unfold timers_fresh; cbn; auto; try discriminate.
    + apply Forall_app. split.
      * eapply Forall_impl; [|exact F]. cbn. intros t Ht. lia.
      * constructor; [cbn; lia|constructor].
    + rewrite map_app. cbn. apply NoDup_app; [exact N|constructor; [intros []|constructor]|].
      intros i Hin [Hx|[]]. subst i. apply in_map_iff in Hin.
      destruct Hin as (t & Ht & Hin). unfold timers_fresh in F. cbn in F.
      rewrite Forall_forall in F. specialize (F t Hin). lia.
    + intros id cb Hin. apply in_app_or in Hin. destruct Hin as [Hin|[Hin|[]]].
      * destruct (R id cb Hin) as [[Hx _]|Hx]; [|right; exact Hx].
        rewrite (I Hm) in Hx. discriminate.
      * inversion Hin; subst. left. split; [reflexivity|eauto].
    + intros _. exists s_nt, idr, lfd. split; [reflexivity|].
      apply in_or_app. right. left. reflexivity.
    + intros _. repeat split; auto. lia.
    + intros id Hin. apply in_app_or in Hin. destruct Hin as [Hin|[Hin|[]]].
      * exfalso. exact (Hcd id Hin).
      * discriminate.
  - constructor; unfold timers_fresh; cbn; auto; try discriminate.
    + intros Hx. congruence.
    + intros id Hin. exfalso. exact (Hcd id Hin).
Qed.

Lemma page_ok_ticked (s : State) (id : positive) :
  page_ok s -> In (id, CbCountdown) (timers s) -> page_ok (ticked s).
Proof.
  intros H Hin. pose proof (not_measuring_while_counting s H) as Hnm.
  destruct H as [F N R Sch I M C Cg O K Kd]. unfold ticked.
  destruct (C id Hin) as [Hc Hv]. pose proof (O Hc) as Hl. specialize (Hnm Hc).
  destruct (countdownValue s <=? 1)%nat eqn:Hle.
  - destruct_state s; cbn in *.
    constructor; unfold timers_fresh; cbn; auto; try discriminate.
    + apply fresh_clear_ref, F.
    + apply nodup_clear_ref, N.
    + intros i cb Hi. apply in_clear_ref in Hi. destruct Hi as [Hi Hne]. cbn in Hne.
      destruct (R i cb Hi) as [Hx|[Hx _]]; [left; exact Hx|congruence].
    + intros Hx. congruence.
    + intros Hx. congruence.
    + intros i Hi. apply in_clear_ref in Hi. destruct Hi as [Hi Hne]. cbn in Hne.
      destruct (R i _ Hi) as [[_ (? & ? & Hx)]|[Hx _]]; [discriminate|congruence].
  - apply Nat.leb_gt in Hle. destruct_state s; cbn in *.
    constructor; unfold timers_fresh; cbn; auto.
    intros i Hi. split; [exact Hc|lia].
Qed.

Lemma page_ok_framed (idr : bool) (lfd now : Z) (webcam : option (option string))
    (s : State) :
  page_ok s -> page_ok (framed idr lfd now webcam s).
Proof.
  intros H. unfold framed.
  destruct webcam as [shot|]; [|exact H].
  destruct (ws_is_open s); [|exact H].
  destruct (truthy_string shot) as [img|]; [|exact H].
  destruct (idr && (5000 <? now - lfd)%Z).
  - destruct (10 <? S (framesSinceLastFace s))%nat.
    + unfold stopped. revert H. destruct_state s. intros H.
      apply (page_ok_stopped _ _ H); reflexivity.
    + apply (page_ok_quiet s); [exact H| |]; destruct_state s; repeat split.
  - apply (page_ok_quiet s); [exact H| |]; destruct_state s; repeat split.
Qed.

Lemma page_ok_fired (now : Z) (webcam : option (option string)) (id : positive)
    (s : State) :
  page_ok s -> page_ok (fired now webcam id s).
Proof.
  intros H. unfold fired.
  destruct (lookup_timer id (timers s)) as [[i [idr lfd|]]|] eqn:E; [| |exact H].
  - apply page_ok_framed, H.
  - apply lookup_timer_in in E. destruct E as [Hin _].
    apply (page_ok_ticked s i H Hin).
Qed.

Lemma shows_measure (s : State) :
  page_ok s -> shows s MeasureDistance = true \/ shows s MeasureAgain = true ->
  isCalibrated s = true /\ isMeasuring s = false /\ showCountdown s = false /\
  showLandoltTest s = false.
Proof.
  intros H [Hs|Hs]; cbn in Hs;
    apply andb_prop in Hs; destruct Hs as [Hs Hl];
    apply andb_prop in Hs; destruct Hs as [Hs Hc];
    apply andb_prop in Hs; destruct Hs as [Hk Hm];
    apply negb_true_iff in Hl, Hc, Hm; repeat split; auto.
  apply (ok_calibrated s H). right. exact Hk.
Qed.

Lemma page_ok_pressed (b : Button) (shot : option string) (s : State) :
  page_ok s -> page_ok (pressed b shot s).
Proof.
  intros H. unfold pressed. destruct (shows s b) eqn:Hs; [|exact H].
  destruct b.
  - (* Calibrate *)
    cbn in Hs. apply andb_prop in Hs. destruct Hs as [Hk _].
    apply negb_true_iff in Hk.
    unfold calibrating. destruct (ws_is_open s); [|exact H].
    pose proof (ok_measuring s H) as M. pose proof (ok_calibrated s H) as Kd.
    apply (page_ok_same_cycle s); [exact H| | | |].
    + destruct_state s; repeat split.
    + destruct_state s; cbn in *. intros Hm. apply (M Hm).
    + destruct_state s; reflexivity.
    + destruct_state s; cbn in *. intros Hx. rewrite (Kd Hx) in Hk. discriminate.
  - (* Capture *)
    unfold captured, webcamRef. destruct (showCamera s); [|exact H].
    destruct (truthy_string shot); [|exact H].
    destruct (ws_is_open s); [|exact H].
    apply (page_ok_quiet s); [exact H| |]; destruct_state s; repeat split.
  - (* MeasureDistance *)
    destruct (shows_measure s H (or_introl Hs)) as (A & B & C & D).
    apply page_ok_started; assumption.
  - (* StopMeasuring *)
    unfold stopped. revert H. destruct_state s. intros H.
    apply (page_ok_stopped _ _ H); reflexivity.
  - (* MeasureAgain *)
    destruct (shows_measure s H (or_intror Hs)) as (A & B & C & D).
    apply page_ok_started; assumption.
  - (* CloseTest *)
    cbn in Hs. destruct H as [F N R Sch I M' C Cg O K' Kd].
    assert (Hc : showCountdown s = false).
    { destruct (showCountdown s) eqn:E; [|reflexivity].
      rewrite (O eq_refl) in Hs. discriminate. }
    destruct_state s; cbn in *.
    constructor; unfold timers_fresh; cbn; auto.
    intros Hm. destruct (M' Hm) as (A & B & D & E). auto.
Qed.

Lemma page_ok_delivered (now : Z) (p : Payload) (w : World) :
  page_ok (comp w) -> page_ok (comp (world_of (deliver now p w))).
Proof.
  intros H. destruct p as [raw|d].
  - destruct w; exact H.
  - destruct (deliver_summary w now d)
      as (a' & s' & -> & Hcg & Hcd & Hctf & _ & _ & _ & Hl & Hcase).
    cbn [world_of comp].
    assert (Hk : isCalibrating s' = true -> isCalibrated s' = false).
    { rewrite Hcg, Hcd. destruct (announces_calibration d); [discriminate|].
      apply (ok_calibration _ H). }
    assert (Hf : isCalibrated (comp w) = true -> isCalibrated s' = true).
    { rewrite Hcd. destruct (announces_calibration d); trivial. }
    destruct (completes_streak (comp w) d) eqn:Hcs.
    + unfold completes_streak in Hcs. rewrite !andb_true_iff in Hcs.
      destruct Hcs as ((((Hm & _) & _) & _) & _).
      apply (page_ok_countdown_started (comp w)); try assumption.
      * apply (ok_measuring _ H Hm).
      * apply Hf, (ok_calibrated _ H). left. exact Hm.
    + destruct Hcase as (A1 & A2 & A3 & A4 & A5 & A6 & A7 & A8 & A9 & A10).
      apply (page_ok_same_cycle (comp w)); [exact H|repeat split; assumption| |exact Hk|].
      * rewrite A1. intros Hm. destruct (ok_measuring _ H Hm) as (Hr & _ & _ & Hlt).
        rewrite Hctf. unfold completes_streak in Hcs. rewrite Hm, Hr in Hcs. cbn in Hcs.
        rewrite Hm, andb_true_r.
        destruct (carries_face d); cbn in *; [|exact Hlt].
        destruct (truthy_bool (at_target_distance d)); cbn in *; [|lia].
        apply Nat.leb_gt in Hcs. lia.
      * rewrite A1, A2. intros Hx. apply Hf, (ok_calibrated _ H Hx).
Qed.

Lemma page_ok_step (e : Event) (w : World) :
  page_ok (comp w) -> page_ok (comp (step e w)).
Proof.
  intros H. destruct e as [now p|now shot id|b shot|r]; cbn [step].
  - apply page_ok_delivered, H.
  - rewrite fire_leaves. cbn. apply page_ok_fired, H.
  - rewrite press_leaves. cbn. apply page_ok_pressed, H.
  - cbn. apply (page_ok_quiet (comp w)); [exact H| |];
      destruct w as [a s]; destruct_state s; repeat split.
Qed.

Lemma page_ok_run (events : list Event) (w : World) :
  page_ok (comp w) -> page_ok (comp (run events w)).
Proof.
  revert w. induction events as [|e rest IH]; intros w H; cbn; [exact H|].
  apply IH, page_ok_step, H.
Qed.

Lemma page_ok_reachable (w : World) : reachable w -> page_ok (comp w).
Proof.
  intros (a & now & events & ->). apply page_ok_run. cbn. apply page_ok_mount.
Qed.

(** ** What holds of every session *)

Lemma page_ok_session (a : Auth) (now : Z) (events : list Event) :
  page_ok (comp (session a now events)).
Proof. apply page_ok_run. cbn. apply page_ok_mount. Qed.

Lemma same_id_once (i : positive) (l : list (positive * Callback)) :
  NoDup (map fst l) -> (forall t, In t l -> fst t = i) -> length l <= 1.
Proof.
  destruct l as [|t [|t' l]]; cbn; intros N H; try lia.
  exfalso. inversion N as [|? ? Hnot _]; subst. apply Hnot. left.
  rewrite (H t), (H t'); auto.
Qed.

Lemma nodup_filter (p : positive * Callback -> bool) (l : list (positive * Callback)) :
  NoDup (map fst l) -> NoDup (map fst (filter p l)).
Proof.
  induction l as [|t l IH]; cbn; [trivial|]. intros N.
  inversion N as [|? ? Hnot Hrest]; subst.
  destruct (p t); cbn; [|apply IH, Hrest].
  constructor; [|apply IH, Hrest].
  intros Hin. apply Hnot. apply in_map_iff in Hin. destruct Hin as (x & Hx & Hin).
  apply filter_In in Hin. apply in_map_iff. exists x. split; [exact Hx|apply Hin].
Qed.

Lemma senders_ok (s : State) :
  page_ok s -> senders s = if isMeasuring s then 1 else 0.
Proof.
  intros [F N R Sch I M C Cg O K Kd]. unfold senders.
  destruct (isMeasuring s) eqn:Hm.
  - destruct (Sch eq_refl) as (id & idr & lfd & Hd & Hin).
    assert (Hle : length (filter is_sender (timers s)) <= 1).
    { apply (same_id_once id); [apply nodup_filter, N|].
      intros [i cb] Ht. apply filter_In in Ht. destruct Ht as [Ht Hs].
      destruct (R i cb Ht) as [[Hx _]|[_ Hx]]; [cbn; congruence|].
      subst cb. discriminate. }
    assert (Hge : In (id, CbSendFrame idr lfd) (filter is_sender (timers s))).
    { apply filter_In. split; [exact Hin|reflexivity]. }
    destruct (filter is_sender (timers s)); [destruct Hge|cbn in *; lia].
  - destruct (filter is_sender (timers s)) as [|[i cb] l] eqn:E; [reflexivity|].
    exfalso. assert (Ht : In (i, cb) (filter is_sender (timers s))).
    { rewrite E. left. reflexivity. }
    apply filter_In in Ht. destruct Ht as [Ht Hs].
    destruct (R i cb Ht) as [[Hx _]|[_ Hx]].
    + rewrite (I eq_refl) in Hx. discriminate.
    + subst cb. discriminate.
Qed.

Lemma countdowns_ok (s : State) :
  page_ok s -> countdowns s = if showCountdown s then 1 else 0.
Proof.
  intros [F N R Sch I M C Cg O K Kd]. unfold countdowns.
  destruct (showCountdown s) eqn:Hc.
  - destruct (Cg eq_refl) as (id & Hd & Hin).
    assert (Hle : length (filter (fun t => negb (is_sender t)) (timers s)) <= 1).
    { apply (same_id_once id); [apply nodup_filter, N|].
      intros [i cb] Ht. apply filter_In in Ht. destruct Ht as [Ht Hs].
      destruct (R i cb Ht) as [[_ (x & y & Hx)]|[Hx _]]; [|cbn; congruence].
      subst cb. discriminate. }
    assert (Hge : In (id, CbCountdown) (filter (fun t => negb (is_sender t)) (timers s))).
    { apply filter_In. split; [exact Hin|reflexivity]. }
    destruct (filter _ (timers s)); [destruct Hge|cbn in *; lia].
  - destruct (filter (fun t => negb (is_sender t)) (timers s)) as [|[i cb] l] eqn:E;
      [reflexivity|].
    exfalso. assert (Ht : In (i, cb) (filter (fun t => negb (is_sender t)) (timers s))).
    { rewrite E. left. reflexivity. }
    apply filter_In in Ht. destruct Ht as [Ht Hs].
    destruct cb as [idr lfd|]; [discriminate|].
    destruct (C i Ht) as [Hx _]. congruence.
Qed.

Lemma refs_cover_timers (s : State) :
  page_ok s ->
  clear_ref (countdownTimerRef s) (clear_ref (detectionInterval s) (timers s)) = [].
Proof.
  intros H.
  destruct (clear_ref _ _) as [|[id cb] l] eqn:E; [reflexivity|]. exfalso.
  assert (Hin : In (id, cb)
                  (clear_ref (countdownTimerRef s)
                     (clear_ref (detectionInterval s) (timers s)))).
  { rewrite E. left. reflexivity. }
  apply in_clear_ref in Hin. destruct Hin as [Hin Hc].
  apply in_clear_ref in Hin. destruct Hin as [Hin Hd]. cbn in Hc, Hd.
  destruct (ok_refs s H id cb Hin) as [[Hx _]|[Hx _]]; congruence.
Qed.

Lemma unmount_leaves (w : World) :
  unmount w =
  Ret tt {| auth := auth w;
            comp := set_timers
                      (clear_ref (countdownTimerRef (comp w))
                         (clear_ref (detectionInterval (comp w)) (timers (comp w))))
                      (set_ws (close_socket (ws (comp w))) (comp w)) |}.
Proof.
  destruct w as [a s]; destruct_state s. unfold unmount; unfold_monad; cbn.
  destruct s_dint, s_ctr; reflexivity.
Qed.

(** X1. In every session at most one of measuring, countdown and vision
    test is on; while measuring the target is not yet reached and the
    streak is below 15; the countdown display stays within 1..5;
    calibrating and calibrated exclude each other; measuring or a
    reached target imply a calibrated page. *)
Theorem phases_exclude_each_other (a : Auth) (now : Z) (events : list Event) :
  let s := comp (session a now events) in
  isMeasuring s && (isDistanceReached s || showCountdown s || showLandoltTest s) = false /\
  showCountdown s && showLandoltTest s = false /\
  (isMeasuring s = false \/ consecutiveTargetFrames s < 15) /\
  (showCountdown s = false \/ 1 <= countdownValue s <= 5) /\
  isCalibrating s && isCalibrated s = false /\
  (isMeasuring s || isDistanceReached s) && negb (isCalibrated s) = false.
Proof.
  intros s. pose proof (page_ok_session a now events) as H. fold s in H.
  destruct H as [F N R Sch I M C Cg O K Kd].
  repeat split.
  - destruct (isMeasuring s); [|reflexivity].
    destruct (M eq_refl) as (-> & -> & -> & _). reflexivity.
  - destruct (showCountdown s); [|reflexivity]. rewrite (O eq_refl). reflexivity.
  - destruct (isMeasuring s); [right|left; reflexivity]. apply (M eq_refl).
  - destruct (showCountdown s); [right|left; reflexivity].
    destruct (Cg eq_refl) as (id & _ & Hin). apply (C id Hin).
  - destruct (isCalibrating s); [|reflexivity]. rewrite (K eq_refl). reflexivity.
  - destruct (isMeasuring s) eqn:Hm; cbn.
    + rewrite Kd; auto.
    + destruct (isDistanceReached s); [|reflexivity]. rewrite Kd; auto.
Qed.

(** X2. In every session exactly one frame sender interval is live
    while the page is measuring and none otherwise, and exactly one
    countdown interval is live while the countdown shows and none
    otherwise; the handlers leave no other interval behind. (The FPS
    interval, which the first effect creates and its own clean-up
    clears, is not among the intervals of [timers].) *)
Theorem one_interval_per_phase (a : Auth) (now : Z) (events : list Event) :
  let s := comp (session a now events) in
  senders s = (if isMeasuring s then 1 else 0) /\
  countdowns s = (if showCountdown s then 1 else 0) /\
  length (timers s) = senders s + countdowns s.
Proof.
  intros s. pose proof (page_ok_session a now events) as H. fold s in H.
  split; [apply senders_ok, H|]. split; [apply countdowns_ok, H|].
  unfold senders, countdowns. generalize (timers s). intros l.
  induction l as [|t l IH]; cbn; [reflexivity|].
  destruct (is_sender t); cbn; lia.
Qed.

(** X3. Unmounting the component after any session returns, leaves
    none of the intervals the handlers created running and no open
    socket, and does not touch the authentication context. *)
Theorem unmount_stops_everything (a : Auth) (now : Z) (events : list Event) :
  exists w',
    unmount (session a now events) = Ret tt w' /\
    timers (comp w') = [] /\
    ws_is_open (comp w') = false /\
    auth w' = auth (session a now events).
Proof.
  pose proof (page_ok_session a now events) as H.
  eexists. split; [apply unmount_leaves|].
  cbn [comp auth]. split; [|split; [|reflexivity]].
  - generalize (refs_cover_timers _ H).
    destruct (comp (session a now events)); cbn. trivial.
  - destruct (comp (session a now events)) as
      [? ? ? ? ? ? ? ? ? ? ? ? ? ? ? [[]|] ? ? ? ? ? ? ? ? ?]; reflexivity.
Qed.

(** ** What one event does to traffic, calibration and camera *)

Lemma frames_in_app (xs ys : list OutMsg) :
  frames_in (xs ++ ys) = frames_in xs + frames_in ys.
Proof. unfold frames_in. rewrite filter_app, length_app. reflexivity. Qed.

Lemma step_due (now : Z) (shot : option string) (id : positive) (w : World) :
  step (Due now shot id) w =
  {| auth := auth w; comp := fired now (webcamRef (comp w) shot) id (comp w) |}.
Proof. cbn [step]. rewrite fire_leaves. reflexivity. Qed.

Lemma step_press (b : Button) (shot : option string) (w : World) :
  step (Press b shot) w = {| auth := auth w; comp := pressed b shot (comp w) |}.
Proof. cbn [step]. rewrite press_leaves. reflexivity. Qed.

(** The frame sender writes at most one frame, and only with the
    camera shown and the socket open. *)
Lemma framed_traffic (idr : bool) (lfd now : Z) (shot : option string) (s : State) :
  exists out,
    sent (framed idr lfd now (webcamRef s shot) s) = sent s ++ out /\
    frameCountRef (framed idr lfd now (webcamRef s shot) s)
      = frameCountRef s + frames_in out /\
    (out = [] \/ (showCamera s = true /\ ws_is_open s = true /\ frames_in out = 1)).
Proof.
  unfold framed, webcamRef.
  destruct (showCamera s) eqn:Hcam;
    [|exists []; rewrite app_nil_r, Nat.add_0_r; auto].
  destruct (ws_is_open s) eqn:Hopen;
    [|exists []; rewrite app_nil_r, Nat.add_0_r; auto].
  destruct (truthy_string shot) as [img|];
    [|exists []; rewrite app_nil_r, Nat.add_0_r; auto].
  destruct (idr && (5000 <? now - lfd)%Z).
  - destruct (10 <? S (framesSinceLastFace s))%nat.
    + exists [OutFrame img; OutCommand stop_all None].
      unfold stopped, ws_is_open in *. destruct_state s; cbn in *. rewrite Hopen. cbn.
      rewrite <- app_assoc. cbn. repeat split; auto. lia.
    + exists [OutFrame img]. destruct_state s; cbn in *. repeat split; auto. lia.
  - exists [OutFrame img]. destruct_state s; cbn in *. repeat split; auto. lia.
Qed.

Lemma ticked_traffic (s : State) :
  sent (ticked s) = sent s /\ frameCountRef (ticked s) = frameCountRef s.
Proof.
  unfold ticked. destruct (countdownValue s <=? 1)%nat; destruct_state s; cbn; auto.
Qed.

Lemma pressed_traffic (b : Button) (shot : option string) (s : State) :
  exists out,
    sent (pressed b shot s) = sent s ++ out /\
    frameCountRef (pressed b shot s) = frameCountRef s /\ frames_in out = 0.
Proof.
  unfold pressed. destruct (shows s b); [|exists []; rewrite app_nil_r; auto].
  destruct b.
  - unfold calibrating. destruct (ws_is_open s); [|exists []; rewrite app_nil_r; auto].
    exists [OutCommand start_calibration None]. destruct_state s; cbn; auto.
  - unfold captured. destruct (webcamRef s shot) as [sh|];
      [|exists []; rewrite app_nil_r; auto].
    destruct (truthy_string sh) as [img|]; [|exists []; rewrite app_nil_r; auto].
    destruct (ws_is_open s); [|exists []; rewrite app_nil_r; auto].
    exists [OutCommand capture (Some img)]. destruct_state s; cbn; auto.
  - unfold started. destruct (ws_is_open s).
    + exists [OutCommand start_distance None]. destruct_state s; cbn; auto.
    + exists []. destruct_state s; cbn. rewrite app_nil_r; auto.
  - unfold stopped. destruct (ws_is_open s).
    + exists [OutCommand stop_all None]. destruct_state s; cbn; auto.
    + exists []. destruct_state s; cbn. rewrite app_nil_r; auto.
  - unfold started. destruct (ws_is_open s).
    + exists [OutCommand start_distance None]. destruct_state s; cbn; auto.
    + exists []. destruct_state s; cbn. rewrite app_nil_r; auto.
  - exists []. destruct_state s; cbn. rewrite app_nil_r; auto.
Qed.

Lemma delivered_traffic (now : Z) (p : Payload) (w : World) :
  exists out,
    sent (comp (world_of (deliver now p w))) = sent (comp w) ++ out /\
    frameCountRef (comp (world_of (deliver now p w))) = frameCountRef (comp w) /\
    frames_in out = 0.
Proof.
  destruct p as [raw|d].
  - exists []. destruct w. cbn. rewrite app_nil_r. auto.
  - destruct (deliver_summary w now d)
      as (a' & s' & -> & _ & _ & _ & Hfc & _ & _ & _ & Hcase).
    cbn [world_of comp].
    destruct (completes_streak (comp w) d).
    + destruct Hcase as (_ & _ & _ & _ & _ & _ & _ & _ & Hs).
      destruct (ws_is_open (comp w)).
      * exists [OutCommand stop_all None]. auto.
      * exists []. rewrite app_nil_r. auto.
    + destruct Hcase as (_ & _ & _ & _ & _ & _ & _ & _ & _ & Hs).
      exists []. rewrite app_nil_r. auto.
Qed.

(** Every event appends to the traffic, the frame counter grows by the
    frames appended, and a frame is appended only by a live frame
    sender coming due with the camera shown and the socket open. *)
Lemma step_traffic (e : Event) (w : World) :
  exists out,
    sent (comp (step e w)) = sent (comp w) ++ out /\
    frameCountRef (comp (step e w)) = frameCountRef (comp w) + frames_in out /\
    (frames_in out = 0 \/
     (showCamera (comp w) = true /\ ws_is_open (comp w) = true /\
      exists now shot id idr lfd,
        e = Due now shot id /\ In (id, CbSendFrame idr lfd) (timers (comp w)))).
Proof.
  destruct e as [now p|now shot id|b shot|r].
  - destruct (delivered_traffic now p w) as (out & Hs & Hf & Hz).
    exists out. cbn [step]. rewrite Hs, Hf, Hz, Nat.add_0_r. auto.
  - rewrite step_due. cbn [comp]. unfold fired.
    destruct (lookup_timer id (timers (comp w))) as [[i [idr lfd|]]|] eqn:E.
    + destruct (framed_traffic idr lfd now shot (comp w)) as (out & Hs & Hf & Hc).
      exists out. split; [exact Hs|]. split; [exact Hf|].
      destruct Hc as [->|(Hcam & Hopen & _)]; [left; reflexivity|right].
      split; [exact Hcam|]. split; [exact Hopen|].
      apply lookup_timer_in in E. destruct E as [Hin Hid]. cbn in Hid. subst i.
      exists now, shot, id, idr, lfd. auto.
    + destruct (ticked_traffic (comp w)) as [Hs Hf].
      exists []. rewrite Hs, Hf, app_nil_r, Nat.add_0_r. auto.
    + exists []. rewrite app_nil_r, Nat.add_0_r. auto.
  - rewrite step_press. cbn [comp].
    destruct (pressed_traffic b shot (comp w)) as (out & Hs & Hf & Hz).
    exists out. rewrite Hs, Hf, Hz, Nat.add_0_r. auto.
  - exists []. cbn. destruct w as [a s]; destruct_state s; cbn.
    rewrite app_nil_r, Nat.add_0_r. auto.
Qed.

(** X4. Between two resets by the FPS interval the frame counter counts
    exactly the frames written to the socket: over any run of messages,
    due intervals, clicks and socket changes the traffic only grows,
    and the counter grows by the number of frames among what was
    appended. *)
Theorem frame_counter_counts_frames_sent (events : list Event) (w : World) :
  exists out,
    sent (comp (run events w)) = sent (comp w) ++ out /\
    frameCountRef (comp (run events w)) = frameCountRef (comp w) + frames_in out.
Proof.
  revert w. induction events as [|e rest IH]; intros w; cbn [run].
  - exists []. rewrite app_nil_r, Nat.add_0_r. auto.
  - destruct (step_traffic e w) as (o1 & Hs1 & Hf1 & _).
    destruct (IH (step e w)) as (o2 & Hs2 & Hf2).
    exists (o1 ++ o2). rewrite Hs2, Hs1, Hf2, Hf1, frames_in_app, app_assoc.
    split; [reflexivity|lia].
Qed.

(** X5. In every session a camera frame leaves the page only while it
    is measuring, with the camera shown and the socket open: any event
    that happens in another state adds no frame to the traffic. *)
Theorem frames_leave_only_while_measuring
    (a : Auth) (now : Z) (events : list Event) (e : Event) :
  let w := session a now events in
  frames_in (sent (comp (step e w))) = frames_in (sent (comp w)) \/
  (isMeasuring (comp w) = true /\ showCamera (comp w) = true /\
   ws_is_open (comp w) = true).
Proof.
  intros w. pose proof (page_ok_session a now events) as H. fold w in H.
  destruct (step_traffic e w) as (out & Hs & _ & [Hz|(Hcam & Hopen & Hdue)]).
  - left. rewrite Hs, frames_in_app, Hz. lia.
  - right. destruct Hdue as (n & shot & id & idr & lfd & _ & Hin).
    split; [|auto].
    destruct (isMeasuring (comp w)) eqn:Hm; [reflexivity|].
    destruct (ok_refs _ H id _ Hin) as [[Hx _]|[_ Hx]]; [|discriminate].
    rewrite (ok_idle _ H Hm) in Hx. discriminate.
Qed.

(** ** Calibration and camera *)

Lemma fired_keeps (now : Z) (webcam : option (option string)) (id : positive) (s : State) :
  showCamera (fired now webcam id s) = showCamera s /\
  isCalibrating (fired now webcam id s) = isCalibrating s /\
  isCalibrated (fired now webcam id s) = isCalibrated s /\
  isDistanceReached (fired now webcam id s) = isDistanceReached s /\
  lastFaceDetected (fired now webcam id s) = lastFaceDetected s /\
  consecutiveTargetFrames (fired now webcam id s) = consecutiveTargetFrames s /\
  ws (fired now webcam id s) = ws s /\
  nextTimer (fired now webcam id s) = nextTimer s.
Proof.
  unfold fired.
  destruct (lookup_timer id (timers s)) as [[i [idr lfd|]]|]; [| |repeat split].
  - unfold framed. destruct webcam as [shot|]; [|repeat split].
    destruct (ws_is_open s); [|repeat split].
    destruct (truthy_string shot) as [img|]; [|repeat split].
    destruct (idr && (5000 <? now - lfd)%Z); [|destruct_state s; repeat split].
    destruct (10 <? S (framesSinceLastFace s))%nat; destruct_state s; repeat split.
  - unfold ticked. destruct (countdownValue s <=? 1)%nat; destruct_state s; repeat split.
Qed.

Lemma pressed_camera (b : Button) (shot : option string) (s : State) :
  (isCalibrated s = true -> isCalibrated (pressed b shot s) = true) /\
  (showCamera s = true -> showCamera (pressed b shot s) = true) /\
  (isCalibrated s = true -> showCamera (pressed b shot s) = showCamera s).
Proof.
  unfold pressed. destruct (shows s b) eqn:Hs; [|auto].
  destruct b; cbn in Hs.
  - apply andb_prop in Hs. destruct Hs as [Hk _]. apply negb_true_iff in Hk.
    repeat split; try congruence.
    unfold calibrating. destruct (ws_is_open s); destruct_state s; auto.
  - unfold captured. destruct (webcamRef s shot) as [sh|]; [|auto].
    destruct (truthy_string sh); [|auto].
    destruct (ws_is_open s); destruct_state s; auto.
  - unfold started. destruct (ws_is_open s); destruct_state s; auto.
  - destruct_state s; auto.
  - unfold started. destruct (ws_is_open s); destruct_state s; auto.
  - destruct_state s; auto.
Qed.

Lemma step_camera (e : Event) (w : World) :
  (isCalibrated (comp w) = true -> isCalibrated (comp (step e w)) = true) /\
  (showCamera (comp w) = true -> showCamera (comp (step e w)) = true) /\
  (isCalibrated (comp w) = true ->
   showCamera (comp (step e w)) = showCamera (comp w)).
Proof.
  destruct e as [now p|now shot id|b shot|r].
  - cbn [step]. destruct p as [raw|d]; [destruct w; cbn; auto|].
    destruct (deliver_summary w now d)
      as (a' & s' & -> & _ & Hcd & _ & _ & Hcam & _).
    cbn [world_of comp]. rewrite Hcd, Hcam.
    destruct (announces_calibration d); auto.
  - rewrite step_due. cbn [comp].
    destruct (fired_keeps now (webcamRef (comp w) shot) id (comp w))
      as (-> & _ & -> & _). auto.
  - rewrite step_press. cbn [comp]. apply pressed_camera.
  - cbn. destruct w as [a s]; destruct_state s; cbn; auto.
Qed.

(** X7. A page that became calibrated while the camera was still
    hidden (the completion message arrived without a successful
    Calibrate click) can never show the camera: over every run of
    events the camera stays hidden and no frame is sent or counted. *)
Theorem calibrated_without_camera_sends_no_frame (events : list Event) (w : World) :
  isCalibrated (comp w) = true -> showCamera (comp w) = false ->
  showCamera (comp (run events w)) = false /\
  frames_in (sent (comp (run events w))) = frames_in (sent (comp w)) /\
  frameCountRef (comp (run events w)) = frameCountRef (comp w).
Proof.
  revert w. induction events as [|e rest IH]; intros w Hk Hc; cbn [run]; [auto|].
  destruct (step_camera e w) as (S1 & _ & S3).
  destruct (IH (step e w) (S1 Hk)) as (A & B & C); [rewrite (S3 Hk); exact Hc|].
  destruct (step_traffic e w) as (out & Hs & Hf & [Hz|(Hx & _)]); [|congruence].
  rewrite A, B, C, Hs, Hf, frames_in_app, Hz. repeat split; lia.
Qed.

(** X8. Whenever a session shows the Measure Again button it shows the
    Measure Distance button as well, and both start the same
    measurement. *)
Theorem measure_again_never_shown_alone
    (a : Auth) (now : Z) (events : list Event) (shot : option string) :
  let w := session a now events in
  implb (shows (comp w) MeasureAgain) (shows (comp w) MeasureDistance) = true /\
  (shows (comp w) MeasureAgain = false \/
   step (Press MeasureAgain shot) w = step (Press MeasureDistance shot) w).
Proof.
  intros w. pose proof (page_ok_session a now events) as H. fold w in H.
  destruct (shows (comp w) MeasureAgain) eqn:Hs.
  - destruct (shows_measure _ H (or_intror Hs)) as (A & B & C & D).
    assert (Hd : shows (comp w) MeasureDistance = true).
    { cbn. rewrite A, B, C, D. reflexivity. }
    split; [rewrite Hd; reflexivity|right].
    rewrite !step_press. unfold pressed. rewrite Hs, Hd. reflexivity.
  - split; [reflexivity|left; reflexivity].
Qed.

(** ** The countdown among other events *)

Lemma lookup_timer_single_same (id : positive) (cb : Callback) :
  lookup_timer id [(id, cb)] = Some (id, cb).
Proof. unfold lookup_timer. cbn. rewrite Pos.eqb_refl. reflexivity. Qed.

Lemma lookup_timer_single_other (i id : positive) (cb : Callback) :
  Pos.eqb i id = false -> lookup_timer i [(id, cb)] = None.
Proof.
  unfold lookup_timer. cbn. rewrite Pos.eqb_sym. intros ->. reflexivity.
Qed.

Lemma single_timer (s : State) (t : positive * Callback) :
  page_ok s -> In t (timers s) -> (forall t', In t' (timers s) -> t' = t) ->
  timers s = [t].
Proof.
  intros H Hin Hall.
  assert (Hle : length (timers s) <= 1).
  { apply (same_id_once (fst t)); [apply (ok_nodup s H)|].
    intros t' Ht'. rewrite (Hall t' Ht'). reflexivity. }
  destruct (timers s) as [|t1 [|t2 l]]; [destruct Hin| |cbn in Hle; lia].
  rewrite (Hall t1); [reflexivity|left; reflexivity].
Qed.

Lemma counting_timers (s : State) (id : positive) :
  page_ok s -> showCountdown s = true -> countdownTimerRef s = Some id ->
  timers s = [(id, CbCountdown)].
Proof.
  intros H Hc Hr. destruct (ok_counting s H Hc) as (i & Hi & Hin).
  assert (i = id) by congruence. subst i.
  apply (single_timer s _ H Hin). intros [i cb] Ht.
  destruct (ok_refs s H i cb Ht) as [[Hx _]|[Hx ->]].
  - rewrite (ok_idle s H (not_measuring_while_counting s H Hc)) in Hx. discriminate.
  - congruence.
Qed.

Lemma same_cycle_refl (s : State) : same_cycle s s.
Proof. repeat split. Qed.

(** While the countdown shows, nothing but its own interval moves the
    measuring cycle. *)
Lemma counting_step_other (e : Event) (id : positive) (w : World) :
  page_ok (comp w) -> showCountdown (comp w) = true ->
  countdownTimerRef (comp w) = Some id ->
  due_count id [e] = 0 ->
  same_cycle (comp w) (comp (step e w)).
Proof.
  intros H Hc Hr He.
  pose proof (not_measuring_while_counting _ H Hc) as Hm.
  pose proof (ok_overlay _ H Hc) as Hl.
  destruct e as [now p|now shot i|b shot|r].
  - cbn [step]. destruct p as [raw|d]; [destruct w; apply same_cycle_refl|].
    destruct (deliver_summary w now d) as (a' & s' & -> & _ & _ & _ & _ & _ & _ & _ & Hcase).
    cbn [world_of comp]. unfold completes_streak in Hcase. rewrite Hm in Hcase. cbn in Hcase.
    destruct Hcase as (A1 & A2 & A3 & A4 & A5 & A6 & A7 & A8 & A9 & A10).
    repeat split; assumption.
  - rewrite step_due. cbn [comp]. unfold fired.
    rewrite (counting_timers _ id H Hc Hr).
    cbn in He. destruct (Pos.eqb i id) eqn:E; [discriminate|].
    rewrite (lookup_timer_single_other i id _ E). apply same_cycle_refl.
  - rewrite step_press. cbn [comp]. unfold pressed.
    destruct (shows (comp w) b) eqn:Hs; [|apply same_cycle_refl].
    destruct b; cbn in Hs; rewrite ?Hm, ?Hc, ?Hl, ?andb_false_r in Hs; try discriminate.
    + unfold calibrating. destruct (ws_is_open (comp w)); [|apply same_cycle_refl].
      destruct (comp w); repeat split.
    + unfold captured. destruct (webcamRef (comp w) shot) as [sh|]; [|apply same_cycle_refl].
      destruct (truthy_string sh); [|apply same_cycle_refl].
      destruct (ws_is_open (comp w)); [|apply same_cycle_refl].
      destruct (comp w); repeat split.
  - cbn. destruct (comp w); repeat split.
Qed.

Lemma counting_step_own (now : Z) (shot : option string) (id : positive) (w : World) :
  page_ok (comp w) -> showCountdown (comp w) = true ->
  countdownTimerRef (comp w) = Some id ->
  comp (step (Due now shot id) w) = ticked (comp w).
Proof.
  intros H Hc Hr. rewrite step_due. cbn [comp]. unfold fired.
  rewrite (counting_timers _ id H Hc Hr), lookup_timer_single_same. reflexivity.
Qed.

Lemma ticked_goes_on (s : State) :
  1 < countdownValue s ->
  same_cycle (setCountdownValue (countdownValue s - 1) s) (ticked s) /\
  ticked s = setCountdownValue (countdownValue s - 1) s.
Proof.
  intros Hv. unfold ticked. apply Nat.leb_gt in Hv. rewrite Hv.
  split; [apply same_cycle_refl|reflexivity].
Qed.

(** ** The values the frame sender holds *)

Lemma run_app (xs ys : list Event) (w : World) :
  run (xs ++ ys) w = run ys (run xs w).
Proof. revert w. induction xs as [|e xs IH]; intros w; cbn; [reflexivity|apply IH]. Qed.

Lemma idle_no_timers (s : State) :
  page_ok s -> isMeasuring s = false -> showCountdown s = false -> timers s = [].
Proof.
  intros H Hm Hc. destruct (timers s) as [|[id cb] l] eqn:E; [reflexivity|]. exfalso.
  assert (Hin : In (id, cb) (timers s)) by (rewrite E; left; reflexivity).
  destruct (ok_refs s H id cb Hin) as [[Hx _]|[_ ->]].
  - rewrite (ok_idle s H Hm) in Hx. discriminate.
  - destruct (ok_countdown s H id Hin) as [Hx _]. congruence.
Qed.

(** The page right after a click on one of the measure buttons with the
    socket open. *)
Lemma started_open (idr : bool) (lfd : Z) (s : State) :
  ws_is_open s = true -> timers s = [] ->
  timers (started idr lfd s) = [(nextTimer s, CbSendFrame idr lfd)] /\
  detectionInterval (started idr lfd s) = Some (nextTimer s) /\
  isMeasuring (started idr lfd s) = true /\
  isDistanceReached (started idr lfd s) = false /\
  framesSinceLastFace (started idr lfd s) = 0 /\
  statusMessage (started idr lfd s) =
    "📏 Measuring distance... Try to fit your face in the red reference box at 4m" /\
  sent (started idr lfd s) = sent s ++ [OutCommand start_distance None] /\
  ws (started idr lfd s) = ws s /\
  showCamera (started idr lfd s) = showCamera s.
Proof.
  intros Ho Ht. unfold started. rewrite Ho. destruct_state s; cbn in *. subst.
  repeat split.
Qed.

(** A frame sender that holds [isDistanceReached = false] changes
    nothing but traffic and frame counter. *)
Lemma framed_unreached (lfd now : Z) (webcam : option (option string)) (s : State) :
  timers (framed false lfd now webcam s) = timers s /\
  isMeasuring (framed false lfd now webcam s) = isMeasuring s /\
  framesSinceLastFace (framed false lfd now webcam s) = framesSinceLastFace s /\
  statusMessage (framed false lfd now webcam s) = statusMessage s /\
  detectionInterval (framed false lfd now webcam s) = detectionInterval s.
Proof.
  unfold framed. destruct webcam as [shot|]; [|repeat split].
  destruct (ws_is_open s); [|repeat split].
  destruct (truthy_string shot); [|repeat split].
  cbn. destruct_state s; repeat split.
Qed.

Lemma unreached_run (n : positive) (lfd : Z) (more : list Event) (w : World) :
  forallb background more = true ->
  timers (comp w) = [(n, CbSendFrame false lfd)] ->
  timers (comp (run more w)) = timers (comp w) /\
  isMeasuring (comp (run more w)) = isMeasuring (comp w) /\
  framesSinceLastFace (comp (run more w)) = framesSinceLastFace (comp w) /\
  statusMessage (comp (run more w)) = statusMessage (comp w) /\
  detectionInterval (comp (run more w)) = detectionInterval (comp w).
Proof.
  revert w. induction more as [|e rest IH]; intros w Hb Ht; cbn [run]; [repeat split|].
  cbn in Hb. apply andb_prop in Hb. destruct Hb as [He Hb].
  assert (Hs : timers (comp (step e w)) = timers (comp w) /\
               isMeasuring (comp (step e w)) = isMeasuring (comp w) /\
               framesSinceLastFace (comp (step e w)) = framesSinceLastFace (comp w) /\
               statusMessage (comp (step e w)) = statusMessage (comp w) /\
               detectionInterval (comp (step e w)) = detectionInterval (comp w)).
  { destruct e as [? ?|now shot i|? ?|r]; try discriminate.
    - rewrite step_due. cbn [comp]. unfold fired. rewrite Ht.
      destruct (Pos.eqb i n) eqn:E.
      + apply Pos.eqb_eq in E. subst i. rewrite lookup_timer_single_same.
        rewrite <- Ht. apply framed_unreached.
      + rewrite (lookup_timer_single_other i n _ E). rewrite <- Ht. repeat split.
    - cbn. destruct (comp w); repeat split. }
  destruct Hs as (A1 & A2 & A3 & A4 & A5).
  destruct (IH (step e w) Hb) as (B1 & B2 & B3 & B4 & B5); [congruence|].
  repeat split; congruence.
Qed.

(** X10. The give-up of the frame sender is dead in a measurement
    started before the target was ever confirmed. After a click on
    Measure Distance with the socket open on a page whose
    [isDistanceReached] is false, the scheduled sender holds that false:
    however often intervals come due, at whatever clock readings, and
    however the socket changes, the page is still measuring, with the
    no-face counter at 0 and the same one interval live. (The status
    text is not part of the statement: the socket's error handler
    rewrites it.) *)
Theorem first_measurement_never_gives_up
    (a : Auth) (now : Z) (events more : list Event) (shot : option string) :
  let w := session a now events in
  let s' := comp (run (Press MeasureDistance shot :: more) w) in
  shows (comp w) MeasureDistance = true ->
  isDistanceReached (comp w) = false ->
  ws_is_open (comp w) = true ->
  forallb background more = true ->
  isMeasuring s' = true /\
  framesSinceLastFace s' = 0 /\
  timers s' = [(nextTimer (comp w), CbSendFrame false (lastFaceDetected (comp w)))].
Proof.
  intros w s' Hs Hr Ho Hb.
  pose proof (page_ok_session a now events) as H. fold w in H.
  destruct (shows_measure _ H (or_introl Hs)) as (_ & Hm & Hc & _).
  pose proof (idle_no_timers _ H Hm Hc) as Ht.
  unfold s'. cbn [run]. rewrite step_press. unfold pressed. rewrite Hs, Hr.
  destruct (started_open false (lastFaceDetected (comp w)) (comp w) Ho Ht)
    as (A1 & A2 & A3 & A4 & A5 & A6 & _).
  destruct (unreached_run (nextTimer (comp w)) (lastFaceDetected (comp w)) more
              {| auth := auth w;
                 comp := started false (lastFaceDetected (comp w)) (comp w) |} Hb A1)
    as (B1 & B2 & B3 & B4 & _).
  cbn [comp] in *. repeat split; congruence.
Qed.

Lemma framed_held (lfd now : Z) (img : string) (s : State) :
  ws_is_open s = true -> overdue lfd (now, img) = true ->
  framed true lfd now (Some (Some img)) s =
  let s2 :=
    set_framesSinceLastFace (S (framesSinceLastFace s))
      (set_frameCountRef (S (frameCountRef s))
         (set_sent (sent s ++ [OutFrame img]) s)) in
  if (10 <? S (framesSinceLastFace s))%nat
  then stopped
         (setStatusMessage
            "✅ Distance measurement complete! 4m distance reached and verified." s2)
  else s2.
Proof.
  unfold overdue. cbn [fst snd]. intros Ho Hd. apply andb_prop in Hd. destruct Hd as [Hl Hi].
  unfold framed, truthy_string. rewrite Ho, Hi, Hl. reflexivity.
Qed.

Lemma held_run (n : positive) (lfd : Z) (frames : list (Z * string)) (w : World) :
  timers (comp w) = [(n, CbSendFrame true lfd)] ->
  showCamera (comp w) = true -> ws_is_open (comp w) = true ->
  framesSinceLastFace (comp w) + length frames <= 10 ->
  forallb (overdue lfd) frames = true ->
  let s' := comp (run (frames_due n frames) w) in
  timers s' = timers (comp w) /\
  showCamera s' = true /\ ws_is_open s' = true /\
  framesSinceLastFace s' = framesSinceLastFace (comp w) + length frames /\
  sent s' = sent (comp w) ++ map (fun f => OutFrame (snd f)) frames /\
  isMeasuring s' = isMeasuring (comp w) /\
  isDistanceReached s' = isDistanceReached (comp w) /\
  detectionInterval s' = detectionInterval (comp w).
Proof.
  revert w. induction frames as [|[now img] rest IH]; intros w Ht Hcam Ho Hle Hall s';
    unfold s'; clear s'.
  - cbn. rewrite app_nil_r, Nat.add_0_r. repeat split; auto.
  - cbn in Hall, Hle. apply andb_prop in Hall. destruct Hall as [Hf Hall].
    cbn [frames_due map run fst snd]. rewrite step_due. cbn [comp].
    unfold fired, webcamRef.
    rewrite Ht, lookup_timer_single_same, Hcam, (framed_held lfd now img (comp w) Ho Hf).
    cbn zeta. assert (Hlt : (10 <? S (framesSinceLastFace (comp w)))%nat = false)
      by (apply Nat.ltb_ge; lia).
    rewrite Hlt.
    match goal with |- context [run _ ?W] => destruct (IH W) as (A1 & A2 & A3 & A4 & A5 & A6 & A7 & A8) end.
    + destruct (comp w); exact Ht.
    + destruct (comp w); exact Hcam.
    + unfold ws_is_open in *. destruct (comp w); exact Ho.
    + destruct (comp w); cbn in *. lia.
    + exact Hall.
    + unfold ws_is_open in *. fold (frames_due n rest).
      destruct (comp w); cbn in *.
      rewrite A1, A2, A3, A4, A5, A6, A7, A8, <- app_assoc. cbn.
      repeat split; auto; lia.
Qed.

(** X11. A measurement started with Measure Again gives up on the
    clock of the click. The scheduled sender holds the
    [isDistanceReached = true] and the [lastFaceDetected] of the render
    that showed the button, although the click resets
    [isDistanceReached]: eleven frames sent more than 5000 ms after that
    time, with no message in between, end the measurement. The
    completion text is shown, [stop_all] follows the eleven frames, no
    interval is left and [isDistanceReached] is still false. *)
Theorem repeated_measurement_gives_up
    (a : Auth) (now : Z) (events : list Event) (shot : option string)
    (frames : list (Z * string)) :
  let w := session a now events in
  let s' :=
    comp (run (Press MeasureAgain shot :: frames_due (nextTimer (comp w)) frames) w) in
  shows (comp w) MeasureAgain = true ->
  ws_is_open (comp w) = true ->
  showCamera (comp w) = true ->
  length frames = 11 ->
  forallb (overdue (lastFaceDetected (comp w))) frames = true ->
  isMeasuring s' = false /\
  isDistanceReached s' = false /\
  statusMessage s' =
    "✅ Distance measurement complete! 4m distance reached and verified." /\
  timers s' = [] /\
  sent s' =
    sent (comp w) ++ [OutCommand start_distance None]
      ++ map (fun f => OutFrame (snd f)) frames ++ [OutCommand stop_all None].
Proof.
  intros w s' Hs Ho Hcam Hlen Hall.
  pose proof (page_ok_session a now events) as H. fold w in H.
  destruct (shows_measure _ H (or_intror Hs)) as (_ & Hm & Hc & _).
  pose proof (idle_no_timers _ H Hm Hc) as Ht.
  assert (Hr : isDistanceReached (comp w) = true).
  { cbn in Hs. destruct (isDistanceReached (comp w)); [reflexivity|discriminate]. }
  destruct (exists_last (l := frames)) as (held & [now' img] & ->);
    [intros ->; discriminate|].
  rewrite length_app in Hlen. cbn in Hlen.
  rewrite forallb_app in Hall. apply andb_prop in Hall. destruct Hall as [Hheld Hlast].
  cbn in Hlast. rewrite andb_true_r in Hlast.
  unfold s', frames_due. rewrite map_app. cbn [run map fst snd].
  rewrite step_press. unfold pressed. rewrite Hs, Hr.
  set (lfd := lastFaceDetected (comp w)) in *. set (n := nextTimer (comp w)) in *.
  destruct (started_open true lfd (comp w) Ho Ht)
    as (A1 & A2 & A3 & A4 & A5 & A6 & A7 & A8 & A9).
  set (w1 := {| auth := auth w; comp := started true lfd (comp w) |}).
  rewrite run_app. fold (frames_due n held).
  destruct (held_run n lfd held w1) as (B1 & B2 & B3 & B4 & B5 & B6 & B7 & B8);
    cbn [comp w1]; try assumption.
  - congruence.
  - unfold ws_is_open in *. rewrite A8. exact Ho.
  - rewrite A5. lia.
  - cbn [comp w1] in *. set (w2 := run (frames_due n held) w1) in *.
    cbn [run]. rewrite step_due. cbn [comp]. unfold fired, webcamRef.
    rewrite B1, A1, lookup_timer_single_same, B2, (framed_held lfd now' img (comp w2) B3 Hlast).
    cbn zeta. rewrite B4, A5.
    assert (Hgt : (10 <? S (0 + length held))%nat = true) by (apply Nat.ltb_lt; lia).
    rewrite Hgt. unfold stopped, ws_is_open in *.
    rewrite map_app. cbn [map snd].
    destruct (comp w2) as [? ? ? ? ? ? ? ? ? ? ? ? ? ? ? r2 d2 ? ? ? ? t2 ? o2 ?]; cbn in *.
    rewrite B3, B8, A2, B1, A1, B7, A4, B5, A7. cbn. rewrite Pos.eqb_refl. cbn.
    repeat split; auto.
    rewrite <- !app_assoc. reflexivity.
Qed.

(** ** The connection effect after a click *)

Lemma settle_same (before s : State) (tok : option string) :
  isMeasuring s = isMeasuring before -> isDistanceReached s = isDistanceReached before ->
  settle before tok s = s.
Proof.
  intros E1 E2. unfold settle. rewrite E1, E2, !Bool.eqb_reflx. reflexivity.
Qed.

Lemma fired_closed (now : Z) (webcam : option (option string)) (id : positive) (s : State) :
  ws_is_open s = false ->
  sent (fired now webcam id s) = sent s /\
  frameCountRef (fired now webcam id s) = frameCountRef s /\
  ws (fired now webcam id s) = ws s /\
  isMeasuring (fired now webcam id s) = isMeasuring s /\
  isDistanceReached (fired now webcam id s) = isDistanceReached s.
Proof.
  intros Ho. unfold fired.
  destruct (lookup_timer id (timers s)) as [[i [idr lfd|]]|]; [| |repeat split].
  - unfold framed. destruct webcam; rewrite ?Ho; repeat split.
  - unfold ticked. destruct (countdownValue s <=? 1)%nat; destruct s; repeat split.
Qed.

Lemma act_due_closed (more : list Event) (w : World) :
  forallb is_due more = true -> ws_is_open (comp w) = false ->
  sent (comp (act_all more w)) = sent (comp w) /\
  frameCountRef (comp (act_all more w)) = frameCountRef (comp w) /\
  ws (comp (act_all more w)) = ws (comp w) /\
  isMeasuring (comp (act_all more w)) = isMeasuring (comp w).
Proof.
  revert w. induction more as [|e rest IH]; intros w Hd Ho; cbn [act_all]; [repeat split|].
  cbn in Hd. apply andb_prop in Hd. destruct Hd as [He Hd].
  destruct e as [? ?|now shot id|? ?|?]; try discriminate.
  unfold act. rewrite step_due. cbn [comp auth].
  destruct (fired_closed now (webcamRef (comp w) shot) id (comp w) Ho)
    as (A1 & A2 & A3 & A4 & A5).
  rewrite (settle_same _ _ _ A4 A5).
  match goal with |- context [act_all rest ?W] =>
    destruct (IH W Hd) as (B1 & B2 & B3 & B4) end.
  - cbn [comp]. unfold ws_is_open in *. rewrite A3. exact Ho.
  - cbn [comp] in *. repeat split; congruence.
Qed.

(** X12. A click that starts a measurement costs the connection. The
    click writes [start_distance] to the open socket and sets
    [isMeasuring]; the commit that follows re-runs the connection
    effect, whose clean-up closes that socket and whose body opens a
    new one (with a token) that is still connecting. Until the browser
    reports the new socket open, the scheduler's intervals come due
    without sending or counting a frame. *)
Theorem measure_click_replaces_socket
    (w : World) (b : Button) (shot : option string) (more : list Event) :
  let w' := act (Press b shot) w in
  b = MeasureDistance \/ b = MeasureAgain ->
  shows (comp w) b = true ->
  ws_is_open (comp w) = true ->
  forallb is_due more = true ->
  isMeasuring (comp w') = true /\
  sent (comp w') = sent (comp w) ++ [OutCommand start_distance None] /\
  ws (comp w') =
    (match truthy_string (token (auth w)) with
     | Some _ => Some CONNECTING
     | None => Some CLOSING
     end) /\
  sent (comp (act_all more w')) = sent (comp w') /\
  frameCountRef (comp (act_all more w')) = frameCountRef (comp w) /\
  isMeasuring (comp (act_all more w')) = true.
Proof.
  intros w' Hb Hs Ho Hd.
  assert (Hm : isMeasuring (comp w) = false).
  { destruct Hb; subst b; cbn in Hs; destruct (isMeasuring (comp w)); auto;
      rewrite ?andb_false_r in Hs; discriminate. }
  assert (Hw : comp w' =
               reconnect (token (auth w))
                 (started (isDistanceReached (comp w)) (lastFaceDetected (comp w)) (comp w))).
  { unfold w', act. rewrite step_press. cbn [comp auth]. unfold pressed. rewrite Hs.
    assert (Hst : (match b with
                   | Calibrate => calibrating (comp w)
                   | Capture => captured (webcamRef (comp w) shot) (comp w)
                   | MeasureDistance | MeasureAgain =>
                     started (isDistanceReached (comp w)) (lastFaceDetected (comp w)) (comp w)
                   | StopMeasuring => stopped (comp w)
                   | CloseTest => setShowLandoltTest false (comp w)
                   end) =
                  started (isDistanceReached (comp w)) (lastFaceDetected (comp w)) (comp w))
      by (destruct Hb; subst b; reflexivity).
    rewrite Hst. unfold settle, started. rewrite Ho, Hm.
    destruct (comp w); reflexivity. }
  assert (Hfacts :
            isMeasuring (comp w') = true /\
            sent (comp w') = sent (comp w) ++ [OutCommand start_distance None] /\
            ws (comp w') =
              (match truthy_string (token (auth w)) with
               | Some _ => Some CONNECTING
               | None => Some CLOSING
               end) /\
            frameCountRef (comp w') = frameCountRef (comp w)).
  { rewrite Hw. unfold reconnect, connect, started, ws_is_open in *. rewrite Ho.
    destruct (comp w) as [? ? ? ? ? ? ? ? ? ? ? ? ? ? ? r ? ? ? ? ? ? ? ? ?]; cbn in *.
    destruct r as [[]|]; try discriminate.
    destruct (truthy_string (token (auth w))); cbn; repeat split. }
  destruct Hfacts as (F1 & F2 & F3 & F4).
  assert (Hc : ws_is_open (comp w') = false).
  { unfold ws_is_open. rewrite F3. destruct (truthy_string (token (auth w))); reflexivity. }
  destruct (act_due_closed more w' Hd Hc) as (A1 & A2 & A3 & A4).
  repeat split; congruence.
Qed.

(** ** The cycle as a state machine *)

Lemma phase_same (s s' : State) :
  isMeasuring s' = isMeasuring s -> showCountdown s' = showCountdown s ->
  showLandoltTest s' = showLandoltTest s -> phase s' = phase s.
Proof. unfold phase. intros -> -> ->. reflexivity. Qed.

Lemma phase_measuring (s : State) : isMeasuring s = true -> phase s = Measuring.
Proof. unfold phase. intros ->. reflexivity. Qed.

Lemma phase_stopped (s s' : State) :
  page_ok s -> isMeasuring s' = false -> showCountdown s' = showCountdown s ->
  showLandoltTest s' = showLandoltTest s ->
  phase s' = phase s \/ (phase s = Measuring /\ phase s' = Resting).
Proof.
  intros H Em Ec El. destruct (isMeasuring s) eqn:Hm.
  - right. split; [apply phase_measuring, Hm|].
    destruct (ok_measuring s H Hm) as (_ & Hc & Hl & _).
    unfold phase. rewrite Em, Ec, El, Hc, Hl. reflexivity.
  - left. apply phase_same; congruence.
Qed.

Lemma phase_resting (s : State) :
  isMeasuring s = false -> showCountdown s = false -> showLandoltTest s = false ->
  phase s = Resting.
Proof. unfold phase. intros -> -> ->. reflexivity. Qed.

Lemma phase_started (idr : bool) (lfd : Z) (s : State) :
  isMeasuring s = false -> showLandoltTest s = false ->
  phase (started idr lfd s) = Measuring \/ phase (started idr lfd s) = Resting.
Proof.
  intros Hm Hl. unfold started, phase.
  destruct (ws_is_open s); destruct s; cbn in *; [left; reflexivity|right].
  rewrite Hm, Hl. reflexivity.
Qed.

(** The handlers of one event either leave the phase or make one of
    the moves. *)
Lemma phase_step (e : Event) (w : World) :
  page_ok (comp w) ->
  phase (comp (step e w)) = phase (comp w) \/
  moves (phase (comp w)) e (phase (comp (step e w))) = true.
Proof.
  intros H. destruct e as [t p|t shot id|b shot|r].
  - (* a message *)
    cbn [step]. destruct p as [raw|d]; [left; destruct w; reflexivity|].
    destruct (deliver_summary w t d)
      as (a' & s' & -> & _ & _ & _ & _ & _ & _ & Hl & Hcase).
    cbn [world_of comp].
    destruct (completes_streak (comp w) d) eqn:Hcs.
    + right. unfold completes_streak in Hcs. rewrite !andb_true_iff in Hcs.
      destruct Hcs as ((((Hm & _) & _) & _) & _).
      destruct Hcase as (_ & Em & Ec & _).
      rewrite (phase_measuring _ Hm). unfold phase. rewrite Em, Ec. reflexivity.
    + left. destruct Hcase as (A1 & _ & A3 & _). apply phase_same; assumption.
  - (* an interval *)
    rewrite step_due. cbn [comp]. unfold fired.
    destruct (lookup_timer id (timers (comp w))) as [[i [idr lfd|]]|] eqn:E;
      [| |left; reflexivity].
    + unfold framed. destruct (webcamRef (comp w) shot) as [sh|]; [|left; reflexivity].
      destruct (ws_is_open (comp w)); [|left; reflexivity].
      destruct (truthy_string sh) as [img|]; [|left; reflexivity].
      destruct (idr && (5000 <? t - lfd)%Z);
        [|left; apply phase_same; destruct (comp w); reflexivity].
      destruct (10 <? S (framesSinceLastFace (comp w)))%nat;
        [|left; apply phase_same; destruct (comp w); reflexivity].
      match goal with |- context [phase (stopped ?S0)] =>
        destruct (phase_stopped (comp w) (stopped S0) H) as [Hp|[Hp Hq]] end;
        try (destruct (comp w); reflexivity).
      * left. exact Hp.
      * right. rewrite Hp, Hq. reflexivity.
    + apply lookup_timer_in in E. destruct E as [Hin _].
      destruct (ok_countdown _ H i Hin) as [Hc _].
      pose proof (not_measuring_while_counting _ H Hc) as Hm.
      unfold ticked. destruct (countdownValue (comp w) <=? 1)%nat.
      * right. unfold phase at 1. rewrite Hm, Hc.
        unfold phase. destruct (comp w); cbn in *. rewrite Hm. reflexivity.
      * left. apply phase_same; destruct (comp w); reflexivity.
  - (* a click *)
    rewrite step_press. cbn [comp]. unfold pressed.
    destruct (shows (comp w) b) eqn:Hs; [|left; reflexivity].
    destruct b.
    + left. unfold calibrating. destruct (ws_is_open (comp w)); [|reflexivity].
      apply phase_same; destruct (comp w); reflexivity.
    + left. unfold captured. destruct (webcamRef (comp w) shot) as [sh|]; [|reflexivity].
      destruct (truthy_string sh); [|reflexivity].
      destruct (ws_is_open (comp w)); [|reflexivity].
      apply phase_same; destruct (comp w); reflexivity.
    + destruct (shows_measure _ H (or_introl Hs)) as (_ & Hm & Hc & Hl).
      rewrite (phase_resting _ Hm Hc Hl).
      destruct (phase_started (isDistanceReached (comp w)) (lastFaceDetected (comp w))
                  (comp w) Hm Hl) as [-> | ->]; [right|left]; reflexivity.
    + cbn in Hs. right. rewrite (phase_measuring _ Hs).
      destruct (ok_measuring _ H Hs) as (_ & Hc & Hl & _).
      unfold phase, stopped. destruct (comp w); cbn in *. rewrite Hc, Hl. reflexivity.
    + destruct (shows_measure _ H (or_intror Hs)) as (_ & Hm & Hc & Hl).
      rewrite (phase_resting _ Hm Hc Hl).
      destruct (phase_started (isDistanceReached (comp w)) (lastFaceDetected (comp w))
                  (comp w) Hm Hl) as [-> | ->]; [right|left]; reflexivity.
    + cbn in Hs. right.
      assert (Hc : showCountdown (comp w) = false).
      { destruct (showCountdown (comp w)) eqn:E; [|reflexivity].
        rewrite (ok_overlay _ H E) in Hs. discriminate. }
      assert (Hm : isMeasuring (comp w) = false).
      { destruct (isMeasuring (comp w)) eqn:E; [|reflexivity].
        destruct (ok_measuring _ H E) as (_ & _ & Hx & _). congruence. }
      unfold phase. destruct (comp w); cbn in *. rewrite Hm, Hc, Hs. reflexivity.
  - left. apply phase_same; destruct w as [x s]; destruct s; reflexivity.
Qed.

(** * The authentication provider *)

(** The [logout] the component calls is the provider's. *)
Lemma logout_writes (w : World) :
  logout w = Ret tt {| auth := logged_out (auth w); comp := comp w |}.
Proof. reflexivity. Qed.

Lemma same_token_refl (a : option string) : same_token a a = true.
Proof. destruct a as [s|]; cbn; [apply String.eqb_refl|reflexivity]. Qed.

Lemma same_token_eq (a b : option string) : same_token a b = true -> a = b.
Proof.
  destruct a as [x|], b as [y|]; cbn; try discriminate; [|reflexivity].
  intros H. apply String.eqb_eq in H. congruence.
Qed.

Lemma nth_error_last (l : list Call) (c : Call) :
  nth_error (l ++ [c]) (length l) = Some c.
Proof. rewrite nth_error_app2, Nat.sub_diag; [reflexivity|lia]. Qed.

Lemma without_last (l : list Call) (c : Call) : without (length l) (l ++ [c]) = l.
Proof.
  unfold without. induction l as [|x l IH]; cbn; [reflexivity|].
  f_equal. exact IH.
Qed.

Lemma in_without (k : nat) (l : list Call) (c d : Call) :
  In c l -> nth_error l k = Some d -> c <> d -> In c (without k l).
Proof.
  unfold without. revert k. induction l as [|x l IH]; intros k Hin Hn Hne; [destruct Hin|].
  destruct k as [|k]; cbn in *.
  - injection Hn as ->. destruct Hin as [->|Hin]; [congruence|exact Hin].
  - destruct Hin as [->|Hin]; [left; reflexivity|right]. apply IH; assumption.
Qed.

(** ** Token and storage *)

Lemma token_effect_ctx (p : Provider) :
  token (ctx (token_effect p)) = token (ctx p) /\
  authToken (ctx (token_effect p)) = authToken (ctx p) /\
  user (ctx (token_effect p)) = user (ctx p).
Proof.
  unfold token_effect. destruct (truthy_string (token (ctx p))); cbn; auto.
Qed.

Lemma provider_commit_ctx (before : option string) (p : Provider) :
  token (ctx (provider_commit before p)) = token (ctx p) /\
  authToken (ctx (provider_commit before p)) = authToken (ctx p) /\
  user (ctx (provider_commit before p)) = user (ctx p).
Proof.
  unfold provider_commit. destruct (same_token before (token (ctx p))); [auto|].
  apply token_effect_ctx.
Qed.

Lemma step_tokens (e : AuthEvent) (p : Provider) :
  authToken (ctx p) = token (ctx p) ->
  authToken (ctx (provider_step e p)) = token (ctx (provider_step e p)).
Proof.
  intros H. unfold provider_step.
  match goal with |- context [provider_commit ?b ?q] =>
    destruct (provider_commit_ctx b q) as (-> & -> & _) end.
  destruct e as [em pw|em pw fn| |k r|k r]; cbn; try exact H; try reflexivity.
  - destruct (nth_error (pending p) k) as [[form tc|aw]|]; try exact H.
    destruct r as [|[] [g|]]; cbn; auto.
  - destruct (nth_error (pending p) k) as [[form tc|aw]|]; try exact H.
    assert (Hr : authToken (profile_reply r (ctx p)) = token (profile_reply r (ctx p))).
    { destruct r as [|[] [u|]]; cbn; auto. }
    destruct aw; cbn; exact Hr.
Qed.

(** X15. The token in [localStorage] and the token in the provider's
    state never differ: after any run of logins, registrations, logouts
    and backend replies, in any order, both hold the same value. *)
Theorem stored_token_is_the_token (savedToken : option string) (events : list AuthEvent) :
  authToken (ctx (provider_session savedToken events))
  = token (ctx (provider_session savedToken events)).
Proof.
  unfold provider_session.
  assert (H0 : authToken (ctx (AuthProvider savedToken))
               = token (ctx (AuthProvider savedToken))).
  { unfold AuthProvider.
    match goal with |- context [token_effect ?q] =>
      destruct (token_effect_ctx q) as (-> & -> & _) end. reflexivity. }
  revert H0. generalize (AuthProvider savedToken). intros p.
  revert p. induction events as [|e rest IH]; intros p H; cbn; [exact H|].
  apply IH, step_tokens, H.
Qed.

(** ** The loading state *)

Lemma token_effect_loading (p : Provider) :
  (loading (ctx p) = false \/ In (AwaitProfile false) (pending p) ->
   loading (ctx (token_effect p)) = false \/
   In (AwaitProfile false) (pending (token_effect p))) /\
  (loading (ctx p) = false -> loading (ctx (token_effect p)) = false).
Proof.
  unfold token_effect. destruct (truthy_string (token (ctx p))); cbn; split; auto.
  intros [H|H]; [left; exact H|right; apply in_or_app; left; exact H].
Qed.

Lemma provider_commit_loading (before : option string) (p : Provider) :
  (loading (ctx p) = false \/ In (AwaitProfile false) (pending p) ->
   loading (ctx (provider_commit before p)) = false \/
   In (AwaitProfile false) (pending (provider_commit before p))) /\
  (loading (ctx p) = false -> loading (ctx (provider_commit before p)) = false).
Proof.
  unfold provider_commit. destruct (same_token before (token (ctx p))); [auto|].
  apply token_effect_loading.
Qed.

Lemma step_loading (e : AuthEvent) (p : Provider) :
  (loading (ctx p) = false \/ In (AwaitProfile false) (pending p) ->
   loading (ctx (provider_step e p)) = false \/
   In (AwaitProfile false) (pending (provider_step e p))) /\
  (loading (ctx p) = false -> loading (ctx (provider_step e p)) = false).
Proof.
  unfold provider_step.
  match goal with |- context [provider_commit ?b ?q] =>
    destruct (provider_commit_loading b q) as [C1 C2] end.
  split.
  - intros H. apply C1. clear C1 C2.
    destruct e as [em pw|em pw fn| |k r|k r]; cbn.
    + destruct H as [H|H]; [left; exact H|right; apply in_or_app; left; exact H].
    + destruct H as [H|H]; [left; exact H|right; apply in_or_app; left; exact H].
    + exact H.
    + destruct (nth_error (pending p) k) as [[form tc|aw]|] eqn:E; try exact H.
      assert (H' : loading (ctx p) = false \/
                   In (AwaitProfile false) (without k (pending p))).
      { destruct H as [H|H]; [left; exact H|right].
        apply (in_without k _ _ _ H E). discriminate. }
      destruct r as [|[] [g|]]; cbn; try exact H'.
      destruct H' as [H'|H']; [left; exact H'|right; apply in_or_app; left; exact H'].
    + destruct (nth_error (pending p) k) as [[form tc|aw]|] eqn:E; try exact H.
      left. destruct aw; cbn; destruct r as [|[] [u|]]; reflexivity.
  - intros H. apply C2. clear C1 C2.
    destruct e as [em pw|em pw fn| |k r|k r]; cbn; try exact H.
    + destruct (nth_error (pending p) k) as [[form tc|aw]|]; try exact H.
      destruct r as [|[] [g|]]; cbn; exact H.
    + destruct (nth_error (pending p) k) as [[form tc|aw]|]; try exact H.
      destruct aw; cbn; destruct r as [|[] [u|]]; reflexivity.
Qed.

(** X16. The loading state is on only while a profile request made by
    the token effect is unanswered, and once off it is never on again:
    after any run of events from the first render either [loading] is
    false or such a call is in flight, and no later run turns a false
    [loading] back to true. *)
Theorem loading_ends_with_the_profile_reply
    (savedToken : option string) (events more : list AuthEvent) :
  let p := provider_session savedToken events in
  (loading (ctx p) = false \/ In (AwaitProfile false) (pending p)) /\
  (loading (ctx p) = true \/ loading (ctx (provider_run more p)) = false).
Proof.
  intros p. split.
  - unfold p, provider_session.
    assert (H0 : loading (ctx (AuthProvider savedToken)) = false \/
                 In (AwaitProfile false) (pending (AuthProvider savedToken))).
    { unfold AuthProvider, token_effect. cbn.
      destruct (truthy_string savedToken); cbn; auto. }
    revert H0. generalize (AuthProvider savedToken). intros q. revert q.
    induction events as [|e rest IH]; intros q H; cbn; [exact H|].
    apply IH. apply (proj1 (step_loading e q)), H.
  - destruct (loading (ctx p)) eqn:E; [left; reflexivity|right].
    revert E. generalize p. clear p. intros p.
    revert p. induction more as [|e rest IH]; intros p H; cbn; [exact H|].
    apply IH. apply (proj2 (step_loading e p)), H.
Qed.

(** ** A form is submitted *)

Lemma nth_error_after (l r : list Call) (c : Call) :
  nth_error (l ++ c :: r) (length l) = Some c.
Proof. induction l as [|x l IH]; cbn; [reflexivity|exact IH]. Qed.

Lemma without_after (l r : list Call) (c : Call) :
  without (length l) (l ++ c :: r) = l ++ r.
Proof.
  unfold without. induction l as [|x l IH]; cbn; [reflexivity|]. f_equal. exact IH.
Qed.

Lemma nth_error_after2 (l r : list Call) (c d : Call) :
  nth_error (l ++ c :: d :: r) (S (length l)) = Some d.
Proof. induction l as [|x l IH]; cbn; [reflexivity|exact IH]. Qed.

Lemma without_after2 (l r : list Call) (c d : Call) :
  without (S (length l)) (l ++ c :: d :: r) = l ++ c :: r.
Proof.
  unfold without. induction l as [|x l IH]; cbn; [reflexivity|]. f_equal. exact IH.
Qed.

Lemma truthy_some (s : string) : str_truthy s = true -> truthy_string (Some s) = Some s.
Proof. intros H. cbn. rewrite H. reflexivity. Qed.

Lemma authorization_stored (s : string) (token_c : option string) :
  str_truthy s = true -> authorization (Some s) token_c = ("Bearer " ++ s)%string.
Proof. intros H. unfold authorization. rewrite (truthy_some s H). reflexivity. Qed.

Lemma submitted (form : Form) (email password fullName : string) (p : Provider) :
  provider_step (submit form email password fullName) p =
  {| ctx := ctx p;
     pending := pending p ++ [AwaitGrant form (token (ctx p))];
     fetched := fetched p ++ [request_of form email password fullName];
     returned := returned p |}.
Proof.
  unfold provider_step, provider_commit.
  destruct form; cbn; rewrite same_token_refl; reflexivity.
Qed.

(** The provider after a form was submitted and the backend granted
    a token. *)
Lemma granted (form : Form) (email password fullName : string) (g : Grant)
    (p : Provider) :
  str_truthy (access_token g) = true ->
  provider_run [submit form email password fullName;
                GrantAnswer (length (pending p)) (Answered true (Some g))] p =
  {| ctx := setToken (Some (access_token g)) (setItem (access_token g) (ctx p));
     pending :=
       pending p ++ AwaitProfile true
         :: (if same_token (token (ctx p)) (Some (access_token g))
             then [] else [AwaitProfile false]);
     fetched :=
       fetched p ++ request_of form email password fullName
         :: GetProfile ("Bearer " ++ access_token g)
         :: (if same_token (token (ctx p)) (Some (access_token g))
             then [] else [GetProfile ("Bearer " ++ access_token g)]);
     returned := returned p |}.
Proof.
  intros Ht. cbn [provider_run]. rewrite submitted.
  unfold provider_step. cbn [pending ctx].
  rewrite nth_error_last. unfold set_pending. cbn [pending ctx fetched returned].
  rewrite without_last. unfold grant_reply, fetchUserProfile, set_ctx, provider_commit.
  cbn [pending ctx fetched returned authToken token setToken setItem].
  rewrite (authorization_stored _ _ Ht).
  destruct (same_token (token (ctx p)) (Some (access_token g))).
  - rewrite <- !app_assoc. reflexivity.
  - unfold token_effect, fetchUserProfile.
    cbn [pending ctx fetched returned authToken token setToken setItem].
    rewrite (truthy_some _ Ht), (authorization_stored _ _ Ht), <- !app_assoc. reflexivity.
Qed.

(** X17. A granted login or registration asks for the profile twice.
    The reply's token goes to [localStorage] and to the state, the form
    function calls [fetchUserProfile] itself, and the commit runs the
    token effect, which calls it again (unless the state already held
    that token); both requests carry the new token as bearer, whatever
    token the closures of the form function held. The user is not set
    and nothing is returned to the form yet. *)
Theorem granted_token_is_fetched_twice
    (form : Form) (email password fullName : string) (g : Grant) (p : Provider) :
  let p' :=
    provider_run [submit form email password fullName;
                  GrantAnswer (length (pending p)) (Answered true (Some g))] p in
  str_truthy (access_token g) = true ->
  token (ctx p') = Some (access_token g) /\
  authToken (ctx p') = Some (access_token g) /\
  user (ctx p') = user (ctx p) /\
  returned p' = returned p /\
  fetched p' =
    fetched p ++ request_of form email password fullName
      :: GetProfile ("Bearer " ++ access_token g)
      :: (if same_token (token (ctx p)) (Some (access_token g))
          then [] else [GetProfile ("Bearer " ++ access_token g)]).
Proof.
  intros p' Ht. unfold p'. rewrite (granted form email password fullName g p Ht).
  cbn. repeat split.
Qed.

(** X18. A form is told it succeeded even when the session did not
    survive. After a granted login or registration, a profile reply to
    the form's own request that is not an ok response with a parsable
    body logs out: user, token and stored token are cleared and loading
    ends, and the form function still returns [{ success: true }]. *)
Theorem success_is_returned_after_logout
    (form : Form) (email password fullName : string) (g : Grant)
    (r : Response (option string)) (p : Provider) :
  let p' :=
    provider_run [submit form email password fullName;
                  GrantAnswer (length (pending p)) (Answered true (Some g));
                  ProfileAnswer (length (pending p)) r] p in
  str_truthy (access_token g) = true ->
  stores_user r = false ->
  returned p' = returned p ++ [Succeeded] /\
  user (ctx p') = None /\ token (ctx p') = None /\ authToken (ctx p') = None /\
  loading (ctx p') = false /\
  isAuthenticated (ctx p') = false.
Proof.
  intros p' Ht Hr. unfold p'.
  change (provider_run [submit form email password fullName;
                        GrantAnswer (length (pending p)) (Answered true (Some g));
                        ProfileAnswer (length (pending p)) r] p)
    with (provider_step (ProfileAnswer (length (pending p)) r)
            (provider_run [submit form email password fullName;
                           GrantAnswer (length (pending p)) (Answered true (Some g))] p)).
  rewrite (granted form email password fullName g p Ht).
  unfold provider_step. cbn [pending ctx].
  rewrite nth_error_after. unfold set_pending, set_ctx, returns, provider_commit.
  cbn [pending ctx fetched returned token setToken setItem].
  assert (Hp : profile_reply r (setToken (Some (access_token g))
                                  (setItem (access_token g) (ctx p)))
               = setLoading false
                   (logged_out (setToken (Some (access_token g))
                                  (setItem (access_token g) (ctx p))))).
  { destruct r as [|[] [u|]]; try reflexivity. discriminate. }
  rewrite Hp. cbn [token setLoading logged_out removeItem setToken setUser same_token].
  unfold token_effect. cbn. repeat split.
Qed.

(** X19. A refused login or registration changes nothing in the
    provider: when the reply is not an ok response with a parsable
    body, user, token, stored token, loading and the calls in flight are
    as before, no profile is requested, and the form function returns
    a failure whose text is the reply's non-empty [detail], the default
    of the form for a parsable body without one, and the network-error
    text otherwise. *)
Theorem refused_form_changes_nothing
    (form : Form) (email password fullName : string) (r : Response Grant)
    (p : Provider) :
  let p' :=
    provider_run [submit form email password fullName;
                  GrantAnswer (length (pending p)) r] p in
  grants r = false ->
  ctx p' = ctx p /\ pending p' = pending p /\
  fetched p' = fetched p ++ [request_of form email password fullName] /\
  returned p' =
    returned p ++
      [Failed match r with
              | Answered false (Some errorData) =>
                match truthy_string (detail errorData) with
                | Some d => d
                | None => default_error form
                end
              | _ => "Network error. Please try again."
              end].
Proof.
  intros p' Hr. unfold p'. cbn [provider_run]. rewrite submitted.
  unfold provider_step. cbn [pending ctx].
  rewrite nth_error_last. unfold set_pending. cbn [pending ctx fetched returned].
  rewrite without_last. unfold provider_commit.
  destruct r as [|[] [e|]]; try discriminate; cbn; rewrite same_token_refl; cbn; auto.
Qed.

(** X20. A failing profile reply that overtakes a succeeding one leaves
    a signed-in user without a token. After a granted login or
    registration that changed the token, two profile requests are in
    flight; if the reply to the effect's request fails first and the
    reply to the form's request then brings a user, the provider ends
    with that user set, so the route guard shows the application, while
    token and stored token are cleared, so the application mounts
    without opening a socket; the form function returns success. *)
Theorem overtaken_profile_reply_signs_in_without_token
    (form : Form) (email password fullName : string) (g : Grant)
    (r : Response (option string)) (u : string) (now : Z) (p : Provider) :
  let p' :=
    provider_run [submit form email password fullName;
                  GrantAnswer (length (pending p)) (Answered true (Some g));
                  ProfileAnswer (S (length (pending p))) r;
                  ProfileAnswer (length (pending p)) (Answered true (Some (Some u)))] p in
  str_truthy (access_token g) = true ->
  same_token (token (ctx p)) (Some (access_token g)) = false ->
  stores_user r = false ->
  user (ctx p') = Some u /\ token (ctx p') = None /\ authToken (ctx p') = None /\
  loading (ctx p') = false /\
  ProtectedRoute (ctx p') = Children /\
  ws (mount now (token (ctx p'))) = None /\
  pending p' = pending p /\
  returned p' = returned p ++ [Succeeded].
Proof.
  intros p' Ht Hn Hr. unfold p'.
  change (provider_run [submit form email password fullName;
                        GrantAnswer (length (pending p)) (Answered true (Some g));
                        ProfileAnswer (S (length (pending p))) r;
                        ProfileAnswer (length (pending p)) (Answered true (Some (Some u)))] p)
    with (provider_step (ProfileAnswer (length (pending p)) (Answered true (Some (Some u))))
            (provider_step (ProfileAnswer (S (length (pending p))) r)
               (provider_run [submit form email password fullName;
                              GrantAnswer (length (pending p)) (Answered true (Some g))] p))).
  rewrite (granted form email password fullName g p Ht), Hn.
  match goal with |- context [provider_step (ProfileAnswer (S _) r) ?Q] =>
    assert (H1 : provider_step (ProfileAnswer (S (length (pending p))) r) Q =
                 {| ctx := setLoading false
                             (logged_out (setToken (Some (access_token g))
                                            (setItem (access_token g) (ctx p))));
                    pending := pending p ++ [AwaitProfile true];
                    fetched := fetched Q;
                    returned := returned p |})
  end.
  { unfold provider_step. cbn [pending ctx].
    rewrite nth_error_after2. unfold set_pending, set_ctx, returns, provider_commit.
    cbn [pending ctx fetched returned token setToken setItem].
    rewrite without_after2.
    assert (Hp : profile_reply r (setToken (Some (access_token g))
                                    (setItem (access_token g) (ctx p)))
                 = setLoading false
                     (logged_out (setToken (Some (access_token g))
                                    (setItem (access_token g) (ctx p))))).
    { destruct r as [|[] [x|]]; try reflexivity. discriminate. }
    rewrite Hp. reflexivity. }
  rewrite H1. clear H1.
  unfold provider_step. cbn [pending ctx].
  rewrite nth_error_last. cbn [pending ctx fetched returned set_pending].
  rewrite without_last. cbn. repeat split.
Qed.

(** X21. What the first render shows. Without a stored token no request
    is made and the guard shows the login screen at once. With one, the
    profile is requested with that token as bearer and the guard shows
    the spinner; the reply then decides: an ok response carrying a user
    shows the application, anything else shows the login screen with
    token and stored token cleared. *)
Theorem first_render_routes (savedToken : option string) (r : Response (option string)) :
  let p := AuthProvider savedToken in
  let p' := provider_step (ProfileAnswer 0 r) p in
  match truthy_string savedToken with
  | None =>
    fetched p = [] /\ pending p = [] /\ ProtectedRoute (ctx p) = LoginScreen /\ p' = p
  | Some t =>
    fetched p = [GetProfile ("Bearer " ++ t)] /\
    ProtectedRoute (ctx p) = Spinner /\
    pending p' = [] /\
    match r with
    | Answered true (Some (Some userData)) =>
      ProtectedRoute (ctx p') = Children /\ user (ctx p') = Some userData /\
      token (ctx p') = savedToken /\ fetched p' = fetched p
    | _ =>
      ProtectedRoute (ctx p') = LoginScreen /\
      (stores_user r = true \/ (token (ctx p') = None /\ authToken (ctx p') = None))
    end
  end.
Proof.
  intros p p'. unfold p', p, AuthProvider, token_effect. cbn [ctx token].
  destruct (truthy_string savedToken) as [t|] eqn:E.
  - assert (Hs : savedToken = Some t /\ str_truthy t = true).
    { destruct savedToken as [s|]; [|discriminate]. cbn in E.
      destruct (str_truthy s) eqn:Es; [|discriminate]. injection E as ->. auto. }
    destruct Hs as [-> Ht].
    unfold fetchUserProfile. cbn [ctx pending fetched authToken].
    rewrite (authorization_stored _ _ Ht).
    split; [reflexivity|]. split; [reflexivity|].
    unfold provider_step, provider_commit. cbn [pending ctx nth_error token].
    destruct r as [|[] [[x|]|]]; cbn; rewrite ?String.eqb_refl; cbn; auto.
  - unfold provider_step, provider_commit. cbn. rewrite same_token_refl. auto.
Qed.

(** * The page between commits *)

(** ** A handler that holds stale flags *)

(** What a message handler leaves, in terms of the flags its closure
    holds: a handler installed while measuring sees the page either
    still measuring or taken to the countdown by a message before it. *)
Lemma onmessage_keeps (im idr : bool) (now : Z) (p : Payload) (w : World) :
  page_ok (comp w) ->
  (im = true ->
   idr = false /\
   (isMeasuring (comp w) = true /\ isDistanceReached (comp w) = false \/
    isMeasuring (comp w) = false /\ showCountdown (comp w) = true /\
    isDistanceReached (comp w) = true)) ->
  page_ok (comp (world_of (onmessage im idr now p w))) /\
  (im = true ->
   isMeasuring (comp (world_of (onmessage im idr now p w))) = true /\
   isDistanceReached (comp (world_of (onmessage im idr now p w))) = false \/
   isMeasuring (comp (world_of (onmessage im idr now p w))) = false /\
   showCountdown (comp (world_of (onmessage im idr now p w))) = true /\
   isDistanceReached (comp (world_of (onmessage im idr now p w))) = true) /\
  (im = false -> no_transition (comp w) (comp (world_of (onmessage im idr now p w)))) /\
  showCamera (comp (world_of (onmessage im idr now p w))) = showCamera (comp w) /\
  (isCalibrated (comp w) = true ->
   isCalibrated (comp (world_of (onmessage im idr now p w))) = true) /\
  (auth (world_of (onmessage im idr now p w)) = auth w \/
   auth (world_of (onmessage im idr now p w)) = logged_out (auth w)).
Proof.
  intros H Hc. destruct p as [raw|d].
  - assert (E : world_of (onmessage im idr now (Malformed raw) w) = w)
      by (destruct w; reflexivity).
    rewrite E. split; [exact H|]. split; [intros Hi; apply (Hc Hi)|].
    split; [intros _; apply no_transition_refl|]. auto.
  - destruct (onmessage_summary im idr w now d)
      as (a' & s' & -> & Ha & Hcg & Hcd & Hctf & _ & Hcam & _ & Hl & Hcase).
    cbn [world_of comp auth].
    assert (Hk : isCalibrating s' = true -> isCalibrated s' = false).
    { rewrite Hcg, Hcd. destruct (announces_calibration d); [discriminate|].
      apply (ok_calibration _ H). }
    assert (Hf : isCalibrated (comp w) = true -> isCalibrated s' = true).
    { rewrite Hcd. destruct (announces_calibration d); trivial. }
    destruct (fires im idr (comp w) d) eqn:Hfire.
    + unfold fires in Hfire. rewrite !andb_true_iff in Hfire.
      destruct Hfire as ((((Him & _) & _) & _) & _).
      destruct (Hc Him) as (_ & Hstate).
      assert (Hlt : showLandoltTest (comp w) = false).
      { destruct Hstate as [[Hm _]|(_ & Hs & _)];
          [apply (ok_measuring _ H Hm)|apply (ok_overlay _ H Hs)]. }
      assert (Hcal : isCalibrated (comp w) = true).
      { apply (ok_calibrated _ H).
        destruct Hstate as [[Hm _]|(_ & _ & Hr)]; [left|right]; assumption. }
      split; [apply (page_ok_countdown_started (comp w)); auto|].
      destruct Hcase as (E1 & E2 & E3 & _).
      split; [intros _; right; auto|].
      split; [intros Hx; congruence|]. auto.
    + destruct Hcase as (A1 & A2 & A3 & A4 & A5 & A6 & A7 & A8 & A9 & A10).
      split.
      * apply (page_ok_same_cycle (comp w)); [exact H|repeat split; assumption| |exact Hk|].
        -- rewrite A1. intros Hm. destruct (ok_measuring _ H Hm) as (Hr & _ & _ & Hlt).
           rewrite Hctf. destruct im.
           ++ destruct (Hc eq_refl) as (-> & _).
              unfold fires in Hfire. cbn in Hfire. rewrite andb_true_r.
              destruct (carries_face d); cbn in *; [|exact Hlt].
              destruct (truthy_bool (at_target_distance d)); cbn in *; [|lia].
              apply Nat.leb_gt in Hfire. lia.
           ++ rewrite andb_false_r. exact Hlt.
        -- rewrite A1, A2. intros Hx. apply Hf, (ok_calibrated _ H Hx).
      * split; [intros Hi; rewrite A1, A2, A3; apply (Hc Hi)|].
        split; [intros _; repeat split; assumption|]. auto.
Qed.

Lemma handle_all_keeps (im idr : bool) (messages : list (Z * Payload)) :
  forall w : World,
    page_ok (comp w) ->
    (im = true ->
     idr = false /\
     (isMeasuring (comp w) = true /\ isDistanceReached (comp w) = false \/
      isMeasuring (comp w) = false /\ showCountdown (comp w) = true /\
      isDistanceReached (comp w) = true)) ->
    page_ok (comp (handle_all im idr messages w)) /\
    (im = true ->
     isMeasuring (comp (handle_all im idr messages w)) = true /\
     isDistanceReached (comp (handle_all im idr messages w)) = false \/
     isMeasuring (comp (handle_all im idr messages w)) = false /\
     showCountdown (comp (handle_all im idr messages w)) = true /\
     isDistanceReached (comp (handle_all im idr messages w)) = true) /\
    (im = false -> no_transition (comp w) (comp (handle_all im idr messages w))) /\
    showCamera (comp (handle_all im idr messages w)) = showCamera (comp w) /\
    (isCalibrated (comp w) = true ->
     isCalibrated (comp (handle_all im idr messages w)) = true) /\
    (auth (handle_all im idr messages w) = auth w \/
     auth (handle_all im idr messages w) = logged_out (auth w)).
Proof.
  induction messages as [|[now p] rest IH]; intros w H Hc; cbn [handle_all].
  - split; [exact H|]. split; [intros Hi; apply (Hc Hi)|].
    split; [intros _; apply no_transition_refl|]. auto.
  - destruct (onmessage_keeps im idr now p w H Hc) as (B1 & B2 & B3 & B4 & B5 & B6).
    destruct (IH (world_of (onmessage im idr now p w)) B1) as (C1 & C2 & C3 & C4 & C5 & C6).
    { intros Hi. split; [apply (Hc Hi)|apply (B2 Hi)]. }
    split; [exact C1|]. split; [exact C2|].
    split; [intros Hi; eapply no_transition_trans; [apply (B3 Hi)|apply (C3 Hi)]|].
    split; [congruence|]. split; [auto|].
    destruct C6 as [-> | ->]; destruct B6 as [-> | ->]; auto.
Qed.

(** ** The handlers of an occurrence and the commit *)

Lemma onerror_leaves (error : string) (w : World) :
  onerror error w =
  Ret tt {| auth := auth w;
            comp := setStatusMessage
                      "⚠️ Error connecting to server. Check if backend is running on port 8000."
                      (set_console (console (comp w) ++ ["WebSocket Error: " ++ error]%string)
                         (comp w)) |}.
Proof. destruct w as [a s]; destruct s; reflexivity. Qed.

Lemma settle_keeps (before : State) (tok : option string) (s : State) :
  same_cycle s (settle before tok s) /\
  same_calibration s (settle before tok s) /\
  showCamera (settle before tok s) = showCamera s /\
  sent (settle before tok s) = sent s /\
  frameCountRef (settle before tok s) = frameCountRef s /\
  framesSinceLastFace (settle before tok s) = framesSinceLastFace s.
Proof.
  unfold settle.
  destruct (Bool.eqb (isMeasuring before) (isMeasuring s)
            && Bool.eqb (isDistanceReached before) (isDistanceReached s)).
  - repeat split.
  - unfold reconnect, connect. destruct (truthy_string tok); destruct s; repeat split.
Qed.

Lemma onmessage_auth (im idr : bool) (now : Z) (p : Payload) (w : World) :
  auth (world_of (onmessage im idr now p w)) = auth w \/
  auth (world_of (onmessage im idr now p w)) = logged_out (auth w).
Proof.
  destruct p as [raw|d]; [left; destruct w; reflexivity|].
  destruct (onmessage_summary im idr w now d) as (a' & s' & -> & Ha & _). exact Ha.
Qed.

Lemma handle_all_auth (im idr : bool) (messages : list (Z * Payload)) :
  forall w : World,
    auth (handle_all im idr messages w) = auth w \/
    auth (handle_all im idr messages w) = logged_out (auth w).
Proof.
  induction messages as [|[now p] rest IH]; intros w; cbn [handle_all]; [auto|].
  destruct (IH (world_of (onmessage im idr now p w))) as [-> | ->];
    destruct (onmessage_auth im idr now p w) as [-> | ->]; auto.
Qed.

Lemma step_auth (e : Event) (w : World) :
  auth (step e w) = auth w \/ auth (step e w) = logged_out (auth w).
Proof.
  destruct e as [now p|now shot id|b shot|r].
  - cbn [step]. unfold deliver. apply onmessage_auth.
  - left. rewrite step_due. reflexivity.
  - left. rewrite step_press. reflexivity.
  - left. reflexivity.
Qed.

(** What the handlers of an occurrence keep. *)
Lemma handle_keeps (o : Occurrence) (w : World) :
  page_ok (comp w) ->
  page_ok (comp (handle o w)) /\
  (showCamera (comp w) = true -> showCamera (comp (handle o w)) = true) /\
  (isCalibrated (comp w) = true -> isCalibrated (comp (handle o w)) = true) /\
  (auth (handle o w) = auth w \/ auth (handle o w) = logged_out (auth w)).
Proof.
  intros H. destruct o as [e|messages|error|]; cbn [handle].
  - split; [apply page_ok_step, H|].
    destruct (step_camera e w) as (S1 & S2 & _).
    split; [exact S2|]. split; [exact S1|]. apply step_auth.
  - destruct (handle_all_keeps (isMeasuring (comp w)) (isDistanceReached (comp w))
                messages w H) as (A1 & _ & _ & A4 & A5 & A6).
    { intros Hm. destruct (ok_measuring _ H Hm) as (Hr & _). auto. }
    split; [exact A1|]. split; [congruence|]. auto.
  - rewrite onerror_leaves. cbn [world_of comp auth].
    split; [|destruct (comp w); auto].
    apply (page_ok_quiet (comp w)); [exact H| |]; destruct (comp w); repeat split.
  - destruct (isAuthenticated (auth w)); [|auto].
    rewrite logout_writes. cbn [world_of comp auth]. auto.
Qed.

Lemma route_logged_out (a : Auth) : ProtectedRoute (logged_out a) <> Children.
Proof. unfold ProtectedRoute. cbn. destruct (loading a); discriminate. Qed.

(** The commit keeps the component only under an unchanged
    authentication context. *)
Lemma happen_mounted (o : Occurrence) (pg : Page) (s s' : State) :
  face pg = Some s -> face (happen o pg) = Some s' ->
  provider (happen o pg) = provider pg /\
  s' = settle s (token (provider pg)) (comp (handle o {| auth := provider pg; comp := s |})).
Proof.
  intros Hs. unfold happen. rewrite Hs. unfold rendered.
  destruct (ProtectedRoute (auth (handle o {| auth := provider pg; comp := s |}))) eqn:E;
    cbn; try discriminate.
  intros Hs'. injection Hs' as <-.
  assert (Ha : auth (handle o {| auth := provider pg; comp := s |}) = provider pg).
  { destruct o as [e|messages|error|]; cbn [handle] in *.
    - destruct (step_auth e {| auth := provider pg; comp := s |}) as [Hx|Hx];
        [exact Hx|]. rewrite Hx in E. destruct (route_logged_out _ E).
    - cbn [comp] in *.
      destruct (handle_all_auth (isMeasuring s) (isDistanceReached s) messages
                  {| auth := provider pg; comp := s |}) as [Hx|Hx]; [exact Hx|].
      rewrite Hx in E. destruct (route_logged_out _ E).
    - rewrite onerror_leaves. reflexivity.
    - cbn [auth] in *. destruct (isAuthenticated (provider pg)); [|reflexivity].
      rewrite logout_writes in E. cbn in E. destruct (route_logged_out _ E). }
  split; [exact Ha|]. rewrite Ha. reflexivity.
Qed.

(** ** Runs of occurrences *)

Lemma happen_ok (o : Occurrence) (pg : Page) (s s' : State) :
  face pg = Some s -> page_ok s -> face (happen o pg) = Some s' ->
  page_ok s' /\
  (showCamera s = true -> showCamera s' = true) /\
  (isCalibrated s = true -> isCalibrated s' = true).
Proof.
  intros Hs H Hs'. destruct (happen_mounted o pg s s' Hs Hs') as [_ ->].
  destruct (handle_keeps o {| auth := provider pg; comp := s |} H) as (A1 & A2 & A3 & _).
  match goal with |- context [settle s ?T ?S1] =>
    destruct (settle_keeps s T S1) as (B1 & B2 & B3 & _) end.
  cbn [comp] in *.
  split; [eapply page_ok_quiet; eassumption|].
  destruct B2 as (_ & B2 & _). rewrite B3, B2. auto.
Qed.

Lemma browse_gone (occurrences : list Occurrence) (pg : Page) :
  face pg = None -> face (browse occurrences pg) = None.
Proof.
  revert pg. induction occurrences as [|o rest IH]; intros pg H; cbn; [exact H|].
  apply IH. unfold happen. rewrite H. exact H.
Qed.

Lemma browse_ok (occurrences : list Occurrence) (pg : Page) (s s' : State) :
  face pg = Some s -> page_ok s -> face (browse occurrences pg) = Some s' ->
  page_ok s' /\
  (showCamera s = true -> showCamera s' = true) /\
  (isCalibrated s = true -> isCalibrated s' = true).
Proof.
  revert pg s. induction occurrences as [|o rest IH]; intros pg s Hs H Hs'; cbn in Hs'.
  - assert (s' = s) by congruence. subst s'. auto.
  - destruct (face (happen o pg)) as [s1|] eqn:E.
    + destruct (happen_ok o pg s s1 Hs H E) as (A1 & A2 & A3).
      destruct (IH (happen o pg) s1 E A1 Hs') as (B1 & B2 & B3). auto.
    + rewrite (browse_gone rest _ E) in Hs'. discriminate.
Qed.

Lemma first_commit_ok (a : Auth) (now : Z) (s : State) :
  face (commit now a None) = Some s -> page_ok s.
Proof.
  unfold commit. destruct (ProtectedRoute a); cbn; try discriminate.
  intros E. injection E as <-. apply page_ok_mount.
Qed.

Lemma visit_ok (a : Auth) (now : Z) (occurrences : list Occurrence) (s : State) :
  face (visit a now occurrences) = Some s -> page_ok s.
Proof.
  unfold visit. intros Hs.
  destruct (face (commit now a None)) as [s0|] eqn:E.
  - apply (browse_ok occurrences _ s0 s E (first_commit_ok a now s0 E) Hs).
  - rewrite (browse_gone occurrences _ E) in Hs. discriminate.
Qed.

Lemma browse_app (xs ys : list Occurrence) (pg : Page) :
  browse (xs ++ ys) pg = browse ys (browse xs pg).
Proof. revert pg. induction xs as [|o xs IH]; intros pg; cbn; [reflexivity|apply IH]. Qed.

(** X13. The invariants of the page survive messages handled ahead of
    the commit, socket errors and the commit itself. After any run of
    occurrences from the first commit, a component that is still
    mounted has at most one of measuring, countdown and vision test on,
    its streak below 15 while measuring, its countdown display within
    1..5 while it shows, calibrating and calibrated exclusive, and
    exactly the one interval its phase needs. *)
Theorem mounted_page_keeps_its_invariants
    (a : Auth) (now : Z) (occurrences : list Occurrence) :
  match face (visit a now occurrences) with
  | Some s =>
    isMeasuring s && (isDistanceReached s || showCountdown s || showLandoltTest s) = false /\
    showCountdown s && showLandoltTest s = false /\
    (isMeasuring s = false \/ consecutiveTargetFrames s < 15) /\
    (showCountdown s = false \/ 1 <= countdownValue s <= 5) /\
    isCalibrating s && isCalibrated s = false /\
    (isMeasuring s || isDistanceReached s) && negb (isCalibrated s) = false /\
    senders s = (if isMeasuring s then 1 else 0) /\
    countdowns s = (if showCountdown s then 1 else 0)
  | None => True
  end.
Proof.
  destruct (face (visit a now occurrences)) as [s|] eqn:E; [|exact I].
  pose proof (visit_ok a now occurrences s E) as H.
  pose proof (senders_ok s H) as Hs. pose proof (countdowns_ok s H) as Hc.
  destruct H as [F N R Sch Id M C Cg O K Kd].
  repeat split; try assumption.
  - destruct (isMeasuring s); [|reflexivity].
    destruct (M eq_refl) as (-> & -> & -> & _). reflexivity.
  - destruct (showCountdown s); [|reflexivity]. rewrite (O eq_refl). reflexivity.
  - destruct (isMeasuring s); [right|left; reflexivity]. apply (M eq_refl).
  - destruct (showCountdown s); [right|left; reflexivity].
    destruct (Cg eq_refl) as (id & _ & Hin). apply (C id Hin).
  - destruct (isCalibrating s); [|reflexivity]. rewrite (K eq_refl). reflexivity.
  - destruct (isMeasuring s) eqn:Hm; cbn.
    + rewrite Kd; auto.
    + destruct (isDistanceReached s); [|reflexivity]. rewrite Kd; auto.
Qed.

(** X6. While the component stays mounted, calibration cannot be
    undone and the camera cannot be hidden: over every run of
    occurrences after which it is still mounted, a calibrated page is
    still calibrated and a shown camera is still shown. An unmount (an
    authentication error, the Logout button) discards both with the
    rest of the state, and none of these occurrences mounts the
    component again. *)
Theorem calibration_and_camera_last_while_mounted
    (a : Auth) (now : Z) (occurrences more : list Occurrence) :
  match face (visit a now occurrences), face (browse more (visit a now occurrences)) with
  | Some s, Some s' =>
    implb (isCalibrated s) (isCalibrated s') = true /\
    implb (showCamera s) (showCamera s') = true
  | None, Some _ => False
  | _, None => True
  end.
Proof.
  destruct (face (visit a now occurrences)) as [s|] eqn:E.
  - destruct (face (browse more (visit a now occurrences))) as [s'|] eqn:E'; [|exact I].
    destruct (browse_ok more _ s s' E (visit_ok a now occurrences s E) E') as (_ & A & B).
    split.
    + destruct (isCalibrated s); [apply B; reflexivity|reflexivity].
    + destruct (showCamera s); [apply A; reflexivity|reflexivity].
  - rewrite (browse_gone more _ E). exact I.
Qed.

(** ** The countdown on the page *)

Lemma same_cycle_trans (s1 s2 s3 : State) :
  same_cycle s1 s2 -> same_cycle s2 s3 -> same_cycle s1 s3.
Proof.
  unfold same_cycle.
  intros (A1 & A2 & A3 & A4 & A5 & A6 & A7 & A8 & A9)
         (B1 & B2 & B3 & B4 & B5 & B6 & B7 & B8 & B9).
  repeat split; congruence.
Qed.

Lemma no_transition_same_cycle (s s' : State) : no_transition s s' -> same_cycle s s'.
Proof.
  unfold no_transition, same_cycle.
  intros (A1 & A2 & A3 & A4 & A5 & A6 & A7 & A8 & A9 & A10). repeat split; assumption.
Qed.

Lemma first_commit_route (a : Auth) (now : Z) (s : State) :
  face (commit now a None) = Some s -> ProtectedRoute (provider (commit now a None)) = Children.
Proof.
  unfold commit. destruct (ProtectedRoute a) eqn:E; cbn; try discriminate. auto.
Qed.

Lemma browse_route (occurrences : list Occurrence) (pg : Page) (s' : State) :
  (forall s, face pg = Some s -> ProtectedRoute (provider pg) = Children) ->
  face (browse occurrences pg) = Some s' ->
  ProtectedRoute (provider (browse occurrences pg)) = Children.
Proof.
  revert pg. induction occurrences as [|o rest IH]; intros pg H Hs'; cbn in *.
  - apply (H s' Hs').
  - apply IH; [|exact Hs']. intros s1 Hs1.
    destruct (face pg) as [s|] eqn:E.
    + destruct (happen_mounted o pg s s1 E Hs1) as [-> _]. apply (H s eq_refl).
    + unfold happen in Hs1. rewrite E in Hs1. congruence.
Qed.

Lemma visit_route (a : Auth) (now : Z) (occurrences : list Occurrence) (s : State) :
  face (visit a now occurrences) = Some s ->
  ProtectedRoute (provider (visit a now occurrences)) = Children.
Proof.
  unfold visit. apply browse_route. intros s0. apply first_commit_route.
Qed.

(** An occurrence whose handlers leave the authentication context alone
    leaves the component mounted. *)
Lemma happen_stays (o : Occurrence) (pg : Page) (s : State) :
  face pg = Some s -> ProtectedRoute (provider pg) = Children ->
  auth (handle o {| auth := provider pg; comp := s |}) = provider pg ->
  face (happen o pg) =
  Some (settle s (token (provider pg)) (comp (handle o {| auth := provider pg; comp := s |}))).
Proof.
  intros Hs Hr Ha. unfold happen, rendered. rewrite Hs, Ha, Hr. reflexivity.
Qed.

Lemma counting_happen_other (o : Occurrence) (pg : Page) (s s' : State) (id : positive) :
  face pg = Some s -> page_ok s -> showCountdown s = true ->
  countdownTimerRef s = Some id -> ticks_in id [o] = 0 ->
  face (happen o pg) = Some s' ->
  same_cycle s s'.
Proof.
  intros Hs H Hc Hr Hz Hs'. destruct (happen_mounted o pg s s' Hs Hs') as [_ ->].
  match goal with |- context [settle s ?T ?S1] =>
    destruct (settle_keeps s T S1) as (B1 & _) end.
  eapply same_cycle_trans; [|exact B1]. clear B1.
  destruct o as [e|messages|error|]; cbn [handle].
  - apply (counting_step_other e id {| auth := provider pg; comp := s |} H Hc Hr).
    destruct e as [? ?|? ? i|? ?|?]; cbn in *; try reflexivity. exact Hz.
  - cbn [comp]. rewrite (not_measuring_while_counting s H Hc).
    apply no_transition_same_cycle.
    apply (handle_all_keeps false (isDistanceReached s) messages
             {| auth := provider pg; comp := s |} H); [discriminate|reflexivity].
  - rewrite onerror_leaves. cbn. destruct s; repeat split.
  - cbn [auth]. destruct (isAuthenticated (provider pg)); [|apply same_cycle_refl].
    rewrite logout_writes. cbn. apply same_cycle_refl.
Qed.

Lemma counting_happen_own (now : Z) (shot : option string) (id : positive) (pg : Page)
    (s : State) :
  face pg = Some s -> ProtectedRoute (provider pg) = Children -> page_ok s ->
  showCountdown s = true -> countdownTimerRef s = Some id ->
  exists s', face (happen (Plain (Due now shot id)) pg) = Some s' /\ same_cycle (ticked s) s'.
Proof.
  intros Hs Hroute H Hc Hr.
  rewrite (happen_stays _ pg s Hs Hroute); [|cbn [handle]; rewrite step_due; reflexivity].
  eexists. split; [reflexivity|]. cbn [handle].
  rewrite (counting_step_own now shot id {| auth := provider pg; comp := s |} H Hc Hr).
  cbn [comp]. apply settle_keeps.
Qed.

Lemma counting_browse (id : positive) (more : list Occurrence) :
  forall (pg : Page) (s s' : State),
    face pg = Some s -> ProtectedRoute (provider pg) = Children -> page_ok s ->
    showCountdown s = true -> countdownTimerRef s = Some id ->
    ticks_in id more < countdownValue s ->
    face (browse more pg) = Some s' ->
    showCountdown s' = true /\ countdownTimerRef s' = Some id /\
    countdownValue s' = countdownValue s - ticks_in id more.
Proof.
  induction more as [|o rest IH]; intros pg s s' Hs Hroute H Hc Hr Hlt Hs'; cbn [browse] in Hs'.
  - assert (s' = s) by congruence. subst s'. cbn. repeat split; auto. lia.
  - destruct (face (happen o pg)) as [s1|] eqn:E;
      [|rewrite (browse_gone rest _ E) in Hs'; discriminate].
    destruct (happen_mounted o pg s s1 Hs E) as [Hp _].
    destruct (happen_ok o pg s s1 Hs H E) as (H1 & _).
    assert (Hroute1 : ProtectedRoute (provider (happen o pg)) = Children) by congruence.
    destruct (Nat.eq_dec (ticks_in id [o]) 0) as [Hz|Hnz].
    + destruct (counting_happen_other o pg s s1 id Hs H Hc Hr Hz E)
        as (_ & _ & _ & E4 & _ & _ & E7 & _ & E9).
      assert (Hd : ticks_in id (o :: rest) = ticks_in id rest).
      { destruct o as [[? ?|? ? i|? ?|?]|?|?|]; cbn in *; try reflexivity.
        destruct (Pos.eqb i id); [discriminate|reflexivity]. }
      rewrite Hd in *.
      destruct (IH (happen o pg) s1 s' E Hroute1 H1) as (A & B & C); try congruence.
      repeat split; congruence.
    + destruct o as [[? ?|n sh i|? ?|?]|?|?|]; try (exfalso; apply Hnz; reflexivity).
      cbn in Hnz, Hlt. destruct (Pos.eqb i id) eqn:Ei; [|exfalso; apply Hnz; reflexivity].
      apply Pos.eqb_eq in Ei. subst i.
      destruct (counting_happen_own n sh id pg s Hs Hroute H Hc Hr) as (s2 & E2 & Hcy).
      assert (s2 = s1) by congruence. subst s2.
      destruct (ticked_goes_on s) as [_ Ht]; [lia|]. rewrite Ht in Hcy.
      destruct Hcy as (_ & _ & _ & E4 & _ & _ & E7 & _ & E9).
      assert (Hc1 : showCountdown s1 = true) by (rewrite E7; destruct s; exact Hc).
      assert (Hr1 : countdownTimerRef s1 = Some id) by (rewrite E4; destruct s; exact Hr).
      assert (Hv1 : countdownValue s1 = countdownValue s - 1)
        by (rewrite E9; destruct s; reflexivity).
      destruct (IH (happen (Plain (Due n sh id)) pg) s1 s' E Hroute1 H1 Hc1 Hr1)
        as (A & B & C); [lia|exact Hs'|].
      split; [exact A|]. split; [exact B|].
      rewrite C, Hv1. cbn [ticks_in]. rewrite Pos.eqb_refl. lia.
Qed.

(** X9. Once the commit that starts the countdown has run, nothing but
    the countdown's own interval advances it and nothing but an unmount
    interrupts it. From a page of a visit on which the countdown shows,
    any run of occurrences (single messages and bursts, clicks, socket
    changes and errors, other intervals) in which the countdown's
    interval comes due fewer times than the number displayed either
    unmounts the component or leaves the countdown on, showing the
    number less those ticks, with measuring and vision test off and
    that interval the only one live; the tick at 1 then shows the
    vision test and leaves no interval. *)
Theorem countdown_runs_undisturbed
    (a : Auth) (now : Z) (occurrences more : list Occurrence) (id : positive)
    (now' : Z) (shot : option string) (s : State) :
  let pg := visit a now occurrences in
  face pg = Some s ->
  showCountdown s = true ->
  countdownTimerRef s = Some id ->
  ticks_in id more < countdownValue s ->
  match face (browse more pg) with
  | None => True
  | Some s' =>
    showCountdown s' = true /\
    countdownValue s' = countdownValue s - ticks_in id more /\
    showLandoltTest s' = false /\ isMeasuring s' = false /\
    timers s' = [(id, CbCountdown)] /\
    match face (happen (Plain (Due now' shot id)) (browse more pg)) with
    | Some s'' =>
      if (countdownValue s' <=? 1)%nat
      then showLandoltTest s'' = true /\ showCountdown s'' = false /\ timers s'' = []
      else showCountdown s'' = true /\ countdownValue s'' = countdownValue s' - 1
    | None => False
    end
  end.
Proof.
  intros pg Hs Hc Hr Hlt.
  destruct (face (browse more pg)) as [s'|] eqn:E; [|exact I].
  pose proof (visit_ok a now occurrences s Hs) as H.
  pose proof (visit_route a now occurrences s Hs) as Hroute.
  destruct (counting_browse id more pg s s' Hs Hroute H Hc Hr Hlt E) as (A & B & C).
  destruct (browse_ok more pg s s' Hs H E) as (H' & _).
  assert (Hroute' : ProtectedRoute (provider (browse more pg)) = Children).
  { apply (browse_route more pg s'); [intros s0 _; exact Hroute|exact E]. }
  pose proof (counting_timers s' id H' A B) as Ht.
  split; [exact A|]. split; [exact C|].
  split; [apply (ok_overlay _ H' A)|].
  split; [apply (not_measuring_while_counting _ H' A)|].
  split; [exact Ht|].
  destruct (counting_happen_own now' shot id (browse more pg) s' E Hroute' H' A B)
    as (s'' & -> & (E1 & _ & _ & _ & _ & _ & E7 & E8 & E9)).
  rewrite E1, E7, E8, E9. unfold ticked.
  destruct (countdownValue s' <=? 1)%nat.
  - rewrite B, Ht. cbn. rewrite Pos.eqb_refl. destruct s'; cbn. auto.
  - destruct s'; cbn in *. auto.
Qed.

(** ** The cycle as a state machine *)

Lemma page_phase_settle (before : State) (tok : option string) (s : State) :
  phase (settle before tok s) = phase s.
Proof.
  destruct (settle_keeps before tok s) as ((_ & _ & _ & _ & E5 & _ & E7 & E8 & _) & _).
  apply phase_same; assumption.
Qed.

(** X14. The measuring cycle is a state machine. In every visit an
    occurrence either leaves the phase of the page (resting, measuring,
    counting down, testing, or not mounted) as it is, or it is one of
    these moves: a click on a measure button starts measuring from
    rest; a click on Stop Measuring or an interval coming due ends
    measuring; a message, or a burst of messages, takes measuring to
    the countdown; an interval coming due takes the countdown to the
    vision test; a click on the test's close control returns to rest;
    and from any phase a message, a burst or a click on Logout unmounts
    the component. *)
Theorem phase_changes_only_by_its_moves
    (a : Auth) (now : Z) (occurrences : list Occurrence) (o : Occurrence) :
  let pg := visit a now occurrences in
  page_phase (happen o pg) = page_phase pg \/
  page_moves (page_phase pg) o (page_phase (happen o pg)) = true.
Proof.
  intros pg. unfold page_phase.
  destruct (face pg) as [s|] eqn:Hs;
    [|left; unfold happen; rewrite Hs; cbn; rewrite Hs; reflexivity].
  pose proof (visit_ok a now occurrences s Hs) as H.
  pose proof (visit_route a now occurrences s Hs) as Hroute. fold pg in Hroute.
  destruct (face (happen o pg)) as [s'|] eqn:Hs'.
  - destruct (happen_mounted o pg s s' Hs Hs') as [_ ->].
    rewrite page_phase_settle.
    destruct o as [e|messages|error|]; cbn [handle].
    + destruct (phase_step e {| auth := provider pg; comp := s |} H) as [Hp|Hp];
        cbn [comp] in Hp; [left; congruence|right].
      cbn [comp]. destruct (phase s), e; exact Hp.
    + cbn [comp].
      destruct (handle_all_keeps (isMeasuring s) (isDistanceReached s) messages
                  {| auth := provider pg; comp := s |} H) as (_ & A2 & A3 & _).
      { intros Hm. destruct (ok_measuring _ H Hm) as (Hr & _). auto. }
      cbn [comp] in *. destruct (isMeasuring s) eqn:Hm.
      * rewrite (phase_measuring s Hm).
        destruct (A2 eq_refl) as [[Hm' _]|(Hm' & Hc' & _)].
        -- left. rewrite (phase_measuring _ Hm'). reflexivity.
        -- right. unfold phase. rewrite Hm', Hc'. reflexivity.
      * left. destruct (A3 eq_refl) as (E1 & _ & E3 & _ & E5 & _).
        f_equal. apply phase_same; congruence.
    + left. rewrite onerror_leaves. reflexivity.
    + left. cbn [auth]. destruct (isAuthenticated (provider pg)); [|reflexivity].
      rewrite logout_writes. reflexivity.
  - assert (Hgone : match o with
                    | Plain (Message _ _) | Burst _ | SignOut => True
                    | _ => False
                    end);
      [|right; destruct (phase s), o as [[? ?|? ? ?|? ?|?]|?|?|];
        try reflexivity; contradiction].
    destruct o as [[t p|t shot id|b shot|r]|messages|error|]; try exact I.
    + rewrite (happen_stays _ pg s Hs Hroute) in Hs'; [discriminate|].
      cbn [handle]. rewrite step_due. reflexivity.
    + rewrite (happen_stays _ pg s Hs Hroute) in Hs'; [discriminate|].
      cbn [handle]. rewrite step_press. reflexivity.
    + rewrite (happen_stays _ pg s Hs Hroute) in Hs'; [discriminate|]. reflexivity.
    + rewrite (happen_stays _ pg s Hs Hroute) in Hs'; [discriminate|].
      cbn [handle]. rewrite onerror_leaves. reflexivity.
Qed.

(** ** The handler ahead of its commit *)

(** X22. The guard [!isDistanceReached] of the transition reads the
    handler's closure, not the state. A message handler installed while
    measuring, before the target was reached, takes the transition on
    every at-target face frame it handles once the streak counter is at
    14 or more, whatever the state says by then: also right after the
    transition, before the commit has replaced the handler, it runs
    [startCountdown] again, which writes [stop_all] to an open socket
    once more, clears the countdown interval just registered, registers
    a fresh one and puts the display back to 5, while the counter goes
    on counting. *)
Theorem stale_handler_restarts_countdown (w : World) (now : Z) (d : Data) :
  carries_face d = true ->
  truthy_bool (at_target_distance d) = true ->
  14 <= consecutiveTargetFrames (comp w) ->
  let s' := comp (world_of (onmessage true false now (Json d) w)) in
  countdown_started (comp w) s' /\
  consecutiveTargetFrames s' = S (consecutiveTargetFrames (comp w)).
Proof.
  intros Hf Ht Hn s'.
  destruct (onmessage_summary true false w now d)
    as (a' & s1 & E & _ & _ & _ & Hc & _ & _ & _ & _ & Hfire).
  assert (Hs : s' = s1) by (unfold s'; rewrite E; reflexivity).
  rewrite Hs. unfold fires in Hfire. rewrite Hf, Ht in Hfire, Hc. cbn [andb negb] in Hfire, Hc.
  assert (Hle : (15 <=? S (consecutiveTargetFrames (comp w)))%nat = true)
    by (apply Nat.leb_le; lia).
  rewrite Hle in Hfire. split; [exact Hfire|exact Hc].
Qed.

(** ** Instances on the sample sessions *)

(** The server announces a calibration before any click; a measurement
    is then started and its interval comes due. *)
Lemma calibrated_without_camera_witness :
  isCalibrated (comp (session Examples.signed_in 0 Scenes.unasked)) = true /\
  showCamera (comp (session Examples.signed_in 0 Scenes.unasked)) = false /\
  frames_in
    (sent (comp (run [Press MeasureDistance None; Due 2000 Scenes.shot 1]
                   (session Examples.signed_in 0 Scenes.unasked)))) =
  frames_in (sent (comp (session Examples.signed_in 0 Scenes.unasked))).
Proof.
  assert (Hk : isCalibrated (comp (session Examples.signed_in 0 Scenes.unasked)) = true)
    by (vm_compute; reflexivity).
  assert (Hc : showCamera (comp (session Examples.signed_in 0 Scenes.unasked)) = false)
    by (vm_compute; reflexivity).
  split; [exact Hk|]. split; [exact Hc|].
  exact (proj1 (proj2 (calibrated_without_camera_sends_no_frame
                         [Press MeasureDistance None; Due 2000 Scenes.shot 1]
                         (session Examples.signed_in 0 Scenes.unasked) Hk Hc))).
Defined.

(** The first measurement of the sample session: late frames and a
    socket that closes. *)
Lemma first_measurement_witness :
  shows (comp (session Examples.signed_in 0 Scenes.calibrate)) MeasureDistance = true /\
  isDistanceReached (comp (session Examples.signed_in 0 Scenes.calibrate)) = false /\
  ws_is_open (comp (session Examples.signed_in 0 Scenes.calibrate)) = true /\
  isMeasuring
    (comp (run (Press MeasureDistance None
                  :: repeat (Due 99000 Scenes.shot 1) 20 ++ [Socket (Some CLOSED)])
             (session Examples.signed_in 0 Scenes.calibrate))) = true.
Proof.
  assert (Hs : shows (comp (session Examples.signed_in 0 Scenes.calibrate)) MeasureDistance
               = true) by (vm_compute; reflexivity).
  assert (Hr : isDistanceReached (comp (session Examples.signed_in 0 Scenes.calibrate))
               = false) by (vm_compute; reflexivity).
  assert (Ho : ws_is_open (comp (session Examples.signed_in 0 Scenes.calibrate)) = true)
    by (vm_compute; reflexivity).
  split; [exact Hs|]. split; [exact Hr|]. split; [exact Ho|].
  exact (proj1 (first_measurement_never_gives_up Examples.signed_in 0 Scenes.calibrate
                  (repeat (Due 99000 Scenes.shot 1) 20 ++ [Socket (Some CLOSED)]) None
                  Hs Hr Ho eq_refl)).
Defined.

(** Measure Again after the sample test, then eleven frames eight
    seconds after the last face. *)
Lemma repeated_measurement_witness :
  shows (comp (session Examples.signed_in 0 Scenes.tested)) MeasureAgain = true /\
  ws_is_open (comp (session Examples.signed_in 0 Scenes.tested)) = true /\
  showCamera (comp (session Examples.signed_in 0 Scenes.tested)) = true /\
  isMeasuring
    (comp (run (Press MeasureAgain None
                  :: frames_due (nextTimer (comp (session Examples.signed_in 0 Scenes.tested)))
                       (repeat (10000%Z, "data:image/jpeg;base64,BB") 11))
             (session Examples.signed_in 0 Scenes.tested))) = false.
Proof.
  assert (Hs : shows (comp (session Examples.signed_in 0 Scenes.tested)) MeasureAgain = true)
    by (vm_compute; reflexivity).
  assert (Ho : ws_is_open (comp (session Examples.signed_in 0 Scenes.tested)) = true)
    by (vm_compute; reflexivity).
  assert (Hc : showCamera (comp (session Examples.signed_in 0 Scenes.tested)) = true)
    by (vm_compute; reflexivity).
  assert (Hall : forallb (overdue (lastFaceDetected
                                     (comp (session Examples.signed_in 0 Scenes.tested))))
                   (repeat (10000%Z, "data:image/jpeg;base64,BB") 11) = true)
    by (vm_compute; reflexivity).
  split; [exact Hs|]. split; [exact Ho|]. split; [exact Hc|].
  exact (proj1 (repeated_measurement_gives_up Examples.signed_in 0 Scenes.tested None
                  (repeat (10000%Z, "data:image/jpeg;base64,BB") 11)
                  Hs Ho Hc eq_refl Hall)).
Defined.

(** The click on Measure Distance in the sample session, followed by
    the new interval coming due twice. *)
Lemma measure_click_witness :
  shows (comp (session Examples.signed_in 0 Scenes.calibrate)) MeasureDistance = true /\
  ws_is_open (comp (session Examples.signed_in 0 Scenes.calibrate)) = true /\
  ws (comp (act (Press MeasureDistance None)
              (session Examples.signed_in 0 Scenes.calibrate))) =
  (match truthy_string (token (auth (session Examples.signed_in 0 Scenes.calibrate))) with
   | Some _ => Some CONNECTING
   | None => Some CLOSING
   end).
Proof.
  assert (Hs : shows (comp (session Examples.signed_in 0 Scenes.calibrate)) MeasureDistance
               = true) by (vm_compute; reflexivity).
  assert (Ho : ws_is_open (comp (session Examples.signed_in 0 Scenes.calibrate)) = true)
    by (vm_compute; reflexivity).
  split; [exact Hs|]. split; [exact Ho|].
  exact (proj1 (proj2 (proj2
           (measure_click_replaces_socket (session Examples.signed_in 0 Scenes.calibrate)
              MeasureDistance None [Due 2000 Scenes.shot 1; Due 2100 Scenes.shot 1]
              (or_introl eq_refl) Hs Ho eq_refl)))).
Defined.

(** The countdown of the sample visit, with a late frame, a burst, a
    click, a socket error, a stale interval and two of its own ticks in
    between. *)
Lemma countdown_runs_undisturbed_witness :
  face (visit Examples.signed_in 0 Visits.reached) = Some Visits.counting /\
  showCountdown Visits.counting = true /\
  countdownTimerRef Visits.counting = Some 2%positive /\
  ticks_in 2 Visits.interruptions < countdownValue Visits.counting /\
  match face (browse Visits.interruptions (visit Examples.signed_in 0 Visits.reached)) with
  | None => True
  | Some s' =>
    showCountdown s' = true /\
    countdownValue s' = countdownValue Visits.counting - ticks_in 2 Visits.interruptions /\
    showLandoltTest s' = false /\ isMeasuring s' = false /\
    timers s' = [(2%positive, CbCountdown)] /\
    match face (happen (Plain (Due 5000 None 2))
                  (browse Visits.interruptions
                     (visit Examples.signed_in 0 Visits.reached))) with
    | Some s'' =>
      if (countdownValue s' <=? 1)%nat
      then showLandoltTest s'' = true /\ showCountdown s'' = false /\ timers s'' = []
      else showCountdown s'' = true /\ countdownValue s'' = countdownValue s' - 1
    | None => False
    end
  end.
Proof.
  assert (Hs : face (visit Examples.signed_in 0 Visits.reached) = Some Visits.counting)
    by (vm_compute; reflexivity).
  assert (Hc : showCountdown Visits.counting = true) by reflexivity.
  assert (Hr : countdownTimerRef Visits.counting = Some 2%positive) by reflexivity.
  assert (Hlt : ticks_in 2 Visits.interruptions < countdownValue Visits.counting)
    by (vm_compute; lia).
  split; [exact Hs|]. split; [exact Hc|]. split; [exact Hr|]. split; [exact Hlt|].
  exact (countdown_runs_undisturbed Examples.signed_in 0 Visits.reached
           Visits.interruptions 2 5000 None Visits.counting Hs Hc Hr Hlt).
Defined.

(** The sample measurement right after its fifteenth frame at four
    metres, and a sixteenth handled by the same handler. *)
Lemma stale_handler_witness :
  carries_face (Examples.frame true) = true /\
  truthy_bool (at_target_distance (Examples.frame true)) = true /\
  14 <= consecutiveTargetFrames
          (comp (handle_all true false (Examples.at_times (Examples.frame true) 15)
                   Examples.measuring)) /\
  consecutiveTargetFrames
    (comp (world_of (onmessage true false 2100 (Json (Examples.frame true))
                       (handle_all true false (Examples.at_times (Examples.frame true) 15)
                          Examples.measuring)))) =
  S (consecutiveTargetFrames
       (comp (handle_all true false (Examples.at_times (Examples.frame true) 15)
                Examples.measuring))).
Proof.
  assert (Hn : 14 <= consecutiveTargetFrames
                       (comp (handle_all true false
                                (Examples.at_times (Examples.frame true) 15)
                                Examples.measuring)))
    by (vm_compute; lia).
  split; [reflexivity|]. split; [reflexivity|]. split; [exact Hn|].
  exact (proj2 (stale_handler_restarts_countdown
                  (handle_all true false (Examples.at_times (Examples.frame true) 15)
                     Examples.measuring)
                  2100 (Examples.frame true) eq_refl eq_refl Hn)).
Defined.

(** ** Instances on the sample replies *)

(** A login on a signed-out provider. *)
Lemma granted_token_witness :
  str_truthy (access_token Accounts.grant) = true /\
  fetched
    (provider_run [submit LoginForm "ada@example.org" "pw" "";
                   GrantAnswer (length (pending Accounts.signed_out))
                     (Answered true (Some Accounts.grant))] Accounts.signed_out) =
  fetched Accounts.signed_out ++ request_of LoginForm "ada@example.org" "pw" ""
    :: GetProfile ("Bearer " ++ access_token Accounts.grant)
    :: (if same_token (token (ctx Accounts.signed_out)) (Some (access_token Accounts.grant))
        then [] else [GetProfile ("Bearer " ++ access_token Accounts.grant)]).
Proof.
  split; [reflexivity|].
  exact (proj2 (proj2 (proj2 (proj2
           (granted_token_is_fetched_twice LoginForm "ada@example.org" "pw" ""
              Accounts.grant Accounts.signed_out eq_refl))))).
Defined.

(** A registration whose profile request is answered with a 401. *)
Lemma success_after_logout_witness :
  str_truthy (access_token Accounts.grant) = true /\
  stores_user Accounts.unauthorized = false /\
  returned
    (provider_run [submit RegisterForm "ada@example.org" "pw" "Ada";
                   GrantAnswer (length (pending Accounts.signed_out))
                     (Answered true (Some Accounts.grant));
                   ProfileAnswer (length (pending Accounts.signed_out))
                     Accounts.unauthorized] Accounts.signed_out) =
  returned Accounts.signed_out ++ [Succeeded].
Proof.
  split; [reflexivity|]. split; [reflexivity|].
  exact (proj1 (success_is_returned_after_logout RegisterForm "ada@example.org" "pw" "Ada"
                  Accounts.grant Accounts.unauthorized Accounts.signed_out
                  eq_refl eq_refl)).
Defined.

(** A login with a wrong password. *)
Lemma refused_form_witness :
  grants (Answered false (Some Accounts.refusal)) = false /\
  ctx (provider_run [submit LoginForm "ada@example.org" "wrong" "";
                     GrantAnswer (length (pending Accounts.signed_out))
                       (Answered false (Some Accounts.refusal))] Accounts.signed_out) =
  ctx Accounts.signed_out.
Proof.
  split; [reflexivity|].
  exact (proj1 (refused_form_changes_nothing LoginForm "ada@example.org" "wrong" ""
                  (Answered false (Some Accounts.refusal)) Accounts.signed_out eq_refl)).
Defined.

(** A login whose second profile request fails before the first one
    succeeds. *)
Lemma overtaken_profile_reply_witness :
  str_truthy (access_token Accounts.grant) = true /\
  same_token (token (ctx Accounts.signed_out)) (Some (access_token Accounts.grant)) = false /\
  stores_user Accounts.unauthorized = false /\
  user
    (ctx (provider_run [submit LoginForm "ada@example.org" "pw" "";
                        GrantAnswer (length (pending Accounts.signed_out))
                          (Answered true (Some Accounts.grant));
                        ProfileAnswer (S (length (pending Accounts.signed_out)))
                          Accounts.unauthorized;
                        ProfileAnswer (length (pending Accounts.signed_out))
                          (Answered true (Some (Some "ada")))] Accounts.signed_out)) =
  Some "ada".
Proof.
  split; [reflexivity|]. split; [reflexivity|]. split; [reflexivity|].
  exact (proj1 (overtaken_profile_reply_signs_in_without_token
                  LoginForm "ada@example.org" "pw" "" Accounts.grant Accounts.unauthorized
                  "ada" 0 Accounts.signed_out eq_refl eq_refl eq_refl)).
Defined.
